(** * env-guard (envkeeper): the validator of [src/index.js]

    A shallow embedding of the class [EnvKeeper] and of the JavaScript
    primitives it relies on, followed by the properties of its five
    operations [require], [validate], [get], [check] and [list].

    Conventions of the embedding.
    - A JavaScript string is a [string]; each [ascii] stands for one
      UTF-16 code unit, the model covering the code units 0..255
      (Latin-1).  [String.length] is then the JS [.length].
    - The variables of the process are a finite map from names to
      strings ([gmap string string]).  [process.env] reads and writes
      them through the C interface of the platform (POSIX): a name or a
      value passed to it ends at its first NUL character, and a variable
      whose name is empty or holds [=] cannot be written.  A name that is
      not bound is looked up in the prototype of [process.env]
      ([EnvKeeper.read], [EnvKeeper.write]).
    - An object used as a schema is the list [Object.entries] yields for
      it, in iteration order.
    - A call either returns a value or throws: [Outcome]. *)

From Stdlib Require Import ZArith String Ascii List Bool Lia Permutation.
From stdpp Require Import base strings gmap list pretty.
Import ListNotations.

Local Open Scope string_scope.
Local Open Scope Z_scope.

(** ** JavaScript strings *)

Module JSString.

Definition code (c : ascii) : N := N_of_ascii c.

(** [String.prototype.toLowerCase] on one Latin-1 code unit: A-Z and the
    accented capitals U+00C0..U+00DE (U+00D7, the multiplication sign,
    excepted) move up by 32. *)
Definition lowerChar (c : ascii) : ascii :=
  let n := code c in
  if ((65 <=? n) && (n <=? 90)
      || ((192 <=? n) && (n <=? 222) && negb (n =? 215)))%N
  then ascii_of_N (n + 32) else c.

Fixpoint toLowerCase (s : string) : string :=
  match s with
  | EmptyString => EmptyString
  | String c r => String (lowerChar c) (toLowerCase r)
  end.

(** WhiteSpace and LineTerminator code units below 256: TAB, LF, VT, FF,
    CR, SP and NBSP.  This is the class [\s] of regular expressions and
    the class stripped by [trim] and by [Number]. *)
Definition isWhiteSpace (c : ascii) : bool :=
  let n := code c in
  (((9 <=? n) && (n <=? 13)) || (n =? 32) || (n =? 160))%N.

Fixpoint trimStart (s : string) : string :=
  match s with
  | EmptyString => EmptyString
  | String c r => if isWhiteSpace c then trimStart r else s
  end.

(** Strips trailing white space: a character is kept when something
    other than white space follows it or it is itself not white space. *)
Fixpoint trimEnd (s : string) : string :=
  match s with
  | EmptyString => EmptyString
  | String c r =>
      match trimEnd r with
      | EmptyString => if isWhiteSpace c then EmptyString else String c EmptyString
      | r' => String c r'
      end
  end.

Definition trim (s : string) : string := trimEnd (trimStart s).

(** [Array.prototype.join] on an array of strings. *)
Fixpoint join (sep : string) (l : list string) : string :=
  match l with
  | [] => ""
  | [x] => x
  | x :: r => x ++ sep ++ join sep r
  end.

(** [Array.prototype.includes] on an array of strings ([===]). *)
Definition includes (l : list string) (s : string) : bool :=
  existsb (String.eqb s) l.

(** [s.substring(0, n)]. *)
Definition prefix (n : nat) (s : string) : string := String.substring 0 n s.

(** [s.length] as a JS number (an integer). *)
Definition len (s : string) : Z := Z.of_nat (String.length s).

Definition isEmpty (s : string) : bool :=
  match s with EmptyString => true | _ => false end.

(** A string as the C interface of the platform takes it: up to its
    first NUL character. *)
Definition NUL : ascii := ascii_of_N 0.

Fixpoint cstr (s : string) : string :=
  match s with
  | EmptyString => EmptyString
  | String c r => if Ascii.eqb c NUL then EmptyString else String c (cstr r)
  end.

Fixpoint hasEquals (s : string) : bool :=
  match s with
  | EmptyString => false
  | String c r => Ascii.eqb c "=" || hasEquals r
  end.

End JSString.

(** ** JavaScript numbers and [Number(string)] *)

Module JSNumber.
Import JSString.

(** An IEEE-754 binary64 value: [Finite neg m e] is (-1)^neg * m * 2^e. *)
Inductive t : Type :=
| NaN
| Infinity (negative : bool)
| Finite (negative : bool) (m : Z) (e : Z).

Definition isNaN (x : t) : bool :=
  match x with NaN => true | _ => false end.

Definition isFinite (x : t) : bool :=
  match x with Finite _ _ _ => true | _ => false end.

Definition signed (neg : bool) (m : Z) : Z := if neg then - m else m.

(** [Number.isInteger]. *)
Definition isInteger (x : t) : bool :=
  match x with
  | Finite _ m e => if 0 <=? e then true else m mod 2 ^ (- e) =? 0
  | _ => false
  end.

(** Comparison of a number with an integer constant; [None] for NaN,
    with which every comparison is false. *)
Definition compareZ (x : t) (k : Z) : option comparison :=
  match x with
  | NaN => None
  | Infinity neg => Some (if neg then Lt else Gt)
  | Finite neg m e =>
      if 0 <=? e then Some (signed neg m * 2 ^ e ?= k)
      else Some (signed neg m ?= k * 2 ^ (- e))
  end.

Definition gtZ (x : t) (k : Z) : bool :=
  match compareZ x k with Some Gt => true | _ => false end.

Definition leZ (x : t) (k : Z) : bool :=
  match compareZ x k with Some Lt | Some Eq => true | _ => false end.

(** [denotes x k]: the number [x] is finite and its value is the
    integer [k]. *)
Definition denotes (x : t) (k : Z) : Prop :=
  match x with
  | Finite neg m e =>
      if 0 <=? e then signed neg m * 2 ^ e = k
      else signed neg m = k * 2 ^ (- e)
  | _ => False
  end.

(** *** Rounding a positive rational [n/d] to binary64

    Round to nearest, ties to even, with gradual underflow (exponents
    stop at -1074) and overflow to infinity from 2^1024 on. *)

Definition scale (n d e : Z) : Z * Z :=
  if 0 <=? e then (n, d * 2 ^ e) else (n * 2 ^ (- e), d).

Definition roundHalfEven (n d : Z) : Z :=
  let q := n / d in
  let r := n mod d in
  if 2 * r <? d then q
  else if d <? 2 * r then q + 1
  else if Z.even q then q else q + 1.

Definition binary64 (neg : bool) (n d : Z) : t :=
  let e1 := Z.log2 n - Z.log2 d - 52 in
  let '(n1, d1) := scale n d e1 in
  let e2 := if 2 ^ 52 * d1 <=? n1 then e1 else e1 - 1 in
  let e := Z.max e2 (-1074) in
  let '(n', d') := scale n d e in
  let m := roundHalfEven n' d' in
  if (972 <=? e) || ((971 <=? e) && (2 ^ 53 <=? m)) then Infinity neg
  else Finite neg m e.

(** The value [m * 10^e] of a decimal literal, rounded. *)
Definition ofDecimal (neg : bool) (m e : Z) : t :=
  if m =? 0 then Finite neg 0 0
  else if 0 <=? e then binary64 neg (m * 10 ^ e) 1
  else binary64 neg m (10 ^ (- e)).

(** *** The grammar StringNumericLiteral *)

Definition digitValue (radix : N) (c : ascii) : option Z :=
  let n := code c in
  let v :=
    if ((48 <=? n) && (n <=? 57))%N then Some (n - 48)%N
    else if ((97 <=? n) && (n <=? 102))%N then Some (n - 87)%N
    else if ((65 <=? n) && (n <=? 70))%N then Some (n - 55)%N
    else None in
  match v with
  | Some k => if (k <? radix)%N then Some (Z.of_N k) else None
  | None => None
  end.

(** Reads the longest prefix of digits of the radix: its value as an
    integer, the number of digits read, and the rest of the string. *)
Fixpoint readDigits (radix : N) (acc : Z) (count : Z) (s : string)
  : Z * Z * string :=
  match s with
  | EmptyString => (acc, count, s)
  | String c r =>
      match digitValue radix c with
      | Some k => readDigits radix (acc * Z.of_N radix + k) (count + 1) r
      | None => (acc, count, s)
      end
  end.

(** ExponentPart_opt followed by the end of the literal. *)
Definition parseExponent (mant e : Z) (s : string) : option (Z * Z) :=
  match s with
  | EmptyString => Some (mant, e)
  | String c r =>
      if (code c =? 101)%N || (code c =? 69)%N then
        let '(sgn, r') :=
          match r with
          | String "+" x => (1, x)
          | String "-" x => (-1, x)
          | _ => (1, r)
          end in
        match readDigits 10 0 0 r' with
        | (v, count, EmptyString) =>
            if count =? 0 then None else Some (mant, e + sgn * v)
        | _ => None
        end
      else None
  end.

(** StrUnsignedDecimalLiteral other than [Infinity]: digits, an optional
    fraction, an optional exponent; at least one digit before the
    exponent.  The result [(m, e)] stands for [m * 10^e]. *)
Definition parseUnsignedDecimal (s : string) : option (Z * Z) :=
  let '(ip, ni, r1) := readDigits 10 0 0 s in
  match r1 with
  | String "." r2 =>
      let '(m, nf, r3) := readDigits 10 ip 0 r2 in
      if (ni =? 0) && (nf =? 0) then None else parseExponent m (- nf) r3
  | _ => if ni =? 0 then None else parseExponent ip 0 r1
  end.

(** NonDecimalIntegerLiteral: [0x], [0o] or [0b] (either case) and at
    least one digit of that radix, nothing else. *)
Definition parseNonDecimal (s : string) : option Z :=
  match s with
  | String "0" (String p r) =>
      let radix :=
        if (code (lowerChar p) =? 120)%N then Some 16%N
        else if (code (lowerChar p) =? 111)%N then Some 8%N
        else if (code (lowerChar p) =? 98)%N then Some 2%N
        else None in
      match radix with
      | Some b =>
          match readDigits b 0 0 r with
          | (v, count, EmptyString) => if count =? 0 then None else Some v
          | _ => None
          end
      | None => None
      end
  | _ => None
  end.

(** [Number(s)] for a string [s] (the abstract operation StringToNumber):
    white space is trimmed, the empty literal is 0, a literal outside
    the grammar is NaN. *)
Definition Number (s : string) : t :=
  let lit := trim s in
  if isEmpty lit then Finite false 0 0
  else
    match parseNonDecimal lit with
    | Some n => ofDecimal false n 0
    | None =>
        let '(neg, u) :=
          match lit with
          | String "+" u => (false, u)
          | String "-" u => (true, u)
          | _ => (false, lit)
          end in
        if String.eqb u "Infinity" then Infinity neg
        else
          match parseUnsignedDecimal u with
          | Some (m, e) => ofDecimal neg m e
          | None => NaN
          end
    end.

End JSNumber.

(** ** Values, exceptions and outcomes *)

(** A value that [process.env[name]] finds in the prototype chain when
    no variable has that name: a function or an object, never a string
    (so [process.env.toString] is a function).  What the code can observe
    of it is its image under [String(...)] (the text the regular
    expression, [Number], [new URL] and [JSON.parse] work on) and its
    [length], when that is a number. *)
Record Foreign : Type := mkForeign {
  foreignText : string;
  foreignLength : option Z
}.

(** What [process.env[name]] yields. *)
Inductive EnvValue : Type :=
| Undefined
| Str (s : string)
| Inherited (o : Foreign).

Coercion Str : string >-> EnvValue.

(** [String(value)], also what a template literal prints and what an
    assignment to [process.env] stores. *)
Definition toText (v : EnvValue) : string :=
  match v with
  | Undefined => "undefined"
  | Str s => s
  | Inherited o => foreignText o
  end.

(** [InvalidVariable] of [index.d.ts]: one violation report.  The [value]
    is the value read, which is a string for a variable that is bound. *)
Record InvalidVariable : Type := mkInvalid {
  name : string;
  value : EnvValue;
  expected : string;
  reason : string
}.

(** What the code can throw: its own [EnvKeeperError] (message, missing,
    invalid), a plain [Error] for a malformed argument, the
    [SyntaxError] of [new RegExp] on a pattern that does not compile, and
    the [TypeError] of a string method called on a value that is no
    string. *)
Inductive Exception : Type :=
| EnvKeeperError (message : string) (missing : list string)
                 (invalid : list InvalidVariable)
| Error (message : string)
| SyntaxError (source : string)
| TypeError (message : string).

Inductive Outcome (A : Type) : Type :=
| Return (a : A)
| Throw (e : Exception).
Arguments Return {A} a.
Arguments Throw {A} e.

(** Sequencing of calls that may throw, with stdpp's notation
    [x ← o; k]. *)
#[global] Instance Outcome_bind : MBind Outcome :=
  fun A B (k : A -> Outcome B) (o : Outcome A) =>
    match o with
    | Return a => k a
    | Throw e => Throw e
    end.

(** ** The host: built-ins whose algorithms are not part of the repository *)

(** [RegExp_test p v] is [new RegExp(p).test(v)], [None] when the
    constructor throws; [URL_parses v] tells whether [new URL(v)] returns;
    [JSON_parses v] whether [JSON.parse(v)] returns.  The empty source
    compiles to the empty regular expression, which matches every
    string.  [inherited name] is what the prototype chain of
    [process.env] holds under [name], if anything; it holds [toString].
    [numberText n] is the text of an integer beyond the safe range
    (2^53 and more in absolute value), which JavaScript prints from the
    shortest digits that read back as the same number, and with an
    exponent from 10^21 on. *)
Class Host : Type := {
  RegExp_test : string -> string -> option bool;
  URL_parses : string -> bool;
  JSON_parses : string -> bool;
  RegExp_empty : forall v : string, RegExp_test "" v = Some true;
  inherited : string -> option Foreign;
  inherited_toString : inherited "toString" <> None;
  numberText : Z -> string
}.

(** ** Rules and schemas *)

(** [ValidationRule] of [index.d.ts]; every field is optional.  Length
    bounds are integers. *)
Record ValidationRule : Type := mkRule {
  type : option string;
  minLength : option Z;
  maxLength : option Z;
  pattern : option string;
  enum : option (list string)
}.

(** A schema entry is a bare type tag or a structured rule. *)
Inductive Validation : Type :=
| Tag (t : string)
| Rules (r : ValidationRule).

(** The argument of [validate]: something that is not an object (or is
    [null]), or an object given by its entries. *)
Inductive SchemaArg : Type :=
| NotAnObject
| ObjectOf (entries : list (string * Validation)).

(** The argument of [require]: an array of names, or anything else. *)
Inductive VarsArg : Type :=
| NotAnArray
| ArrayOf (vars : list string).

(** The second argument of [get]: left out ([undefined]), [null], or any
    other value, carried by its image under [String(...)]. *)
Inductive DefaultArg : Type :=
| Omitted
| Null
| Given (str : string).

(** [CheckResult] of [index.d.ts]. *)
Record CheckResult : Type := mkCheck {
  valid : bool;
  missing : list string;
  set : list string
}.

(** ** Truthiness *)

(** [if (x)] for an optional string field: present and not empty. *)
Definition truthyString (o : option string) : option string :=
  match o with
  | Some s => if JSString.isEmpty s then None else Some s
  | None => None
  end.

(** [if (x)] for an optional numeric field: present and not 0. *)
Definition truthyNumber (o : option Z) : option Z :=
  match o with
  | Some n => if n =? 0 then None else Some n
  | None => None
  end.

(** [if (validation)] in [get]: an object is truthy, a string is truthy
    unless empty, [null] and [undefined] are not. *)
Definition truthyValidation (o : option Validation) : option Validation :=
  match o with
  | Some (Tag t) => if JSString.isEmpty t then None else Some (Tag t)
  | Some (Rules r) => Some (Rules r)
  | None => None
  end.

(** [value === undefined || value === ''] *)
Definition isMissing (v : EnvValue) : bool :=
  match v with
  | Undefined => true
  | Str s => JSString.isEmpty s
  | Inherited _ => false
  end.

(** The line feed of the messages. *)
Definition LF : string := String (ascii_of_N 10) EmptyString.

(** The double quote of the messages. *)
Definition DQUOTE : string := String (ascii_of_N 34) EmptyString.

(** Template literals print a safe integer in decimal, digit for
    digit. *)
Definition showZ `{Host} (n : Z) : string :=
  if Z.abs n <? 2 ^ 53 then pretty n else numberText n.

(** ** The class [EnvKeeper] *)

Module EnvKeeper.
Section Validator.
Context `{Host}.

Implicit Types (env : gmap string string) (varName value : string).

(** *** [_validateType] *)

(** The character class [[^\s@]]. *)
Definition emailClass (c : ascii) : bool :=
  negb (JSString.isWhiteSpace c || Ascii.eqb c "@").

Fixpoint allEmailClass (s : string) : bool :=
  match s with
  | EmptyString => true
  | String c r => emailClass c && allEmailClass r
  end.

(** Splits at the first [@]. *)
Fixpoint splitAt (s : string) : option (string * string) :=
  match s with
  | EmptyString => None
  | String c r =>
      if Ascii.eqb c "@" then Some (EmptyString, r)
      else '(a, b) ← splitAt r; Some (String c a, b)
  end.

(** A dot that is not the last character. *)
Fixpoint dotThenMore (s : string) : bool :=
  match s with
  | EmptyString => false
  | String c r =>
      (Ascii.eqb c "." && negb (JSString.isEmpty r)) || dotThenMore r
  end.

(** [/^[^\s@]+@[^\s@]+\.[^\s@]+$/.test(value)]: the three classes
    exclude [@], so the [@] matched is the first one; what follows it is
    free of [@] and of white space and has a dot that is neither its
    first nor its last character. *)
Definition emailRegex_test (value : string) : bool :=
  match splitAt value with
  | Some (local, String c rest) =>
      negb (JSString.isEmpty local) && allEmailClass local
      && allEmailClass (String c rest) && dotThenMore rest
  | _ => false
  end.

Definition _validateType (value expectedType : string) : bool :=
  let tag := JSString.toLowerCase expectedType in
  if String.eqb tag "string" then true
  else if String.eqb tag "number" then
    negb (JSNumber.isNaN (JSNumber.Number value))
    && JSNumber.isFinite (JSNumber.Number value)
  else if String.eqb tag "boolean" then
    JSString.includes ["true"; "false"; "1"; "0"] (JSString.toLowerCase value)
  else if String.eqb tag "url" then URL_parses value
  else if String.eqb tag "email" then emailRegex_test value
  else if String.eqb tag "json" then JSON_parses value
  else if String.eqb tag "port" then
    let port := JSNumber.Number value in
    JSNumber.isInteger port && JSNumber.gtZ port 0 && JSNumber.leZ port 65535
  else true.

(** The same function on a value that is no string, as a name found in
    the prototype chain yields: [typeof value] is not ['string'];
    [Number], [new URL], the regular expression and [JSON.parse] work on
    its text; [value.toLowerCase] is not a function. *)
Definition _validateTypeOfObject (o : Foreign) (expectedType : string)
  : Outcome bool :=
  let tag := JSString.toLowerCase expectedType in
  if String.eqb tag "string" then Return false
  else if String.eqb tag "number" then
    Return (negb (JSNumber.isNaN (JSNumber.Number (foreignText o)))
            && JSNumber.isFinite (JSNumber.Number (foreignText o)))
  else if String.eqb tag "boolean" then
    Throw (TypeError "value.toLowerCase is not a function")
  else if String.eqb tag "url" then Return (URL_parses (foreignText o))
  else if String.eqb tag "email" then Return (emailRegex_test (foreignText o))
  else if String.eqb tag "json" then Return (JSON_parses (foreignText o))
  else if String.eqb tag "port" then
    let port := JSNumber.Number (foreignText o) in
    Return (JSNumber.isInteger port && JSNumber.gtZ port 0
            && JSNumber.leZ port 65535)
  else Return true.

(** *** [process.env] *)

(** [process.env[varName]]: the variable of that name, the name ending
    at its first NUL; when there is none, what the prototype chain holds
    under the name. *)
Definition read env (varName : string) : EnvValue :=
  match env !! JSString.cstr varName with
  | Some value => Str value
  | None =>
      match inherited varName with
      | Some o => Inherited o
      | None => Undefined
      end
  end.

(** [process.env[varName] = value]: the value is stored as a string and
    ends at its first NUL; the platform refuses a name that is empty or
    holds [=], and the assignment is then without effect. *)
Definition storable (varName : string) : bool :=
  negb (JSString.isEmpty (JSString.cstr varName))
  && negb (JSString.hasEquals (JSString.cstr varName)).

Definition write env (varName : string) (value : EnvValue)
  : gmap string string :=
  if storable varName
  then <[JSString.cstr varName := JSString.cstr (toText value)]> env
  else env.

(** *** [require] *)

(** The test of [require], of [check] and of the loop of [validate]:
    [value === undefined || value === ''] on [process.env[varName]]. *)
Definition lookupMissing env (varName : string) : bool :=
  isMissing (read env varName).

Definition require env (vars : VarsArg) : Outcome bool :=
  match vars with
  | NotAnArray => Throw (Error "Variables must be provided as an array")
  | ArrayOf vars =>
      let missing := List.filter (lookupMissing env) vars in
      if (0 <? Z.of_nat (List.length missing)) then
        let message :=
          "Missing required environment variables: "
          ++ JSString.join ", " missing in
        Throw (EnvKeeperError message missing [])
      else Return true
  end.

(** *** [validate] *)

(** [typeof validation === 'string' ? { type: validation } : validation] *)
Definition normalize (validation : Validation) : ValidationRule :=
  match validation with
  | Tag t => mkRule (Some t) None None None None
  | Rules r => r
  end.

(** The four blocks of "additional rules", each as the entries it
    pushes. *)
Definition truncated (value : string) : string :=
  JSString.prefix 10 value ++ "...".

Definition typeEntry varName (v : EnvValue) (t : string) : InvalidVariable :=
  mkInvalid varName v t
    ("Expected " ++ t ++ ", got " ++ DQUOTE ++ toText v ++ DQUOTE).

Definition minLengthEntry varName value (n : Z) : InvalidVariable :=
  mkInvalid varName (truncated value)
    ("minimum length " ++ showZ n)
    ("Length " ++ showZ (JSString.len value)
     ++ " is less than required " ++ showZ n).

Definition maxLengthEntry varName value (n : Z) : InvalidVariable :=
  mkInvalid varName (truncated value)
    ("maximum length " ++ showZ n)
    ("Length " ++ showZ (JSString.len value)
     ++ " exceeds maximum " ++ showZ n).

Definition patternEntry varName value (p : string) : InvalidVariable :=
  mkInvalid varName (truncated value)
    ("pattern " ++ p)
    "Value does not match required pattern".

Definition enumEntry varName (v : EnvValue) (l : list string)
  : InvalidVariable :=
  mkInvalid varName v
    ("one of: " ++ JSString.join ", " l)
    ("Value must be one of: " ++ JSString.join ", " l).

Definition minLengthCheck varName value (rules : ValidationRule)
  : list InvalidVariable :=
  match truthyNumber (minLength rules) with
  | Some n =>
      if JSString.len value <? n then [minLengthEntry varName value n] else []
  | None => []
  end.

Definition maxLengthCheck varName value (rules : ValidationRule)
  : list InvalidVariable :=
  match truthyNumber (maxLength rules) with
  | Some n =>
      if n <? JSString.len value then [maxLengthEntry varName value n] else []
  | None => []
  end.

Definition patternCheck varName value (rules : ValidationRule)
  : Outcome (list InvalidVariable) :=
  match truthyString (pattern rules) with
  | Some p =>
      match RegExp_test p value with
      | None => Throw (SyntaxError p)
      | Some true => Return []
      | Some false => Return [patternEntry varName value p]
      end
  | None => Return []
  end.

Definition enumCheck varName value (rules : ValidationRule)
  : list InvalidVariable :=
  match enum rules with
  | Some l =>
      if JSString.includes l value then [] else [enumEntry varName value l]
  | None => []
  end.

(** The type block: the tag when [rules.type] is set and the check
    fails. *)
Definition typeFails value (rules : ValidationRule) : option string :=
  match truthyString (type rules) with
  | Some t => if _validateType value t then None else Some t
  | None => None
  end.

(** The four blocks in turn; the entries pushed before a pattern that
    does not compile are lost with the exception. *)
Definition additionalRules varName value (rules : ValidationRule)
  : Outcome (list InvalidVariable) :=
  let pushed := (minLengthCheck varName value rules
                 ++ maxLengthCheck varName value rules)%list in
  found ← patternCheck varName value rules;
  Return (pushed ++ found ++ enumCheck varName value rules)%list.

(** The body of the [for] loop for a variable that is set: a failed
    type check pushes one entry and ends the iteration ([continue]);
    otherwise the four blocks run.  The result is what the iteration
    pushes on [invalid]. *)
Definition checkValue varName value (rules : ValidationRule)
  : Outcome (list InvalidVariable) :=
  match typeFails value rules with
  | Some t => Return [typeEntry varName value t]
  | None => additionalRules varName value rules
  end.

(** The same body for a value that is no string.  A type check that
    fails pushes its entry; [value.length] is compared when it is a
    number; a length out of bounds or a pattern that does not match
    reaches [value.substring], which is not a function; no member of
    [rules.enum], a list of strings, is the value. *)
Definition substringOfObject : Exception :=
  TypeError "value.substring is not a function".

Definition lengthOfObject (o : Foreign) (test : Z -> bool) : bool :=
  match foreignLength o with
  | Some n => test n
  | None => false
  end.

Definition additionalRulesOfObject varName (o : Foreign)
    (rules : ValidationRule) : Outcome (list InvalidVariable) :=
  let enumBlock :=
    match enum rules with
    | Some l => [enumEntry varName (Inherited o) l]
    | None => []
    end in
  let patternBlock :=
    match truthyString (pattern rules) with
    | Some p =>
        match RegExp_test p (foreignText o) with
        | None => Throw (SyntaxError p)
        | Some true => Return enumBlock
        | Some false => Throw substringOfObject
        end
    | None => Return enumBlock
    end in
  let maxLengthBlock :=
    match truthyNumber (maxLength rules) with
    | Some n =>
        if lengthOfObject o (fun k => n <? k) then Throw substringOfObject
        else patternBlock
    | None => patternBlock
    end in
  match truthyNumber (minLength rules) with
  | Some n =>
      if lengthOfObject o (fun k => k <? n) then Throw substringOfObject
      else maxLengthBlock
  | None => maxLengthBlock
  end.

Definition checkObject varName (o : Foreign) (rules : ValidationRule)
  : Outcome (list InvalidVariable) :=
  match truthyString (type rules) with
  | Some t =>
      isValid ← _validateTypeOfObject o t;
      if isValid : bool then additionalRulesOfObject varName o rules
      else Return [typeEntry varName (Inherited o) t]
  | None => additionalRulesOfObject varName o rules
  end.

(** The [for] loop over [Object.entries(schema)], with the two arrays
    it pushes on. *)
Fixpoint validateLoop env (entries : list (string * Validation))
    (missing : list string) (invalid : list InvalidVariable)
  : Outcome (list string * list InvalidVariable) :=
  match entries with
  | [] => Return (missing, invalid)
  | (varName, validation) :: rest =>
      match read env varName with
      | Undefined => validateLoop env rest (missing ++ [varName])%list invalid
      | Str value =>
          if JSString.isEmpty value
          then validateLoop env rest (missing ++ [varName])%list invalid
          else
            pushed ← checkValue varName value (normalize validation);
            validateLoop env rest missing (invalid ++ pushed)%list
      | Inherited o =>
          pushed ← checkObject varName o (normalize validation);
          validateLoop env rest missing (invalid ++ pushed)%list
      end
  end.

(** The message of the aggregate error, before [trim]. *)
Definition invalidLines (invalid : list InvalidVariable) : string :=
  fold_left
    (fun message item =>
       message ++ "  - " ++ name item ++ ": " ++ reason item ++ LF)
    invalid "".

Definition validateMessage (missing : list string)
    (invalid : list InvalidVariable) : string :=
  let message := "" in
  let message :=
    if 0 <? Z.of_nat (List.length missing)
    then message ++ "Missing environment variables: "
         ++ JSString.join ", " missing
    else message in
  let message :=
    if 0 <? Z.of_nat (List.length invalid)
    then (if JSString.isEmpty message then message else message ++ LF)
         ++ "Invalid environment variables:" ++ LF ++ invalidLines invalid
    else message in
  message.

Definition validate env (schema : SchemaArg) : Outcome bool :=
  match schema with
  | NotAnObject => Throw (Error "Schema must be an object")
  | ObjectOf entries =>
      '(missing, invalid) ← validateLoop env entries [] [];
      if (0 <? Z.of_nat (List.length missing))
         || (0 <? Z.of_nat (List.length invalid))
      then Throw (EnvKeeperError
                    (JSString.trim (validateMessage missing invalid))
                    missing invalid)
      else Return true
  end.

(** *** [get]

    The call returns or throws, and may have written [process.env]: the
    result is paired with the environment the call leaves. *)
Definition orDefault varName (defaultValue : DefaultArg)
  : Outcome EnvValue :=
  match defaultValue with
  | Given str => Return (Str str)
  | _ => Throw (EnvKeeperError
                  ("Environment variable " ++ varName ++ " is required")
                  [] [])
  end.

(** The first [if]: the value of the variable, or, when it is missing,
    the default as a string; [null], which a default left out becomes,
    is no default. *)
Definition resolve env varName (defaultValue : DefaultArg)
  : Outcome EnvValue :=
  let value := read env varName in
  if isMissing value then orDefault varName defaultValue
  else Return value.

Definition get env varName (defaultValue : DefaultArg)
    (validation : option Validation)
  : Outcome EnvValue * gmap string string :=
  match resolve env varName defaultValue with
  | Throw e => (Throw e, env)
  | Return value =>
      match truthyValidation validation with
      | Some validation =>
          match validate env (ObjectOf [(varName, validation)]) with
          | Return _ => (Return value, env)
          | Throw _ =>
              let env' := write env varName value in
              match validate env' (ObjectOf [(varName, validation)]) with
              | Return _ => (Return value, env')
              | Throw e => (Throw e, env')
              end
          end
      | None => (Return value, env)
      end
  end.

(** *** [check] *)

Definition check env (vars : Datatypes.list string) : CheckResult :=
  let missing := List.filter (lookupMissing env) vars in
  mkCheck (Z.of_nat (List.length missing) =? 0)
          missing
          (List.filter (fun varName => negb (JSString.includes missing varName))
                       vars).

(** *** [list]

    The entries are assigned to a plain object one by one; an assignment
    to its [__proto__] does not create a key. *)
Definition list env (hideValues : bool) : gmap string string :=
  delete "__proto__"
    ((fun value => if hideValues then "[HIDDEN]" else value) <$> env).

End Validator.
End EnvKeeper.

(** A host on which to run examples: every pattern compiles except the
    unterminated group ["("]; the pattern ["^[0-9]+$"] is decided, any other
    pattern is taken to match; URLs and JSON texts are not inspected.  The
    prototype of [process.env] is [Object.prototype], with its functions
    (text and number of parameters) and its accessor [__proto__], which
    yields [Object.prototype] itself.  No example prints a number beyond
    the safe range. *)
Definition nativeFunction (name : string) (arity : Z) : Foreign :=
  mkForeign ("function " ++ name ++ "() { [native code] }") (Some arity).

Definition objectPrototype (name : string) : option Foreign :=
  if String.eqb name "constructor" then Some (nativeFunction "Object" 1)
  else if JSString.includes
            ["toString"; "valueOf"; "toLocaleString"] name
  then Some (nativeFunction name 0)
  else if JSString.includes
            ["hasOwnProperty"; "isPrototypeOf"; "propertyIsEnumerable";
             "__lookupGetter__"; "__lookupSetter__"] name
  then Some (nativeFunction name 1)
  else if JSString.includes ["__defineGetter__"; "__defineSetter__"] name
  then Some (nativeFunction name 2)
  else if String.eqb name "__proto__"
  then Some (mkForeign "[object Object]" None)
  else None.

Definition allDigits (s : string) : bool :=
  match JSNumber.readDigits 10 0 0 s with
  | (_, count, EmptyString) => negb (count =? 0)
  | _ => false
  end.

#[local] Instance sampleHost : Host := {|
  RegExp_test p v :=
    if String.eqb p "(" then None
    else if String.eqb p "^[0-9]+$" then Some (allDigits v)
    else Some true;
  URL_parses _ := true;
  JSON_parses _ := true;
  RegExp_empty _ := eq_refl;
  inherited := objectPrototype;
  inherited_toString := ltac:(discriminate);
  numberText n := pretty n
|}.

(** ** What the operations are expected to compute *)

Section Expected.
Context `{Host}.

Implicit Types (env : gmap string string).

(** A variable is set when its name, as the platform takes it, is bound
    to a string other than the empty one. *)
Definition isSet env (varName : string) : Prop :=
  exists value, env !! JSString.cstr varName = Some value /\ value <> "".

(** The same as a test. *)
Definition isSetb env (varName : string) : bool :=
  match env !! JSString.cstr varName with
  | Some value => negb (JSString.isEmpty value)
  | None => false
  end.

(** The name reads as a variable or as nothing: it is bound in the
    environment, or it is no property of the prototype of
    [process.env]. *)
Definition ownName env (varName : string) : Prop :=
  env !! JSString.cstr varName <> None \/ inherited varName = None.

(** No name that designates the variable [key] is a property of the
    prototype. *)
Definition ownKey (key : string) : Prop :=
  forall varName, JSString.cstr varName = key -> inherited varName = None.

(** The names of a schema that are missing, in iteration order. *)
Definition missingOf env (entries : list (string * Validation))
  : list string :=
  List.filter (EnvKeeper.lookupMissing env) (List.map fst entries).

(** The violations of a schema, in iteration order: those of each
    variable that is set, one variable after the other. *)
Fixpoint invalidOf env (entries : list (string * Validation))
  : Outcome (list InvalidVariable) :=
  match entries with
  | [] => Return []
  | (varName, validation) :: rest =>
      match EnvKeeper.read env varName with
      | Undefined => invalidOf env rest
      | Str value =>
          if JSString.isEmpty value then invalidOf env rest
          else
            pushed ← EnvKeeper.checkValue varName value
                       (EnvKeeper.normalize validation);
            more ← invalidOf env rest;
            Return (pushed ++ more)%list
      | Inherited o =>
          pushed ← EnvKeeper.checkObject varName o
                     (EnvKeeper.normalize validation);
          more ← invalidOf env rest;
          Return (pushed ++ more)%list
      end
  end.

(** The checks of one variable that is set, read off the rule: a field
    counts when it is present. *)
Definition expectedType (v : string) (rules : ValidationRule)
  : option string :=
  match type rules with
  | Some t => if EnvKeeper._validateType v t then None else Some t
  | None => None
  end.

Definition expectedMinLength (varName v : string) (rules : ValidationRule)
  : list InvalidVariable :=
  match minLength rules with
  | Some n =>
      if JSString.len v <? n then [EnvKeeper.minLengthEntry varName v n] else []
  | None => []
  end.

Definition expectedMaxLength (varName v : string) (rules : ValidationRule)
  : list InvalidVariable :=
  match maxLength rules with
  | Some n =>
      if n <? JSString.len v then [EnvKeeper.maxLengthEntry varName v n] else []
  | None => []
  end.

Definition expectedPattern (varName v : string) (rules : ValidationRule)
  : Outcome (list InvalidVariable) :=
  match pattern rules with
  | Some p =>
      match RegExp_test p v with
      | None => Throw (SyntaxError p)
      | Some true => Return []
      | Some false => Return [EnvKeeper.patternEntry varName v p]
      end
  | None => Return []
  end.

Definition expectedEnum (varName v : string) (rules : ValidationRule)
  : list InvalidVariable :=
  match enum rules with
  | Some l =>
      if JSString.includes l v then [] else [EnvKeeper.enumEntry varName v l]
  | None => []
  end.

(** A type failure is the only entry of the variable; otherwise each of
    the four constraints that is present contributes on its own. *)
Definition expectedCheck (varName v : string) (rules : ValidationRule)
  : Outcome (list InvalidVariable) :=
  match expectedType v rules with
  | Some t => Return [EnvKeeper.typeEntry varName v t]
  | None =>
      found ← expectedPattern varName v rules;
      Return (expectedMinLength varName v rules
              ++ expectedMaxLength varName v rules
              ++ found ++ expectedEnum varName v rules)%list
  end.

(** The value [get] resolves: the variable when it is set, else the
    default when there is one. *)
Definition resolvedValue env (varName : string) (defaultValue : DefaultArg)
  : option string :=
  if isSetb env varName then env !! JSString.cstr varName
  else
    match defaultValue with
    | Given str => Some str
    | _ => None
    end.

(** Two environments that differ only in binding a name to the empty
    string or not binding it. *)
Definition absentOrEmpty (o : option string) : Prop :=
  o = None \/ o = Some "".

Definition sameSet env1 env2 : Prop :=
  forall varName : string,
    (inherited varName = None
     /\ absentOrEmpty (env1 !! JSString.cstr varName)
     /\ absentOrEmpty (env2 !! JSString.cstr varName))
    \/ env1 !! JSString.cstr varName = env2 !! JSString.cstr varName.

(** An [EnvKeeperError] names at least one missing or invalid
    variable. *)
Definition populated (e : Exception) : Prop :=
  match e with
  | EnvKeeperError _ missing invalid => missing <> [] \/ invalid <> []
  | _ => True
  end.

Definition raisesPopulated {A : Type} (o : Outcome A) : Prop :=
  match o with
  | Throw e => populated e
  | Return _ => True
  end.

Definition requiredError (varName : string) : Exception :=
  EnvKeeperError ("Environment variable " ++ varName ++ " is required") [] [].

End Expected.

(** ** Sample environments and rules *)

Module Sample.

(** [A] is not bound, [B] is bound to a string that is no number. *)
Definition envAB : gmap string string := <["B" := "abc"]> ∅.

(** The scenarios of the test suite. *)
Definition envApiKey : gmap string string := <["API_KEY" := "123"]> ∅.
Definition envNodeEnv : gmap string string := <["NODE_ENV" := "production"]> ∅.
Definition envSecret : gmap string string := <["TEST_VAR" := "secret"]> ∅.

Definition minLength10 : ValidationRule :=
  mkRule (Some "string") (Some 10) None None None.

Definition nodeEnvs : ValidationRule :=
  mkRule None None None None (Some ["development"; "production"; "test"]).

(** [{ maxLength: 0 }] and a variable that is set. *)
Definition maxLength0 : ValidationRule :=
  mkRule None None (Some 0) None None.
Definition envV : gmap string string := <["V" := "abc"]> ∅.

(** A number written in digits, and a pattern that does not compile. *)
Definition digitsNumber : ValidationRule :=
  mkRule (Some "number") None None (Some "^[0-9]+$") None.
Definition badPattern : ValidationRule :=
  mkRule None None None (Some "(") None.

(** Every constraint at once, on a value that fails them all. *)
Definition allFour : ValidationRule :=
  mkRule (Some "String") (Some 20) (Some 2) (Some "^[0-9]+$") (Some ["a"; "b"]).

End Sample.

(** ** Further notions, for the properties of the whole class *)

Section Further.
Context `{Host}.

(** What the checks of [validate] ask of a value that is set, field by
    field, as the code tests them: a [maxLength] of 0 asks nothing. *)
Definition ruleHolds (v : string) (r : ValidationRule) : Prop :=
  (forall t, type r = Some t -> EnvKeeper._validateType v t = true)
  /\ (forall k, minLength r = Some k -> k <= JSString.len v)
  /\ (forall k, maxLength r = Some k -> k <> 0 -> JSString.len v <= k)
  /\ (forall p, pattern r = Some p -> RegExp_test p v = Some true)
  /\ (forall l, enum r = Some l -> In v l).

(** Every variable of the schema is set and meets its rule. *)
Definition schemaHolds (env : gmap string string)
    (entries : list (string * Validation)) : Prop :=
  forall varName rule,
    In (varName, rule) entries ->
    exists v, env !! JSString.cstr varName = Some v /\ v <> ""
              /\ ruleHolds v (EnvKeeper.normalize rule).

(** The schema [{ n1: 'string', n2: 'string', ... }]. *)
Definition bareStrings (vars : list string) : list (string * Validation) :=
  List.map (fun varName => (varName, Tag "string")) vars.

(** A non-empty string free of white space and of [@]. *)
Definition emailPart (s : string) : Prop :=
  s <> ""
  /\ Forall (fun c => JSString.isWhiteSpace c = false /\ c <> "@"%char)
            (list_ascii_of_string s).

(** [local@domain.tld], the language of the regular expression of the
    [email] type. *)
Definition emailShape (v : string) : Prop :=
  exists a b c,
    v = a ++ "@" ++ b ++ "." ++ c
    /\ emailPart a /\ emailPart b /\ emailPart c.

(** Strings of decimal digits and the integer they write. *)
Definition isDigit (c : ascii) : bool :=
  ((48 <=? JSString.code c) && (JSString.code c <=? 57))%N.

Fixpoint allDigitChars (s : string) : bool :=
  match s with
  | EmptyString => true
  | String c r => isDigit c && allDigitChars r
  end.

Fixpoint decimalValue (acc : Z) (s : string) : Z :=
  match s with
  | EmptyString => acc
  | String c r => decimalValue (acc * 10 + (Z.of_N (JSString.code c) - 48)) r
  end.

Fixpoint allWhiteSpace (s : string) : bool :=
  match s with
  | EmptyString => true
  | String c r => JSString.isWhiteSpace c && allWhiteSpace r
  end.

End Further.

Module SampleMore.

(** Two secrets with the same first ten characters and the same length. *)
Definition secret1 : string := "0123456789abcdef".
Definition secret2 : string := "0123456789ABCDEF".

Definition envPort : gmap string string := <["PORT" := "8080"]> ∅.
Definition envPortHost : gmap string string :=
  <["HOST" := "localhost"]> (<["PORT" := "8080"]> ∅).

(** At least 32 characters, all of them digits. *)
Definition longDigits : ValidationRule :=
  mkRule None (Some 32) None (Some "^[0-9]+$") None.

Definition portRule : ValidationRule :=
  mkRule (Some "port") (Some 2) (Some 5) (Some "^[0-9]+$") None.

(** The integer 10^310 written out: a one and 310 zeros. *)
Definition hugeLiteral : string :=
  String "1" (String.concat "" (List.repeat "0000000000" 31)).

End SampleMore.

(** ** Basic facts *)

Lemma isEmpty_true (s : string) : JSString.isEmpty s = true <-> s = "".
Proof. destruct s; simpl; split; congruence. Qed.

Lemma isEmpty_false (s : string) : JSString.isEmpty s = false <-> s <> "".
Proof. destruct s; simpl; split; congruence. Qed.

Lemma isMissing_true (v : EnvValue) :
  isMissing v = true <-> v = Undefined \/ v = Str "".
Proof.
  destruct v as [|s|o]; simpl.
  - split; auto.
  - rewrite isEmpty_true. split.
    + intros ->. now right.
    + intros [?|?]; congruence.
  - split; [discriminate|]. intros [?|?]; discriminate.
Qed.

Lemma positive_length {A : Type} (l : list A) :
  (0 <? Z.of_nat (List.length l)) = match l with [] => false | _ => true end.
Proof. destruct l; [reflexivity|]. cbn [List.length]. apply Z.ltb_lt. lia. Qed.

Lemma zero_length {A : Type} (l : list A) :
  (Z.of_nat (List.length l) =? 0) = match l with [] => true | _ => false end.
Proof. destruct l; [reflexivity|]. cbn [List.length]. apply Z.eqb_neq. lia. Qed.

Lemma filter_nil_Forall {A : Type} (f : A -> bool) (l : list A) :
  List.filter f l = [] <-> Forall (fun x => f x = false) l.
Proof.
  induction l as [|x l IH]; simpl.
  - split; auto.
  - destruct (f x) eqn:E.
    + split; [discriminate|]. intros HF. inversion HF; congruence.
    + rewrite IH. split.
      * intros HF. now constructor.
      * intros HF. now inversion HF.
Qed.

Lemma filter_sublist_of {A : Type} (f : A -> bool) (l : list A) :
  sublist (List.filter f l) l.
Proof.
  induction l as [|x l IH]; simpl.
  - constructor.
  - destruct (f x); now constructor.
Qed.

Lemma includes_In (l : list string) (s : string) :
  JSString.includes l s = true <-> In s l.
Proof.
  unfold JSString.includes. rewrite existsb_exists. split.
  - intros (x & Hx & He). apply String.eqb_eq in He. now subst.
  - intros Hin. exists s. split; [assumption|]. apply String.eqb_refl.
Qed.

Lemma filter_partition {A : Type} (f : A -> bool) (l : list A) :
  Permutation (List.filter (fun x => negb (f x)) l ++ List.filter f l) l.
Proof.
  induction l as [|x l IH]; simpl.
  - constructor.
  - destruct (f x); simpl.
    + rewrite <- Permutation_middle. now constructor.
    + now constructor.
Qed.

(** ** Reading the environment *)

Section ReadFacts.
Context `{Host}.

Implicit Types (env : gmap string string).

Lemma read_bound env (varName value : string) :
  env !! JSString.cstr varName = Some value ->
  EnvKeeper.read env varName = Str value.
Proof. intros Hv. unfold EnvKeeper.read. now rewrite Hv. Qed.

Lemma read_inherited env (varName : string) (o : Foreign) :
  env !! JSString.cstr varName = None -> inherited varName = Some o ->
  EnvKeeper.read env varName = Inherited o.
Proof. intros Hv Hi. unfold EnvKeeper.read. now rewrite Hv, Hi. Qed.

Lemma read_own env (varName : string) :
  ownName env varName ->
  EnvKeeper.read env varName
  = match env !! JSString.cstr varName with
    | Some value => Str value
    | None => Undefined
    end.
Proof.
  intros [Hb|Hi]; unfold EnvKeeper.read.
  - destruct (env !! JSString.cstr varName); [reflexivity|congruence].
  - rewrite Hi. reflexivity.
Qed.

Lemma read_not_inherited env (varName : string) :
  ownName env varName <-> forall o, EnvKeeper.read env varName <> Inherited o.
Proof.
  unfold ownName, EnvKeeper.read. split.
  - intros Hown o.
    destruct (env !! JSString.cstr varName) as [v|]; [discriminate|].
    destruct Hown as [Hb|Hi]; [congruence|]. rewrite Hi. discriminate.
  - intros Hno. destruct (env !! JSString.cstr varName) as [v|].
    + left. discriminate.
    + right. destruct (inherited varName) as [o|]; [|reflexivity].
      now destruct (Hno o).
Qed.

(** A string the platform takes whole: one without NUL. *)
Lemma cstr_plain (s : string) :
  JSString.cstr s = s <-> ~ In JSString.NUL (list_ascii_of_string s).
Proof.
  induction s as [|c s IH]; cbn [JSString.cstr list_ascii_of_string In].
  - split; [intros _ []|reflexivity].
  - destruct (Ascii.eqb_spec c JSString.NUL) as [->|Hne].
    + split; [discriminate|]. intros Hn. exfalso. apply Hn. now left.
    + split.
      * intros [= Hs] [Hc|Hin]; [congruence|]. now apply IH in Hs.
      * intros Hn. f_equal. apply IH. intros Hin. apply Hn. now right.
Qed.

Lemma hasEquals_spec (s : string) :
  JSString.hasEquals s = true <-> In "="%char (list_ascii_of_string s).
Proof.
  induction s as [|c s IH]; cbn [JSString.hasEquals list_ascii_of_string In].
  - split; [discriminate|intros []].
  - rewrite orb_true_iff, IH. split.
    + intros [Hc|Hin]; [left; symmetry; now apply Ascii.eqb_eq|now right].
    + intros [Hc|Hin]; [left; apply Ascii.eqb_eq; congruence|now right].
Qed.

(** The names the platform stores: up to their first NUL they are not
    empty and hold no [=]. *)
Lemma storable_spec (varName : string) :
  EnvKeeper.storable varName = true
  <-> JSString.cstr varName <> ""
      /\ ~ In "="%char (list_ascii_of_string (JSString.cstr varName)).
Proof.
  unfold EnvKeeper.storable.
  rewrite andb_true_iff, !negb_true_iff, isEmpty_false.
  rewrite <- hasEquals_spec.
  now destruct (JSString.hasEquals (JSString.cstr varName)).
Qed.

Lemma isSetb_true env (varName : string) :
  isSetb env varName = true <-> isSet env varName.
Proof.
  unfold isSetb, isSet.
  destruct (env !! JSString.cstr varName) as [s|].
  - rewrite negb_true_iff, isEmpty_false. split.
    + intros Hs. now exists s.
    + intros (v & Hv & Hne). congruence.
  - split; [discriminate|]. intros (v & Hv & _). discriminate.
Qed.

Lemma isSetb_false env (varName : string) :
  isSetb env varName = false
  <-> absentOrEmpty (env !! JSString.cstr varName).
Proof.
  unfold isSetb, absentOrEmpty.
  destruct (env !! JSString.cstr varName) as [s|].
  - rewrite negb_false_iff, isEmpty_true. split.
    + intros ->. now right.
    + intros [?|?]; congruence.
  - split; auto.
Qed.

Lemma not_isSet env (varName : string) :
  ~ isSet env varName <-> absentOrEmpty (env !! JSString.cstr varName).
Proof.
  rewrite <- isSetb_true, <- isSetb_false. now destruct (isSetb env varName).
Qed.

(** A variable that is set is never missing, whatever the prototype
    holds. *)
Lemma lookupMissing_set env (varName : string) :
  isSet env varName -> EnvKeeper.lookupMissing env varName = false.
Proof.
  intros (v & Hv & Hne). unfold EnvKeeper.lookupMissing.
  rewrite (read_bound _ _ _ Hv). now apply isEmpty_false.
Qed.

(** A name that is reported missing is unbound or bound to the empty
    string. *)
Lemma lookupMissing_absent env (varName : string) :
  EnvKeeper.lookupMissing env varName = true ->
  absentOrEmpty (env !! JSString.cstr varName).
Proof.
  unfold EnvKeeper.lookupMissing, EnvKeeper.read, absentOrEmpty.
  destruct (env !! JSString.cstr varName) as [v|]; [|now left].
  cbn. intros ->%isEmpty_true. now right.
Qed.

(** For a name that the prototype does not answer, missing is the
    contrary of set. *)
Lemma lookupMissing_own env (varName : string) :
  ownName env varName ->
  EnvKeeper.lookupMissing env varName = negb (isSetb env varName).
Proof.
  intros Hown. unfold EnvKeeper.lookupMissing, isSetb.
  rewrite read_own by assumption.
  destruct (env !! JSString.cstr varName) as [v|]; cbn; [|reflexivity].
  now rewrite negb_involutive.
Qed.

(** A name of the prototype that is not bound is never missing. *)
Lemma lookupMissing_inherited env (varName : string) :
  env !! JSString.cstr varName = None -> inherited varName <> None ->
  EnvKeeper.lookupMissing env varName = false.
Proof.
  intros Hv Hi. unfold EnvKeeper.lookupMissing, EnvKeeper.read.
  rewrite Hv. now destruct (inherited varName).
Qed.

Lemma filter_own env (vars : list string) :
  Forall (ownName env) vars ->
  List.filter (EnvKeeper.lookupMissing env) vars
  = List.filter (fun varName => negb (isSetb env varName)) vars.
Proof.
  intros Hown. apply filter_ext_in. intros x Hx.
  apply lookupMissing_own. now apply (proj1 (List.Forall_forall _ _) Hown).
Qed.

(** [check]'s second filter, stated on the first. *)
Lemma set_filter env (vars : list string) :
  List.filter
    (fun varName =>
       negb (JSString.includes (List.filter (EnvKeeper.lookupMissing env) vars)
                               varName)) vars
  = List.filter (fun varName => negb (EnvKeeper.lookupMissing env varName)) vars.
Proof.
  apply filter_ext_in. intros x Hx. f_equal.
  destruct (EnvKeeper.lookupMissing env x) eqn:E.
  - apply includes_In, filter_In. now split.
  - apply not_true_iff_false. rewrite includes_In, filter_In. intros [_ ?]. congruence.
Qed.

Lemma missing_members env (vars : list string) (varName : string) :
  In varName (List.filter (fun n => negb (isSetb env n)) vars)
  <-> In varName vars /\ absentOrEmpty (env !! JSString.cstr varName).
Proof. now rewrite filter_In, negb_true_iff, isSetb_false. Qed.

Lemma set_members env (vars : list string) (varName : string) :
  In varName (List.filter (isSetb env) vars)
  <-> In varName vars /\ isSet env varName.
Proof. now rewrite filter_In, isSetb_true. Qed.

Lemma no_missing_all_set env (vars : list string) :
  List.filter (fun n => negb (isSetb env n)) vars = []
  <-> Forall (isSet env) vars.
Proof.
  rewrite filter_nil_Forall. split; intros HF; induction HF; constructor;
    try assumption.
  - apply isSetb_true. now apply negb_false_iff.
  - apply negb_false_iff. now apply isSetb_true.
Qed.

Lemma require_outcome env (vars : list string) :
  let missing := List.filter (EnvKeeper.lookupMissing env) vars in
  EnvKeeper.require env (ArrayOf vars)
  = match missing with
    | [] => Return true
    | _ => Throw (EnvKeeperError
                    ("Missing required environment variables: "
                     ++ JSString.join ", " missing)
                    missing [])
    end.
Proof.
  intros missing. unfold EnvKeeper.require. fold missing.
  rewrite positive_length. now destruct missing.
Qed.

(** The one name [toString] on the empty environment: it is not set,
    and the prototype answers for it. *)
Lemma toString_not_missing :
  EnvKeeper.lookupMissing ∅ "toString" = false.
Proof. apply lookupMissing_inherited; [reflexivity|apply inherited_toString]. Qed.

Lemma toString_not_set : ~ isSet (∅ : gmap string string) "toString".
Proof. intros (v & Hv & _). discriminate. Qed.

End ReadFacts.

(** ** [require] and [check] *)

(** C6: [require(['toString'])] returns [true] on the empty environment,
    where no such variable is set: the name is read from the prototype
    of [process.env].  For names that are bound or that the prototype
    does not answer, [require(names)] returns [true] exactly when every
    name is bound to a non-empty string; otherwise it throws one
    [EnvKeeperError] whose [missing] is the sub-sequence of the names
    that are unbound or bound to the empty string, in input order, with
    no [invalid] entry, and whose message is "Missing required
    environment variables: " followed by these names joined with ", ".
    For all names: names that are all set pass, a name reported missing
    is unbound or empty, and [require([])] returns [true]. *)
Theorem require_lists_every_missing_name `{Host}
    (env : gmap string string) (vars : list string) :
  (EnvKeeper.require ∅ (ArrayOf ["toString"]) = Return true
   /\ ~ isSet ∅ "toString")
  /\ (Forall (ownName env) vars ->
      let missing :=
        List.filter (fun varName => negb (isSetb env varName)) vars in
      EnvKeeper.require env (ArrayOf vars)
      = match missing with
        | [] => Return true
        | _ => Throw (EnvKeeperError
                        ("Missing required environment variables: "
                         ++ JSString.join ", " missing)
                        missing [])
        end
      /\ (EnvKeeper.require env (ArrayOf vars) = Return true
          <-> Forall (isSet env) vars)
      /\ (missing = [] <-> Forall (isSet env) vars)
      /\ sublist missing vars
      /\ (forall varName,
            In varName missing
            <-> In varName vars
                /\ absentOrEmpty (env !! JSString.cstr varName)))
  /\ (Forall (isSet env) vars ->
      EnvKeeper.require env (ArrayOf vars) = Return true)
  /\ (forall message missing invalid,
        EnvKeeper.require env (ArrayOf vars)
        = Throw (EnvKeeperError message missing invalid) ->
        invalid = [] /\ missing <> [] /\ sublist missing vars
        /\ (forall varName,
              In varName missing ->
              absentOrEmpty (env !! JSString.cstr varName))
        /\ message = "Missing required environment variables: "
                     ++ JSString.join ", " missing)
  /\ EnvKeeper.require env (ArrayOf []) = Return true.
Proof.
  pose proof (require_outcome env vars) as Heq. cbn zeta in Heq.
  split.
  { split; [|apply toString_not_set].
    rewrite require_outcome. cbn [List.filter].
    now rewrite toString_not_missing. }
  split.
  { intros Hown missing. rewrite filter_own in Heq by assumption.
    fold missing in Heq.
    split; [exact Heq|].
    split.
    { rewrite Heq, <- no_missing_all_set. fold missing.
      destruct missing; split; intros; congruence. }
    split; [apply no_missing_all_set|].
    split; [apply filter_sublist_of|].
    intros varName. apply missing_members. }
  split.
  { intros Hset. rewrite Heq.
    replace (List.filter (EnvKeeper.lookupMissing env) vars) with (@nil string);
      [reflexivity|].
    symmetry. apply filter_nil_Forall.
    clear Heq. induction Hset as [|x l Hx Hl IH]; constructor;
      [now apply lookupMissing_set|assumption]. }
  split; [|reflexivity].
  intros message missing invalid. rewrite Heq. clear Heq.
  pose proof (filter_sublist_of (EnvKeeper.lookupMissing env) vars) as Hsub.
  assert (Habs : forall varName,
            In varName (List.filter (EnvKeeper.lookupMissing env) vars) ->
            absentOrEmpty (env !! JSString.cstr varName)).
  { intros varName [_ Hv]%filter_In. now apply lookupMissing_absent. }
  revert Hsub Habs.
  generalize (List.filter (EnvKeeper.lookupMissing env) vars) as found.
  intros [|n m] Hsub Habs; [discriminate|].
  intros [= <- <- <-].
  split; [reflexivity|]. split; [discriminate|].
  split; [assumption|]. split; [assumption|reflexivity].
Qed.

(** C8: [check(['toString'])] on the empty environment reports the name
    as set and nothing missing, for the same reason.  [check(names)] is
    a total function; [valid] is [true] exactly when [missing] is empty;
    [missing] is the very list [require] reports; [set] is the
    sub-sequence of the names that are not in [missing]; no name is in
    both, both keep the input order, and together they hold every
    occurrence of every name once.  A name in [missing] is unbound or
    bound to the empty string, and a name that is set is in [set]; for
    names that are bound or that the prototype does not answer,
    [missing] is exactly the sub-sequence of the names that are unbound
    or empty and [set] that of the names that are set. *)
Theorem check_partitions_names `{Host}
    (env : gmap string string) (vars : list string) :
  let result := EnvKeeper.check env vars in
  (EnvKeeper.check ∅ ["toString"] = mkCheck true [] ["toString"]
   /\ ~ isSet ∅ "toString")
  /\ (valid result = true <-> missing result = [])
  /\ EnvKeeper.require env (ArrayOf vars)
     = (if valid result then Return true
        else Throw (EnvKeeperError
                      ("Missing required environment variables: "
                       ++ JSString.join ", " (missing result))
                      (missing result) []))
  /\ set result
     = List.filter (fun varName => negb (JSString.includes (missing result) varName))
                   vars
  /\ (forall varName, In varName (set result) -> ~ In varName (missing result))
  /\ (forall varName, In varName vars
                      <-> In varName (set result) \/ In varName (missing result))
  /\ sublist (missing result) vars
  /\ sublist (set result) vars
  /\ Permutation (set result ++ missing result) vars
  /\ (forall varName,
        In varName (missing result) ->
        absentOrEmpty (env !! JSString.cstr varName))
  /\ (forall varName,
        In varName vars -> isSet env varName -> In varName (set result))
  /\ (Forall (ownName env) vars ->
      missing result
      = List.filter (fun varName => negb (isSetb env varName)) vars
      /\ set result = List.filter (isSetb env) vars
      /\ (forall varName,
            In varName (missing result)
            <-> In varName vars
                /\ absentOrEmpty (env !! JSString.cstr varName))
      /\ (forall varName,
            In varName (set result)
            <-> In varName vars /\ isSet env varName)).
Proof.
  intros result. subst result.
  split.
  { split; [|apply toString_not_set].
    unfold EnvKeeper.check. cbn [List.filter].
    rewrite toString_not_missing. reflexivity. }
  unfold EnvKeeper.check. cbn [valid missing set].
  rewrite set_filter, zero_length.
  set (m := List.filter (EnvKeeper.lookupMissing env) vars).
  split; [destruct m; split; congruence|].
  split.
  { pose proof (require_outcome env vars) as Heq.
    cbn zeta in Heq. fold m in Heq. rewrite Heq. now destruct m. }
  split; [reflexivity|].
  split.
  { intros varName Hs Hm. apply filter_In in Hs, Hm.
    destruct Hs as [_ Hs], Hm as [_ Hm]. rewrite Hm in Hs. discriminate. }
  split.
  { intros varName. unfold m. rewrite !filter_In.
    destruct (EnvKeeper.lookupMissing env varName); simpl; tauto. }
  split; [apply filter_sublist_of|].
  split; [apply filter_sublist_of|].
  split; [apply filter_partition|].
  split.
  { intros varName [_ Hv]%filter_In. now apply lookupMissing_absent. }
  split.
  { intros varName Hin Hset. apply filter_In. split; [assumption|].
    now rewrite lookupMissing_set. }
  intros Hown.
  assert (Hm : m = List.filter (fun varName => negb (isSetb env varName)) vars)
    by now apply filter_own.
  assert (Hs : List.filter (fun varName => negb (EnvKeeper.lookupMissing env varName))
                 vars
               = List.filter (isSetb env) vars).
  { apply filter_ext_in. intros x Hx. rewrite lookupMissing_own.
    - apply negb_involutive.
    - now apply (proj1 (List.Forall_forall _ _) Hown). }
  rewrite Hs, Hm.
  split; [reflexivity|]. split; [reflexivity|].
  split; intros varName; [apply missing_members|apply set_members].
Qed.

(** ** The checks of one variable *)

Section CheckFacts.
Context `{Host}.

Lemma truthyString_type (v : string) (rules : ValidationRule) :
  EnvKeeper.typeFails v rules = expectedType v rules.
Proof.
  unfold EnvKeeper.typeFails, expectedType, truthyString.
  destruct (type rules) as [[|c t]|]; reflexivity.
Qed.

Lemma minLengthCheck_expected (varName v : string) (rules : ValidationRule) :
  EnvKeeper.minLengthCheck varName v rules = expectedMinLength varName v rules.
Proof.
  unfold EnvKeeper.minLengthCheck, expectedMinLength, truthyNumber.
  destruct (minLength rules) as [n|]; [|reflexivity].
  destruct (n =? 0) eqn:Hn; [|reflexivity].
  apply Z.eqb_eq in Hn. subst n.
  destruct (JSString.len v <? 0) eqn:Hl; [|reflexivity].
  apply Z.ltb_lt in Hl. unfold JSString.len in Hl. lia.
Qed.

Lemma maxLengthCheck_expected (varName v : string) (rules : ValidationRule) :
  maxLength rules <> Some 0 ->
  EnvKeeper.maxLengthCheck varName v rules = expectedMaxLength varName v rules.
Proof.
  intros Hne. unfold EnvKeeper.maxLengthCheck, expectedMaxLength, truthyNumber.
  destruct (maxLength rules) as [n|]; [|reflexivity].
  destruct (n =? 0) eqn:Hn; [|reflexivity].
  apply Z.eqb_eq in Hn. congruence.
Qed.

Lemma maxLengthCheck_zero (varName v : string) (rules : ValidationRule) :
  maxLength rules = Some 0 ->
  EnvKeeper.maxLengthCheck varName v rules = [].
Proof.
  intros Hz. unfold EnvKeeper.maxLengthCheck, truthyNumber. now rewrite Hz.
Qed.

Lemma patternCheck_expected (varName v : string) (rules : ValidationRule) :
  EnvKeeper.patternCheck varName v rules = expectedPattern varName v rules.
Proof.
  unfold EnvKeeper.patternCheck, expectedPattern, truthyString.
  destruct (pattern rules) as [[|c p]|]; try reflexivity.
  cbn [JSString.isEmpty]. now rewrite RegExp_empty.
Qed.

Lemma enumCheck_expected (varName v : string) (rules : ValidationRule) :
  EnvKeeper.enumCheck varName v rules = expectedEnum varName v rules.
Proof. reflexivity. Qed.

Lemma truncated_prefix (v : string) :
  (exists rest, v = JSString.prefix 10 v ++ rest)
  /\ String.length (JSString.prefix 10 v) = Nat.min 10 (String.length v).
Proof.
  unfold JSString.prefix. generalize 10%nat as n.
  induction v as [|c v IH]; intros n.
  - destruct n; cbn; split; try reflexivity; now exists "".
  - destruct n as [|n]; cbn [String.substring String.length Nat.min].
    + split; [|reflexivity]. now exists (String c v).
    + destruct (IH n) as [[rest Hr] Hl]. split.
      * exists rest.
        change (String c v = String c (String.substring 0 n v ++ rest)).
        f_equal. exact Hr.
      * f_equal. exact Hl.
Qed.

(** The body of the loop, block by block: only the [maxLength] block
    departs from the rule as written, and only for a bound of 0. *)
Lemma checkValue_blocks (varName v : string) (rules : ValidationRule) :
  EnvKeeper.checkValue varName v rules
  = match expectedType v rules with
    | Some t => Return [EnvKeeper.typeEntry varName v t]
    | None =>
        found ← expectedPattern varName v rules;
        Return (expectedMinLength varName v rules
                ++ EnvKeeper.maxLengthCheck varName v rules
                ++ found ++ expectedEnum varName v rules)%list
    end.
Proof.
  unfold EnvKeeper.checkValue, EnvKeeper.additionalRules.
  rewrite truthyString_type, patternCheck_expected, minLengthCheck_expected.
  destruct (expectedType v rules); [reflexivity|].
  destruct (expectedPattern varName v rules); cbn; [|reflexivity].
  now rewrite <- app_assoc.
Qed.

(** Only a pattern that does not compile interrupts the processing of a
    variable. *)
Lemma checkValue_throws varName value rules (e : Exception) :
  EnvKeeper.checkValue varName value rules = Throw e ->
  exists p, e = SyntaxError p
            /\ truthyString (pattern rules) = Some p
            /\ RegExp_test p value = None.
Proof.
  unfold EnvKeeper.checkValue, EnvKeeper.additionalRules, EnvKeeper.patternCheck.
  destruct (EnvKeeper.typeFails value rules); [discriminate|].
  destruct (truthyString (pattern rules)) as [p|]; [|discriminate].
  destruct (RegExp_test p value) as [[|]|] eqn:Ht; cbn; try discriminate.
  intros [= <-]. now exists p.
Qed.

Lemma truthyString_some (o : option string) (p : string) :
  truthyString o = Some p -> o = Some p.
Proof.
  unfold truthyString. destruct o as [q|]; [|discriminate].
  destruct (JSString.isEmpty q); [discriminate|]. now intros [= ->].
Qed.

(** When the pattern compiles, the checks of a variable that is set run
    to their end. *)
Lemma checkValue_returns varName value rules :
  (forall p, pattern rules = Some p -> RegExp_test p value <> None) ->
  exists pushed, EnvKeeper.checkValue varName value rules = Return pushed.
Proof.
  intros Hcompile.
  destruct (EnvKeeper.checkValue varName value rules) as [pushed|e] eqn:Hc;
    [now exists pushed|].
  apply checkValue_throws in Hc as (p & _ & Hp & Ht).
  apply truthyString_some in Hp. now destruct (Hcompile p Hp).
Qed.

(** Every entry pushed for a variable bears its name. *)
Lemma checkValue_names varName value rules (pushed : list InvalidVariable) :
  EnvKeeper.checkValue varName value rules = Return pushed ->
  Forall (fun item => name item = varName) pushed.
Proof.
  unfold EnvKeeper.checkValue, EnvKeeper.additionalRules, EnvKeeper.patternCheck,
    EnvKeeper.minLengthCheck, EnvKeeper.maxLengthCheck, EnvKeeper.enumCheck.
  destruct (EnvKeeper.typeFails value rules).
  { intros [= <-]. repeat constructor. }
  destruct (truthyString (pattern rules)) as [p|];
    [destruct (RegExp_test p value) as [[|]|]|]; cbn; try discriminate;
    intros [= <-];
    destruct (truthyNumber (minLength rules));
    destruct (truthyNumber (maxLength rules));
    destruct (enum rules);
    repeat match goal with |- context [if ?c then _ else _] => destruct c end;
    repeat constructor.
Qed.

Lemma checkValue_length (varName v : string) (r : ValidationRule)
    (pushed : list InvalidVariable) :
  EnvKeeper.checkValue varName v r = Return pushed ->
  (List.length pushed <= 4)%nat.
Proof.
  unfold EnvKeeper.checkValue, EnvKeeper.additionalRules, EnvKeeper.patternCheck,
    EnvKeeper.minLengthCheck, EnvKeeper.maxLengthCheck, EnvKeeper.enumCheck.
  destruct (EnvKeeper.typeFails v r).
  { intros [= <-]. cbn. lia. }
  destruct (truthyString (pattern r)) as [p|];
    [destruct (RegExp_test p v) as [[|]|]|]; cbn; try discriminate;
    intros [= <-];
    destruct (truthyNumber (minLength r));
    destruct (truthyNumber (maxLength r));
    destruct (enum r);
    repeat match goal with |- context [if ?c then _ else _] => destruct c end;
    cbn; lia.
Qed.

(** What the body of the loop does with a value that is no string: the
    blocks after the type check push at most the entry of [enum], and
    what interrupts them is a pattern that does not compile or the
    [TypeError] of [substring]. *)
Lemma additionalRulesOfObject_outcome varName (o : Foreign) rules :
  match EnvKeeper.additionalRulesOfObject varName o rules with
  | Return pushed =>
      pushed = match enum rules with
               | Some l => [EnvKeeper.enumEntry varName (Inherited o) l]
               | None => []
               end
  | Throw e =>
      e = EnvKeeper.substringOfObject
      \/ exists p, e = SyntaxError p
                   /\ truthyString (pattern rules) = Some p
                   /\ RegExp_test p (foreignText o) = None
  end.
Proof.
  unfold EnvKeeper.additionalRulesOfObject.
  destruct (truthyNumber (minLength rules)) as [n|];
    [destruct (EnvKeeper.lengthOfObject o _); [now left|]|];
    (destruct (truthyNumber (maxLength rules)) as [k|];
     [destruct (EnvKeeper.lengthOfObject o _); [now left|]|]);
    (destruct (truthyString (pattern rules)) as [p|];
     [destruct (RegExp_test p (foreignText o)) as [[|]|] eqn:Ht|]);
    try reflexivity; try (now left); right; now exists p.
Qed.

Lemma validateTypeOfObject_throws (o : Foreign) (t : string) (e : Exception) :
  EnvKeeper._validateTypeOfObject o t = Throw e ->
  e = TypeError "value.toLowerCase is not a function"
  /\ JSString.toLowerCase t = "boolean".
Proof.
  unfold EnvKeeper._validateTypeOfObject.
  repeat match goal with
         | |- context [String.eqb ?a ?b] => destruct (String.eqb_spec a b)
         end; try discriminate.
  intros [= <-]. now split.
Qed.

Lemma checkObject_outcome varName (o : Foreign) rules :
  match EnvKeeper.checkObject varName o rules with
  | Return pushed =>
      (exists t, pushed = [EnvKeeper.typeEntry varName (Inherited o) t])
      \/ pushed = match enum rules with
                  | Some l => [EnvKeeper.enumEntry varName (Inherited o) l]
                  | None => []
                  end
  | Throw e =>
      (exists message, e = TypeError message)
      \/ exists p, e = SyntaxError p
                   /\ truthyString (pattern rules) = Some p
                   /\ RegExp_test p (foreignText o) = None
  end.
Proof.
  pose proof (additionalRulesOfObject_outcome varName o rules) as Hadd.
  assert (Hrest : match EnvKeeper.additionalRulesOfObject varName o rules with
                  | Return pushed =>
                      (exists t, pushed
                                 = [EnvKeeper.typeEntry varName (Inherited o) t])
                      \/ pushed
                         = match enum rules with
                           | Some l =>
                               [EnvKeeper.enumEntry varName (Inherited o) l]
                           | None => []
                           end
                  | Throw e =>
                      (exists message, e = TypeError message)
                      \/ exists p, e = SyntaxError p
                                   /\ truthyString (pattern rules) = Some p
                                   /\ RegExp_test p (foreignText o) = None
                  end).
  { destruct (EnvKeeper.additionalRulesOfObject varName o rules) as [pushed|e].
    - now right.
    - destruct Hadd as [->|Hp]; [left; now eexists|now right]. }
  unfold EnvKeeper.checkObject.
  destruct (truthyString (type rules)) as [t|]; [|exact Hrest].
  destruct (EnvKeeper._validateTypeOfObject o t) as [[|]|e] eqn:Ht; cbn.
  - exact Hrest.
  - left. now exists t.
  - apply validateTypeOfObject_throws in Ht as [-> _]. left. now eexists.
Qed.

(** An entry pushed for such a value bears the name and the value. *)
Lemma checkObject_entries varName (o : Foreign) rules
    (pushed : list InvalidVariable) :
  EnvKeeper.checkObject varName o rules = Return pushed ->
  Forall (fun item => name item = varName /\ value item = Inherited o) pushed
  /\ (List.length pushed <= 1)%nat.
Proof.
  intros Hc. pose proof (checkObject_outcome varName o rules) as Ho.
  rewrite Hc in Ho. destruct Ho as [(t & ->)| ->].
  - split; [repeat constructor|cbn; lia].
  - destruct (enum rules); split; repeat constructor.
Qed.

(** *** When the checks push nothing *)

Lemma expectedType_none (v : string) (r : ValidationRule) :
  expectedType v r = None
  <-> forall t, type r = Some t -> EnvKeeper._validateType v t = true.
Proof.
  unfold expectedType. destruct (type r) as [t|].
  - destruct (EnvKeeper._validateType v t) eqn:Hv.
    + split; [|reflexivity]. now intros _ t' [= <-].
    + split; [discriminate|].
      intros Ht. specialize (Ht t eq_refl). congruence.
  - split; [discriminate|reflexivity].
Qed.

Lemma expectedMinLength_nil (varName v : string) (r : ValidationRule) :
  expectedMinLength varName v r = []
  <-> forall k, minLength r = Some k -> k <= JSString.len v.
Proof.
  unfold expectedMinLength. destruct (minLength r) as [k|].
  - destruct (JSString.len v <? k) eqn:Hk.
    + apply Z.ltb_lt in Hk. split; [discriminate|].
      intros Hle. specialize (Hle k eq_refl). lia.
    + apply Z.ltb_ge in Hk. split; [|reflexivity]. now intros _ k' [= <-].
  - split; [discriminate|reflexivity].
Qed.

Lemma maxLengthCheck_nil (varName v : string) (r : ValidationRule) :
  EnvKeeper.maxLengthCheck varName v r = []
  <-> forall k, maxLength r = Some k -> k <> 0 -> JSString.len v <= k.
Proof.
  unfold EnvKeeper.maxLengthCheck, truthyNumber.
  destruct (maxLength r) as [k|].
  - destruct (k =? 0) eqn:H0.
    + apply Z.eqb_eq in H0. split; [|reflexivity].
      intros _ k' [= <-] Hne. congruence.
    + apply Z.eqb_neq in H0.
      destruct (k <? JSString.len v) eqn:Hk.
      * apply Z.ltb_lt in Hk. split; [discriminate|].
        intros Hle. specialize (Hle k eq_refl H0). lia.
      * apply Z.ltb_ge in Hk. split; [|reflexivity]. now intros _ k' [= <-] _.
  - split; [discriminate|reflexivity].
Qed.

Lemma expectedPattern_nil (varName v : string) (r : ValidationRule) :
  expectedPattern varName v r = Return []
  <-> forall p, pattern r = Some p -> RegExp_test p v = Some true.
Proof.
  unfold expectedPattern. destruct (pattern r) as [p|].
  - destruct (RegExp_test p v) as [[|]|] eqn:Hp.
    + split; [|reflexivity]. now intros _ p' [= <-].
    + split; [discriminate|].
      intros Ht. specialize (Ht p eq_refl). congruence.
    + split; [discriminate|].
      intros Ht. specialize (Ht p eq_refl). congruence.
  - split; [discriminate|reflexivity].
Qed.

Lemma enumCheck_nil (varName v : string) (r : ValidationRule) :
  EnvKeeper.enumCheck varName v r = []
  <-> forall l, enum r = Some l -> In v l.
Proof.
  unfold EnvKeeper.enumCheck. destruct (enum r) as [l|].
  - destruct (JSString.includes l v) eqn:Hi.
    + split; [|reflexivity]. intros _ l' [= <-]. now apply includes_In.
    + split; [discriminate|].
      intros Hin. specialize (Hin l eq_refl). apply includes_In in Hin.
      congruence.
  - split; [discriminate|reflexivity].
Qed.

(** The checks of a variable push nothing exactly when its rule holds. *)
Lemma checkValue_nil (varName v : string) (r : ValidationRule) :
  EnvKeeper.checkValue varName v r = Return [] <-> ruleHolds v r.
Proof.
  unfold ruleHolds.
  rewrite <- expectedType_none, <- (expectedMinLength_nil varName),
    <- (maxLengthCheck_nil varName), <- (expectedPattern_nil varName),
    <- (enumCheck_nil varName).
  rewrite checkValue_blocks.
  destruct (expectedType v r) as [t|].
  - split; [discriminate|]. intros [? _]. discriminate.
  - destruct (expectedPattern varName v r) as [found|e]; cbn.
    + split.
      * intros [= Happ].
        apply app_eq_nil in Happ as [Hmin Happ].
        apply app_eq_nil in Happ as [Hmax Happ].
        apply app_eq_nil in Happ as [-> Henum]. auto.
      * intros (_ & -> & -> & [= ->] & Henum).
        unfold expectedEnum. unfold EnvKeeper.enumCheck in Henum.
        now rewrite Henum.
    + split; [discriminate|]. intros (_ & _ & _ & ? & _). discriminate.
Qed.

End CheckFacts.

(** ** [validate] *)

Section ValidateFacts.
Context `{Host}.

Implicit Types (env : gmap string string).

(** The loop with its two accumulators computes the sub-sequence of the
    missing names and the violations of the other variables. *)
Lemma validateLoop_collects env (entries : list (string * Validation))
    (missing0 : list string) (invalid0 : list InvalidVariable) :
  EnvKeeper.validateLoop env entries missing0 invalid0
  = (found ← invalidOf env entries;
     Return (missing0 ++ missingOf env entries, invalid0 ++ found)%list).
Proof.
  revert missing0 invalid0.
  induction entries as [|[varName validation] rest IH]; intros missing0 invalid0.
  - cbn. now rewrite !app_nil_r.
  - cbn [EnvKeeper.validateLoop invalidOf]. unfold missingOf in *.
    cbn [List.map fst List.filter].
    replace (EnvKeeper.lookupMissing env varName)
      with (isMissing (EnvKeeper.read env varName)) by reflexivity.
    destruct (EnvKeeper.read env varName) as [|value|o]; cbn [isMissing].
    + rewrite IH, <- app_assoc. reflexivity.
    + destruct (JSString.isEmpty value).
      * rewrite IH, <- app_assoc. reflexivity.
      * destruct (EnvKeeper.checkValue varName value
                    (EnvKeeper.normalize validation)) as [pushed|e];
          cbn; [|reflexivity].
        rewrite IH. destruct (invalidOf env rest); cbn; [|reflexivity].
        now rewrite app_assoc.
    + destruct (EnvKeeper.checkObject varName o
                  (EnvKeeper.normalize validation)) as [pushed|e];
        cbn; [|reflexivity].
      rewrite IH. destruct (invalidOf env rest); cbn; [|reflexivity].
      now rewrite app_assoc.
Qed.

(** The loop on a schema in two parts. *)
Lemma validateLoop_app env (before after : list (string * Validation))
    (missing0 : list string) (invalid0 : list InvalidVariable) :
  EnvKeeper.validateLoop env (before ++ after) missing0 invalid0
  = ('(missing, invalid) ← EnvKeeper.validateLoop env before missing0 invalid0;
     EnvKeeper.validateLoop env after missing invalid).
Proof.
  revert missing0 invalid0.
  induction before as [|[varName validation] rest IH]; intros missing0 invalid0;
    [reflexivity|].
  cbn [app EnvKeeper.validateLoop].
  destruct (EnvKeeper.read env varName) as [|value|o].
  - apply IH.
  - destruct (JSString.isEmpty value); [apply IH|].
    destruct (EnvKeeper.checkValue _ _ _); cbn; [apply IH|reflexivity].
  - destruct (EnvKeeper.checkObject _ _ _); cbn; [apply IH|reflexivity].
Qed.

Lemma validate_outcome env (entries : list (string * Validation)) :
  EnvKeeper.validate env (ObjectOf entries)
  = match invalidOf env entries with
    | Throw e => Throw e
    | Return invalid =>
        match missingOf env entries, invalid with
        | [], [] => Return true
        | missing, _ =>
            Throw (EnvKeeperError
                     (JSString.trim (EnvKeeper.validateMessage missing invalid))
                     missing invalid)
        end
    end.
Proof.
  unfold EnvKeeper.validate. rewrite validateLoop_collects.
  destruct (invalidOf env entries) as [invalid|e]; cbn; [|reflexivity].
  rewrite !positive_length.
  destruct (missingOf env entries), invalid; reflexivity.
Qed.

(** [validate] returns nothing but [true]. *)
Lemma validate_returns_true env (schema : SchemaArg) (b : bool) :
  EnvKeeper.validate env schema = Return b -> b = true.
Proof.
  destruct schema as [|entries]; [discriminate|].
  rewrite validate_outcome.
  destruct (invalidOf env entries) as [invalid|e]; [|discriminate].
  destruct (missingOf env entries), invalid; try discriminate.
  now intros [= <-].
Qed.

(** The violations of a schema are those of its first entries followed
    by those of the entries after them. *)
Lemma invalidOf_app env (before after : list (string * Validation)) :
  invalidOf env (before ++ after)
  = (found ← invalidOf env before;
     more ← invalidOf env after;
     Return (found ++ more)%list).
Proof.
  induction before as [|[varName validation] rest IH]; cbn [invalidOf app].
  - cbn. now destruct (invalidOf env after).
  - assert (Hstep : forall pushed : Outcome (list InvalidVariable),
              (pushed0 ← pushed;
               more ← invalidOf env (rest ++ after);
               Return (pushed0 ++ more)%list)
              = (found ← (pushed0 ← pushed;
                          more ← invalidOf env rest;
                          Return (pushed0 ++ more)%list);
                 more ← invalidOf env after;
                 Return (found ++ more)%list)).
    { intros [pushed|e]; cbn; [|reflexivity]. rewrite IH.
      destruct (invalidOf env rest) as [found|e]; cbn; [|reflexivity].
      destruct (invalidOf env after) as [more|e]; cbn; [|reflexivity].
      now rewrite app_assoc. }
    destruct (EnvKeeper.read env varName) as [|v|o]; [exact IH| |apply Hstep].
    destruct (JSString.isEmpty v); [exact IH|apply Hstep].
Qed.

Lemma missingOf_app env (before after : list (string * Validation)) :
  missingOf env (before ++ after)
  = (missingOf env before ++ missingOf env after)%list.
Proof. unfold missingOf. now rewrite List.map_app, List.filter_app. Qed.

Lemma missingOf_own env (entries : list (string * Validation)) :
  Forall (ownName env) (List.map fst entries) ->
  missingOf env entries
  = List.filter (fun varName => negb (isSetb env varName))
                (List.map fst entries).
Proof. apply filter_own. Qed.

(** One step of the collection, by what the name reads as. *)
Lemma invalidOf_cons env (varName : string) (validation : Validation)
    (rest : list (string * Validation)) :
  invalidOf env ((varName, validation) :: rest)
  = match EnvKeeper.read env varName with
    | Undefined => invalidOf env rest
    | Str value =>
        if JSString.isEmpty value then invalidOf env rest
        else
          pushed ← EnvKeeper.checkValue varName value
                     (EnvKeeper.normalize validation);
          more ← invalidOf env rest;
          Return (pushed ++ more)%list
    | Inherited o =>
        pushed ← EnvKeeper.checkObject varName o
                   (EnvKeeper.normalize validation);
        more ← invalidOf env rest;
        Return (pushed ++ more)%list
    end.
Proof. reflexivity. Qed.

(** The same step for a variable that is set. *)
Lemma invalidOf_cons_set env (varName v : string) (validation : Validation)
    (rest : list (string * Validation)) :
  env !! JSString.cstr varName = Some v -> v <> "" ->
  invalidOf env ((varName, validation) :: rest)
  = (pushed ← EnvKeeper.checkValue varName v
                (EnvKeeper.normalize validation);
     more ← invalidOf env rest;
     Return (pushed ++ more)%list).
Proof.
  intros Hv Hne. rewrite invalidOf_cons, (read_bound _ _ _ Hv).
  apply isEmpty_false in Hne. now rewrite Hne.
Qed.

(** The same step for a name that is unbound or empty and that the
    prototype does not answer. *)
Lemma invalidOf_cons_missing env (varName : string) (validation : Validation)
    (rest : list (string * Validation)) :
  ownName env varName -> ~ isSet env varName ->
  invalidOf env ((varName, validation) :: rest) = invalidOf env rest.
Proof.
  intros Hown Hns. rewrite invalidOf_cons, read_own by assumption.
  destruct (env !! JSString.cstr varName) as [v|] eqn:Hv; [|reflexivity].
  destruct (JSString.isEmpty v) eqn:He; [reflexivity|].
  exfalso. apply Hns. exists v. split; [assumption|now apply isEmpty_false].
Qed.

(** What a variable reads as, when the prototype does not answer. *)
Lemma own_cases env (varName : string) :
  ownName env varName ->
  (~ isSet env varName /\ EnvKeeper.lookupMissing env varName = true)
  \/ exists v, env !! JSString.cstr varName = Some v /\ v <> ""
               /\ EnvKeeper.lookupMissing env varName = false.
Proof.
  intros Hown. rewrite lookupMissing_own by assumption.
  destruct (isSetb env varName) eqn:Hs.
  - right. apply isSetb_true in Hs as (v & Hv & Hne). now exists v.
  - left. split; [|reflexivity]. rewrite <- isSetb_true. congruence.
Qed.

(** When the loop completes, the entries of every variable that is set
    are all in [invalid]. *)
Lemma invalidOf_complete env (entries : list (string * Validation))
    (invalid : list InvalidVariable) :
  invalidOf env entries = Return invalid ->
  forall varName validation v,
    In (varName, validation) entries ->
    env !! JSString.cstr varName = Some v -> v <> "" ->
    exists pushed,
      EnvKeeper.checkValue varName v (EnvKeeper.normalize validation)
      = Return pushed
      /\ incl pushed invalid.
Proof.
  revert invalid.
  induction entries as [|[n rule] rest IH]; intros invalid Hi varName validation v;
    [intros []|].
  intros Hin Hv Hne.
  assert (Hrest : forall found,
            invalidOf env rest = Return found -> incl found invalid ->
            In (varName, validation) rest ->
            exists pushed,
              EnvKeeper.checkValue varName v (EnvKeeper.normalize validation)
              = Return pushed /\ incl pushed invalid).
  { intros found Hf Hincl Hin'.
    destruct (IH found Hf varName validation v Hin' Hv Hne) as (pushed & Hc & Hp).
    exists pushed. split; [exact Hc|]. intros x Hx. now apply Hincl, Hp. }
  assert (Hstep : forall step : Outcome (list InvalidVariable),
            (pushed ← step; more ← invalidOf env rest;
             Return (pushed ++ more)%list) = Return invalid ->
            exists pushed found,
              step = Return pushed /\ invalidOf env rest = Return found
              /\ invalid = (pushed ++ found)%list).
  { intros [pushed|e]; cbn; [|discriminate].
    destruct (invalidOf env rest) as [found|e]; cbn; [|discriminate].
    intros [= <-]. now exists pushed, found. }
  destruct Hin as [[= -> ->]|Hin].
  - rewrite (invalidOf_cons_set _ _ _ _ _ Hv Hne) in Hi.
    apply Hstep in Hi as (pushed & found & Hc & _ & ->).
    exists pushed. split; [exact Hc|]. now apply incl_appl.
  - rewrite invalidOf_cons in Hi.
    destruct (EnvKeeper.read env n) as [|vn|o].
    + apply (Hrest invalid); [assumption|apply incl_refl|assumption].
    + destruct (JSString.isEmpty vn).
      * apply (Hrest invalid); [assumption|apply incl_refl|assumption].
      * apply Hstep in Hi as (pushed & found & _ & Hf & ->).
        apply (Hrest found); [assumption|now apply incl_appr|assumption].
    + apply Hstep in Hi as (pushed & found & _ & Hf & ->).
      apply (Hrest found); [assumption|now apply incl_appr|assumption].
Qed.

(** Where an entry of [invalid] comes from: the checks of a variable of
    the schema that is set, or those of a name of the schema that the
    prototype answers. *)
Lemma invalidOf_sound env (entries : list (string * Validation))
    (invalid : list InvalidVariable) :
  invalidOf env entries = Return invalid ->
  forall item,
    In item invalid ->
    exists varName validation,
      In (varName, validation) entries
      /\ ((exists v pushed,
             env !! JSString.cstr varName = Some v /\ v <> ""
             /\ EnvKeeper.checkValue varName v (EnvKeeper.normalize validation)
                = Return pushed
             /\ In item pushed)
          \/ (exists o pushed,
                env !! JSString.cstr varName = None
                /\ inherited varName = Some o
                /\ EnvKeeper.checkObject varName o
                     (EnvKeeper.normalize validation) = Return pushed
                /\ In item pushed)).
Proof.
  revert invalid.
  induction entries as [|[n rule] rest IH]; intros invalid Hi item Hitem.
  - injection Hi as <-. destruct Hitem.
  - set (goal := exists varName validation,
           In (varName, validation) ((n, rule) :: rest)
           /\ ((exists v pushed,
                  env !! JSString.cstr varName = Some v /\ v <> ""
                  /\ EnvKeeper.checkValue varName v
                       (EnvKeeper.normalize validation) = Return pushed
                  /\ In item pushed)
               \/ (exists o pushed,
                     env !! JSString.cstr varName = None
                     /\ inherited varName = Some o
                     /\ EnvKeeper.checkObject varName o
                          (EnvKeeper.normalize validation) = Return pushed
                     /\ In item pushed))).
    assert (Hrest : forall found,
              invalidOf env rest = Return found -> In item found -> goal).
    { intros found Hf Hin.
      destruct (IH found Hf item Hin) as (x & r & Hx & Hmore).
      exists x, r. split; [now right|exact Hmore]. }
    rewrite invalidOf_cons in Hi. unfold EnvKeeper.read in Hi.
    destruct (env !! JSString.cstr n) as [vn|] eqn:Hn.
    + destruct (JSString.isEmpty vn) eqn:Hen; [now apply (Hrest invalid)|].
      destruct (EnvKeeper.checkValue n vn (EnvKeeper.normalize rule))
        as [pushed|e] eqn:Hc; cbn in Hi; [|discriminate].
      destruct (invalidOf env rest) as [found|e] eqn:Hf; cbn in Hi;
        [|discriminate].
      injection Hi as <-. apply in_app_or in Hitem as [Hp|Hfound].
      * exists n, rule. split; [now left|]. left. exists vn, pushed.
        apply isEmpty_false in Hen. now repeat split.
      * now apply (Hrest found).
    + destruct (inherited n) as [o|] eqn:Ho; [|now apply (Hrest invalid)].
      destruct (EnvKeeper.checkObject n o (EnvKeeper.normalize rule))
        as [pushed|e] eqn:Hc; cbn in Hi; [|discriminate].
      destruct (invalidOf env rest) as [found|e] eqn:Hf; cbn in Hi;
        [|discriminate].
      injection Hi as <-. apply in_app_or in Hitem as [Hp|Hfound].
      * exists n, rule. split; [now left|]. right. exists o, pushed.
        now repeat split.
      * now apply (Hrest found).
Qed.

(** Where an exception other than the aggregate error comes from: a
    pattern of the schema that does not compile, or a name of the schema
    that the prototype answers. *)
Lemma invalidOf_throws env (entries : list (string * Validation))
    (e : Exception) :
  invalidOf env entries = Throw e ->
  exists varName rule,
    In (varName, rule) entries
    /\ ((exists v p,
           env !! JSString.cstr varName = Some v /\ v <> ""
           /\ pattern (EnvKeeper.normalize rule) = Some p
           /\ RegExp_test p v = None
           /\ e = SyntaxError p)
        \/ (exists o,
              env !! JSString.cstr varName = None
              /\ inherited varName = Some o
              /\ ((exists message, e = TypeError message)
                  \/ exists p,
                       pattern (EnvKeeper.normalize rule) = Some p
                       /\ RegExp_test p (foreignText o) = None
                       /\ e = SyntaxError p))).
Proof.
  induction entries as [|[n rule] rest IH]; [discriminate|].
  set (goal := exists varName r,
         In (varName, r) ((n, rule) :: rest)
         /\ ((exists v p,
                env !! JSString.cstr varName = Some v /\ v <> ""
                /\ pattern (EnvKeeper.normalize r) = Some p
                /\ RegExp_test p v = None
                /\ e = SyntaxError p)
             \/ (exists o,
                   env !! JSString.cstr varName = None
                   /\ inherited varName = Some o
                   /\ ((exists message, e = TypeError message)
                       \/ exists p,
                            pattern (EnvKeeper.normalize r) = Some p
                            /\ RegExp_test p (foreignText o) = None
                            /\ e = SyntaxError p)))).
  assert (Hrest : invalidOf env rest = Throw e -> goal).
  { intros Hr. destruct (IH Hr) as (x & r & Hin & Hmore).
    exists x, r. split; [now right|exact Hmore]. }
  rewrite invalidOf_cons. unfold EnvKeeper.read.
  destruct (env !! JSString.cstr n) as [vn|] eqn:Hn.
  - destruct (JSString.isEmpty vn) eqn:He; [exact Hrest|].
    destruct (EnvKeeper.checkValue n vn (EnvKeeper.normalize rule))
      as [pushed|e'] eqn:Hc; cbn.
    + destruct (invalidOf env rest) as [more|e'']; cbn; [discriminate|].
      intros [= <-]. now apply Hrest.
    + intros [= <-]. apply checkValue_throws in Hc as (p & -> & Hp & Ht).
      exists n, rule. split; [now left|]. left. exists vn, p.
      apply isEmpty_false in He. apply truthyString_some in Hp.
      now repeat split.
  - destruct (inherited n) as [o|] eqn:Ho; [|exact Hrest].
    pose proof (checkObject_outcome n o (EnvKeeper.normalize rule)) as Hout.
    destruct (EnvKeeper.checkObject n o (EnvKeeper.normalize rule))
      as [pushed|e']; cbn.
    + destruct (invalidOf env rest) as [more|e'']; cbn; [discriminate|].
      intros [= <-]. now apply Hrest.
    + intros [= <-]. exists n, rule. split; [now left|]. right. exists o.
      split; [exact Hn|]. split; [exact Ho|].
      destruct Hout as [Hm|(p & -> & Hp & Ht)]; [now left|].
      right. exists p. apply truthyString_some in Hp. now repeat split.
Qed.

(** When every pattern of the schema compiles and the prototype answers
    for none of its names, the loop runs to its end. *)
Lemma invalidOf_returns env (entries : list (string * Validation)) :
  (forall varName rule p v,
     In (varName, rule) entries ->
     pattern (EnvKeeper.normalize rule) = Some p -> RegExp_test p v <> None) ->
  Forall (ownName env) (List.map fst entries) ->
  exists invalid, invalidOf env entries = Return invalid.
Proof.
  intros Hcompile Hown.
  destruct (invalidOf env entries) as [invalid|e] eqn:Hi; [now exists invalid|].
  exfalso. apply invalidOf_throws in Hi as (n & rule & Hin & Hcase).
  destruct Hcase as [(v & p & _ & _ & Hp & Ht & _)|(o & Hn & Ho & _)].
  - now apply (Hcompile n rule p v).
  - assert (Hn' : ownName env n).
    { apply (proj1 (List.Forall_forall _ _) Hown), in_map_iff.
      now exists (n, rule). }
    destruct Hn' as [Hb|Hi]; congruence.
Qed.

(** With the prototype out of the way, every entry of [invalid] comes
    from the checks of a variable that is set. *)
Lemma invalidOf_sound_own env (entries : list (string * Validation))
    (invalid : list InvalidVariable) :
  Forall (ownName env) (List.map fst entries) ->
  invalidOf env entries = Return invalid ->
  forall item,
    In item invalid ->
    exists varName validation v pushed,
      In (varName, validation) entries
      /\ env !! JSString.cstr varName = Some v /\ v <> ""
      /\ EnvKeeper.checkValue varName v (EnvKeeper.normalize validation)
         = Return pushed
      /\ In item pushed.
Proof.
  intros Hown Hi item Hitem.
  destruct (invalidOf_sound env entries invalid Hi item Hitem)
    as (n & rule & Hin & [(v & pushed & Hmore)|(o & pushed & Hn & Ho & _)]).
  - now exists n, rule, v, pushed.
  - assert (Hn' : ownName env n).
    { apply (proj1 (List.Forall_forall _ _) Hown), in_map_iff.
      now exists (n, rule). }
    destruct Hn' as [Hb|Hi']; congruence.
Qed.

(** On a name that is missing, the single-variable validation throws,
    whatever the rule. *)
Lemma validate_missing env (varName : string) (rule : Validation) :
  EnvKeeper.lookupMissing env varName = true ->
  exists message,
    EnvKeeper.validate env (ObjectOf [(varName, rule)])
    = Throw (EnvKeeperError message [varName] []).
Proof.
  intros Hm. rewrite validate_outcome, invalidOf_cons. unfold missingOf.
  cbn [List.map fst List.filter]. rewrite Hm.
  unfold EnvKeeper.lookupMissing in Hm.
  destruct (EnvKeeper.read env varName) as [|v|o]; cbn [isMissing] in Hm;
    [|rewrite Hm|discriminate]; eexists; reflexivity.
Qed.

(** A schema has an entry in [invalid] exactly when a variable of it
    that is set does not meet its rule. *)
Lemma invalid_nonempty env (entries : list (string * Validation))
    (invalid : list InvalidVariable) :
  Forall (ownName env) (List.map fst entries) ->
  invalidOf env entries = Return invalid ->
  invalid <> []
  <-> exists varName rule v,
        In (varName, rule) entries
        /\ env !! JSString.cstr varName = Some v /\ v <> ""
        /\ ~ ruleHolds v (EnvKeeper.normalize rule).
Proof.
  intros Hown Hi. split.
  - intros Hne. destruct invalid as [|item more]; [congruence|].
    destruct (invalidOf_sound_own env entries _ Hown Hi item)
      as (n & rule & v & pushed & Hin & Hv & Hnv & Hc & Hp); [now left|].
    exists n, rule, v. repeat split; try assumption.
    intros Hr. apply (checkValue_nil n) in Hr. rewrite Hr in Hc.
    injection Hc as <-. destruct Hp.
  - intros (n & rule & v & Hin & Hv & Hnv & Hr) ->.
    destruct (invalidOf_complete env entries [] Hi n rule v Hin Hv Hnv)
      as (pushed & Hc & Hincl).
    apply Hr, (checkValue_nil n). rewrite Hc. f_equal.
    destruct pushed as [|item more]; [reflexivity|].
    destruct (Hincl item). now left.
Qed.

End ValidateFacts.


(** ** Empty string and absence *)

Section SameSet.
Context `{Host}.

Implicit Types (env : gmap string string).

(** On two such environments a name is missing in both or reads the
    same. *)
Lemma sameSet_read env1 env2 (varName : string) :
  sameSet env1 env2 ->
  (isMissing (EnvKeeper.read env1 varName) = true
   /\ isMissing (EnvKeeper.read env2 varName) = true)
  \/ EnvKeeper.read env1 varName = EnvKeeper.read env2 varName.
Proof.
  intros Hs. unfold EnvKeeper.read.
  destruct (Hs varName) as [(Hi & H1 & H2)|Heq]; [|right; now rewrite Heq].
  left. rewrite Hi.
  destruct H1 as [-> | ->], H2 as [-> | ->]; now split.
Qed.

Lemma sameSet_lookupMissing env1 env2 (varName : string) :
  sameSet env1 env2 ->
  EnvKeeper.lookupMissing env1 varName = EnvKeeper.lookupMissing env2 varName.
Proof.
  intros Hs. unfold EnvKeeper.lookupMissing.
  destruct (sameSet_read env1 env2 varName Hs) as [[-> ->]| ->]; reflexivity.
Qed.

Lemma sameSet_write env1 env2 (varName : string) (value : EnvValue) :
  sameSet env1 env2 ->
  sameSet (EnvKeeper.write env1 varName value)
          (EnvKeeper.write env2 varName value).
Proof.
  intros Hs. unfold EnvKeeper.write.
  destruct (EnvKeeper.storable varName); [|exact Hs].
  intros other.
  destruct (decide (JSString.cstr varName = JSString.cstr other)) as [Heq|Hne].
  - right. rewrite <- Heq. now rewrite !lookup_insert_eq.
  - rewrite !lookup_insert_ne by assumption. apply Hs.
Qed.

Lemma sameSet_absent_empty env (key : string) :
  ownKey key -> sameSet (delete key env) (<[key := ""]> env).
Proof.
  intros Hown other.
  destruct (decide (key = JSString.cstr other)) as [Heq|Hne].
  - left. rewrite <- Heq, lookup_delete_eq, lookup_insert_eq.
    split; [now apply Hown|]. split; [now left|now right].
  - right. now rewrite lookup_delete_ne, lookup_insert_ne.
Qed.

Lemma sameSet_validateLoop env1 env2 (entries : list (string * Validation))
    (missing0 : list string) (invalid0 : list InvalidVariable) :
  sameSet env1 env2 ->
  EnvKeeper.validateLoop env1 entries missing0 invalid0
  = EnvKeeper.validateLoop env2 entries missing0 invalid0.
Proof.
  intros Hs. revert missing0 invalid0.
  induction entries as [|[varName validation] rest IH]; intros missing0 invalid0;
    [reflexivity|].
  cbn [EnvKeeper.validateLoop].
  destruct (sameSet_read env1 env2 varName Hs) as [[H1 H2]|Heq].
  - destruct (EnvKeeper.read env1 varName) as [|v1|o1],
             (EnvKeeper.read env2 varName) as [|v2|o2];
      cbn [isMissing] in H1, H2; try discriminate;
      rewrite ?H1, ?H2; apply IH.
  - rewrite Heq. destruct (EnvKeeper.read env2 varName) as [|v|o]; [apply IH| |].
    + destruct (JSString.isEmpty v); [apply IH|].
      destruct (EnvKeeper.checkValue _ _ _); cbn; [apply IH|reflexivity].
    + destruct (EnvKeeper.checkObject _ _ _); cbn; [apply IH|reflexivity].
Qed.

Lemma sameSet_validate env1 env2 (schema : SchemaArg) :
  sameSet env1 env2 ->
  EnvKeeper.validate env1 schema = EnvKeeper.validate env2 schema.
Proof.
  intros Hs. destruct schema as [|entries]; [reflexivity|].
  unfold EnvKeeper.validate. now rewrite (sameSet_validateLoop env1 env2).
Qed.

Lemma sameSet_filter env1 env2 (vars : list string) :
  sameSet env1 env2 ->
  List.filter (EnvKeeper.lookupMissing env1) vars
  = List.filter (EnvKeeper.lookupMissing env2) vars.
Proof.
  intros Hs. apply filter_ext. intros x. now apply sameSet_lookupMissing.
Qed.

Lemma sameSet_require env1 env2 (vars : VarsArg) :
  sameSet env1 env2 ->
  EnvKeeper.require env1 vars = EnvKeeper.require env2 vars.
Proof.
  intros Hs. destruct vars as [|vars]; [reflexivity|].
  unfold EnvKeeper.require. now rewrite (sameSet_filter env1 env2).
Qed.

Lemma sameSet_check env1 env2 (vars : list string) :
  sameSet env1 env2 ->
  EnvKeeper.check env1 vars = EnvKeeper.check env2 vars.
Proof.
  intros Hs. unfold EnvKeeper.check. now rewrite (sameSet_filter env1 env2).
Qed.

(** [get] gives the same result on both environments and leaves them in
    the same relation. *)
Lemma sameSet_get env1 env2 (varName : string) (defaultValue : DefaultArg)
    (validation : option Validation) :
  sameSet env1 env2 ->
  fst (EnvKeeper.get env1 varName defaultValue validation)
  = fst (EnvKeeper.get env2 varName defaultValue validation)
  /\ sameSet (snd (EnvKeeper.get env1 varName defaultValue validation))
             (snd (EnvKeeper.get env2 varName defaultValue validation)).
Proof.
  intros Hs. unfold EnvKeeper.get.
  assert (Hres : EnvKeeper.resolve env1 varName defaultValue
                 = EnvKeeper.resolve env2 varName defaultValue).
  { unfold EnvKeeper.resolve. cbn zeta.
    destruct (sameSet_read env1 env2 varName Hs) as [[-> ->]| ->];
      reflexivity. }
  rewrite Hres. clear Hres.
  destruct (EnvKeeper.resolve env2 varName defaultValue) as [value|e];
    [|now split].
  destruct (truthyValidation validation) as [rule|]; [|now split].
  rewrite (sameSet_validate env1 env2) by assumption.
  destruct (EnvKeeper.validate env2 _); [now split|].
  cbn zeta.
  rewrite (sameSet_validate (EnvKeeper.write env1 varName value)
                            (EnvKeeper.write env2 varName value))
    by now apply sameSet_write.
  destruct (EnvKeeper.validate (EnvKeeper.write env2 varName value) _); cbn;
    (split; [reflexivity|now apply sameSet_write]).
Qed.

End SameSet.

(** C7: binding [toString] to the empty string or not binding it at all
    does not give [require] and [get] the same result on the empty
    environment: unbound, the name is read from the prototype of
    [process.env] and counts as set.  For a variable that no name of the
    prototype designates, binding it to the empty string or not binding
    it (the other bindings being the same) gives [require], [validate],
    [check] and [get] the same result, value returned or error thrown,
    on every argument. *)
Theorem empty_string_is_absence `{Host}
    (env : gmap string string) (key : string) :
  let absent := delete key env in
  let empty := <[key := ""]> env in
  (EnvKeeper.require (delete "toString" ∅) (ArrayOf ["toString"]) = Return true
   /\ EnvKeeper.require (<["toString" := ""]> ∅) (ArrayOf ["toString"])
      = Throw (EnvKeeperError
                 "Missing required environment variables: toString"
                 ["toString"] [])
   /\ (exists o, fst (EnvKeeper.get (delete "toString" ∅) "toString"
                        Omitted None) = Return (Inherited o))
   /\ fst (EnvKeeper.get (<["toString" := ""]> ∅) "toString" Omitted None)
      = Throw (requiredError "toString"))
  /\ (ownKey key ->
      (forall vars, EnvKeeper.require absent vars = EnvKeeper.require empty vars)
      /\ (forall schema,
            EnvKeeper.validate absent schema = EnvKeeper.validate empty schema)
      /\ (forall vars, EnvKeeper.check absent vars = EnvKeeper.check empty vars)
      /\ (forall name defaultValue validation,
            fst (EnvKeeper.get absent name defaultValue validation)
            = fst (EnvKeeper.get empty name defaultValue validation))).
Proof.
  intros absent empty. split.
  { assert (Hm : EnvKeeper.lookupMissing (delete "toString" ∅) "toString" = false).
    { apply lookupMissing_inherited; [reflexivity|apply inherited_toString]. }
    split.
    { rewrite require_outcome. cbn [List.filter]. now rewrite Hm. }
    split; [reflexivity|].
    split; [|reflexivity].
    unfold EnvKeeper.get, EnvKeeper.resolve, EnvKeeper.read. cbn zeta.
    replace ((delete "toString" ∅ : gmap string string)
               !! JSString.cstr "toString") with (@None string) by reflexivity.
    pose proof inherited_toString as Hi.
    destruct (inherited "toString") as [o|]; [|congruence].
    now exists o. }
  intros Hown.
  pose proof (sameSet_absent_empty env key Hown) as Hs. fold absent empty in Hs.
  repeat split; intros.
  - now apply sameSet_require.
  - now apply sameSet_validate.
  - now apply sameSet_check.
  - now apply sameSet_get.
Qed.

(** ** [get] *)

Section GetFacts.
Context `{Host}.

Implicit Types (env : gmap string string).

(** The test [if (validation)]: a rule other than the empty string. *)
Lemma truthyValidation_some (validation : option Validation)
    (rule : Validation) :
  truthyValidation validation = Some rule
  <-> validation = Some rule /\ rule <> Tag "".
Proof.
  unfold truthyValidation. destruct validation as [[t|r]|].
  - destruct (JSString.isEmpty t) eqn:He.
    + apply isEmpty_true in He. subst t. split; [discriminate|].
      intros [[= <-] Hne]. congruence.
    + apply isEmpty_false in He. split.
      * intros [= <-]. split; [reflexivity|]. congruence.
      * now intros [[= <-] _].
  - split.
    + intros [= <-]. now split.
    + now intros [[= <-] _].
  - split; [discriminate|]. now intros [? _].
Qed.

Lemma truthyValidation_none (validation : option Validation) :
  truthyValidation validation = None
  <-> validation = None \/ validation = Some (Tag "").
Proof.
  unfold truthyValidation. destruct validation as [[t|r]|].
  - destruct (JSString.isEmpty t) eqn:He.
    + apply isEmpty_true in He. subst t. split; auto.
    + apply isEmpty_false in He. split; [discriminate|].
      intros [?|[= ?]]; congruence.
  - split; [discriminate|]. intros [?|?]; discriminate.
  - split; auto.
Qed.

(** What [get] resolves when the prototype does not answer for the
    name. *)
Lemma resolve_own env (varName : string) (defaultValue : DefaultArg) :
  ownName env varName ->
  EnvKeeper.resolve env varName defaultValue
  = match resolvedValue env varName defaultValue with
    | Some value => Return (Str value)
    | None => Throw (requiredError varName)
    end.
Proof.
  intros Hown. unfold EnvKeeper.resolve, resolvedValue, isSetb. cbn zeta.
  rewrite read_own by assumption.
  destruct (env !! JSString.cstr varName) as [v|]; cbn [isMissing].
  - destruct (JSString.isEmpty v); [|reflexivity].
    now destruct defaultValue.
  - now destruct defaultValue.
Qed.

Lemma resolve_set env (varName value : string) (defaultValue : DefaultArg) :
  env !! JSString.cstr varName = Some value -> value <> "" ->
  EnvKeeper.resolve env varName defaultValue = Return (Str value).
Proof.
  intros Hv Hne. unfold EnvKeeper.resolve. cbn zeta.
  rewrite (read_bound _ _ _ Hv). cbn [isMissing].
  apply isEmpty_false in Hne. now rewrite Hne.
Qed.

Lemma resolve_missing env (varName : string) (defaultValue : DefaultArg) :
  EnvKeeper.lookupMissing env varName = true ->
  EnvKeeper.resolve env varName defaultValue
  = EnvKeeper.orDefault varName defaultValue.
Proof.
  unfold EnvKeeper.lookupMissing, EnvKeeper.resolve. cbn zeta. now intros ->.
Qed.

Lemma resolve_not_missing env (varName : string) (defaultValue : DefaultArg) :
  EnvKeeper.lookupMissing env varName = false ->
  EnvKeeper.resolve env varName defaultValue
  = Return (EnvKeeper.read env varName).
Proof.
  unfold EnvKeeper.lookupMissing, EnvKeeper.resolve. cbn zeta. now intros ->.
Qed.

Lemma resolvedValue_bound env (varName value : string)
    (defaultValue : DefaultArg) :
  value <> "" ->
  resolvedValue (<[JSString.cstr varName := value]> env) varName defaultValue
  = Some value.
Proof.
  intros Hne. unfold resolvedValue, isSetb.
  rewrite lookup_insert_eq.
  apply isEmpty_false in Hne. now rewrite Hne.
Qed.

(** Writing a value free of NUL under a name the platform accepts. *)
Lemma write_plain env (varName value : string) :
  EnvKeeper.storable varName = true -> JSString.cstr value = value ->
  EnvKeeper.write env varName (Str value)
  = <[JSString.cstr varName := value]> env.
Proof.
  intros Hs Hv. unfold EnvKeeper.write. rewrite Hs. cbn [toText].
  now rewrite Hv.
Qed.

(** What [get] returns or throws for a rule that passes the test
    [if (validation)], a name the platform accepts and a resolved value
    free of NUL: the outcome of the single-variable validation of an
    environment in which the name is bound to that value. *)
Lemma get_outcome env (varName value : string) (defaultValue : DefaultArg)
    (validation : option Validation) (rule : Validation) :
  ownName env varName ->
  resolvedValue env varName defaultValue = Some value ->
  truthyValidation validation = Some rule ->
  EnvKeeper.storable varName = true -> JSString.cstr value = value ->
  fst (EnvKeeper.get env varName defaultValue validation)
  = match EnvKeeper.validate (<[JSString.cstr varName := value]> env)
            (ObjectOf [(varName, rule)]) with
    | Return _ => Return (Str value)
    | Throw e => Throw e
    end.
Proof.
  intros Hown Hr Ht Hs Hv. unfold EnvKeeper.get.
  rewrite resolve_own, Hr, Ht by assumption. cbn zeta.
  rewrite write_plain by assumption.
  unfold resolvedValue in Hr.
  destruct (isSetb env varName) eqn:Hset.
  - rewrite (insert_id env _ _ Hr).
    now destruct (EnvKeeper.validate env _).
  - destruct (validate_missing env varName rule) as (message & ->).
    { rewrite lookupMissing_own by assumption. now rewrite Hset. }
    now destruct (EnvKeeper.validate _ _).
Qed.

(** Without a rule [get] returns what it resolved and writes nothing. *)
Lemma get_without_rule env (varName : string) (defaultValue : DefaultArg)
    (validation : option Validation) :
  truthyValidation validation = None ->
  EnvKeeper.get env varName defaultValue validation
  = (EnvKeeper.resolve env varName defaultValue, env).
Proof.
  intros Ht. unfold EnvKeeper.get. rewrite Ht.
  now destruct (EnvKeeper.resolve env varName defaultValue).
Qed.

(** An exception of [get] is the error for a required variable or comes
    from a run of [validate]. *)
Lemma get_throws env (varName : string) (defaultValue : DefaultArg)
    (validation : option Validation) (e : Exception) :
  fst (EnvKeeper.get env varName defaultValue validation) = Throw e ->
  (e = requiredError varName
   /\ EnvKeeper.lookupMissing env varName = true
   /\ (defaultValue = Omitted \/ defaultValue = Null))
  \/ exists env' rule,
       EnvKeeper.validate env' (ObjectOf [(varName, rule)]) = Throw e.
Proof.
  unfold EnvKeeper.get.
  destruct (EnvKeeper.resolve env varName defaultValue) as [value|e'] eqn:Hr.
  - destruct (truthyValidation validation) as [rule|]; [|discriminate].
    destruct (EnvKeeper.validate env _) as [b|e1]; [discriminate|].
    cbn zeta.
    destruct (EnvKeeper.validate (EnvKeeper.write env varName value) _)
      as [b|e2] eqn:Hv; [discriminate|].
    intros [= <-]. right. now exists (EnvKeeper.write env varName value), rule.
  - intros [= <-]. left. unfold EnvKeeper.resolve in Hr. cbn zeta in Hr.
    unfold EnvKeeper.lookupMissing.
    destruct (isMissing (EnvKeeper.read env varName)); [|discriminate].
    destruct defaultValue; try discriminate; injection Hr as <-; auto.
Qed.

End GetFacts.

(** C2, as amended.  When the variable is unbound or empty and no
    default is supplied, [get] throws the [EnvKeeperError] "Environment
    variable <name> is required"; with a default, the value resolved is
    the default as a string.  When a rule other than the empty string is
    supplied, the platform accepts the name (it is not empty and holds
    no [=]) and the resolved value holds no NUL, [get] fails exactly
    when the single-variable validation of the resolved value fails,
    with the error of that validation, and otherwise returns the
    resolved value; a default is validated as a value of the variable
    would be.  Without a rule, or with the empty string for a rule,
    [get] returns the resolved value unchecked.  All this for a name
    that is bound or that the prototype of [process.env] does not
    answer. *)
Theorem get_resolves_then_validates `{Host}
    (env : gmap string string) (varName : string)
    (defaultValue : DefaultArg) (validation : option Validation)
    (Hown : ownName env varName) :
  (~ isSet env varName ->
   defaultValue = Omitted \/ defaultValue = Null ->
   fst (EnvKeeper.get env varName defaultValue validation)
   = Throw (EnvKeeperError
              ("Environment variable " ++ varName ++ " is required") [] []))
  /\ (forall str,
        ~ isSet env varName ->
        defaultValue = Given str ->
        resolvedValue env varName defaultValue = Some str)
  /\ (forall value,
        env !! JSString.cstr varName = Some value -> value <> "" ->
        resolvedValue env varName defaultValue = Some value)
  /\ (forall value rule,
        resolvedValue env varName defaultValue = Some value ->
        validation = Some rule -> rule <> Tag "" ->
        EnvKeeper.storable varName = true ->
        JSString.cstr value = value ->
        let checked :=
          EnvKeeper.validate (<[JSString.cstr varName := value]> env)
            (ObjectOf [(varName, rule)]) in
        fst (EnvKeeper.get env varName defaultValue validation)
        = match checked with
          | Return _ => Return (Str value)
          | Throw e => Throw e
          end
        /\ ((exists e, fst (EnvKeeper.get env varName defaultValue validation)
                       = Throw e)
            <-> exists e, checked = Throw e)
        /\ (fst (EnvKeeper.get env varName defaultValue validation)
            = Return (Str value)
            <-> checked = Return true))
  /\ (forall value,
        resolvedValue env varName defaultValue = Some value ->
        validation = None \/ validation = Some (Tag "") ->
        fst (EnvKeeper.get env varName defaultValue validation)
        = Return (Str value))
  /\ (forall str other,
        ~ isSet env varName ->
        defaultValue = Given str -> str <> "" ->
        EnvKeeper.storable varName = true ->
        JSString.cstr str = str ->
        fst (EnvKeeper.get env varName defaultValue validation)
        = fst (EnvKeeper.get (<[JSString.cstr varName := str]> env)
                 varName other validation)).
Proof.
  assert (Hnot : ~ isSet env varName -> isSetb env varName = false).
  { rewrite <- isSetb_true. now destruct (isSetb env varName). }
  split.
  { intros Hm Hd. unfold EnvKeeper.get.
    rewrite resolve_own by assumption. unfold resolvedValue.
    rewrite (Hnot Hm). now destruct Hd as [-> | ->]. }
  split.
  { intros str Hm ->. unfold resolvedValue. now rewrite (Hnot Hm). }
  split.
  { intros value Hv Hne. unfold resolvedValue.
    replace (isSetb env varName) with true; [exact Hv|].
    symmetry. apply isSetb_true. now exists value. }
  split.
  { intros value rule Hr Hv Hne Hs Hnul checked.
    assert (Ht : truthyValidation validation = Some rule)
      by now apply truthyValidation_some.
    pose proof (get_outcome env varName value defaultValue validation rule
                  Hown Hr Ht Hs Hnul) as Hget.
    fold checked in Hget. rewrite Hget.
    split; [reflexivity|]. split.
    - destruct checked as [b|e]; split; intros [e' He']; try discriminate;
        now exists e.
    - destruct checked as [b|e] eqn:Hc; split; try discriminate.
      + intros _. subst checked. now rewrite (validate_returns_true _ _ _ Hc).
      + reflexivity. }
  split.
  { intros value Hr Hv. rewrite get_without_rule
      by now apply truthyValidation_none.
    cbn [fst]. now rewrite resolve_own, Hr. }
  intros str other Hm -> Hne Hs Hnul.
  assert (Hr1 : resolvedValue env varName (Given str) = Some str).
  { unfold resolvedValue. now rewrite (Hnot Hm). }
  assert (Hr2 : resolvedValue (<[JSString.cstr varName := str]> env)
                  varName other = Some str)
    by now apply resolvedValue_bound.
  assert (Hown2 : ownName (<[JSString.cstr varName := str]> env) varName).
  { left. now rewrite lookup_insert_eq. }
  destruct (truthyValidation validation) as [rule|] eqn:Ht.
  - rewrite (get_outcome env varName str (Given str) validation rule)
      by assumption.
    rewrite (get_outcome _ varName str other validation rule) by assumption.
    now rewrite insert_insert_eq.
  - rewrite !get_without_rule by assumption. cbn [fst].
    now rewrite !resolve_own, Hr1, Hr2.
Qed.

(** C10: [get('toString', null)] on the empty environment, where no such
    variable is set, returns what the prototype of [process.env] holds
    under the name instead of failing.  [null] as a default is no
    default: [get(name, null, rule)] does what [get(name, undefined,
    rule)] does; a call with [null] that returns has found the name not
    missing and returns what it read; and on a name that is unbound or
    empty and that the prototype does not answer, the call throws the
    error for a required variable, leaving the environment as it was. *)
Theorem null_default_is_no_default `{Host}
    (env : gmap string string) (varName : string)
    (validation : option Validation) :
  ((exists o, inherited "toString" = Some o
              /\ EnvKeeper.get ∅ "toString" Null None
                 = (Return (Inherited o), ∅))
   /\ ~ isSet ∅ "toString")
  /\ EnvKeeper.get env varName Null validation
     = EnvKeeper.get env varName Omitted validation
  /\ (forall value,
        fst (EnvKeeper.get env varName Null validation) = Return value ->
        EnvKeeper.lookupMissing env varName = false
        /\ value = EnvKeeper.read env varName)
  /\ (EnvKeeper.lookupMissing env varName = true ->
      EnvKeeper.get env varName Null validation
      = (Throw (EnvKeeperError
                  ("Environment variable " ++ varName ++ " is required") [] []),
         env))
  /\ (ownName env varName -> ~ isSet env varName ->
      EnvKeeper.get env varName Null validation
      = (Throw (EnvKeeperError
                  ("Environment variable " ++ varName ++ " is required") [] []),
         env)
      /\ resolvedValue env varName Null = None).
Proof.
  assert (Hmiss : EnvKeeper.lookupMissing env varName = true ->
            EnvKeeper.get env varName Null validation
            = (Throw (EnvKeeperError
                        ("Environment variable " ++ varName ++ " is required")
                        [] []), env)).
  { intros Hm. unfold EnvKeeper.get. now rewrite resolve_missing. }
  split.
  { split; [|apply toString_not_set].
    pose proof inherited_toString as Hi.
    destruct (inherited "toString") as [o|] eqn:Ho; [|congruence].
    exists o. split; [reflexivity|].
    unfold EnvKeeper.get, EnvKeeper.resolve, EnvKeeper.read. cbn zeta.
    replace ((∅ : gmap string string) !! JSString.cstr "toString")
      with (@None string) by reflexivity.
    now rewrite Ho. }
  split; [reflexivity|].
  split.
  { intros value.
    destruct (EnvKeeper.lookupMissing env varName) eqn:Hm.
    - rewrite Hmiss by reflexivity. discriminate.
    - unfold EnvKeeper.get. rewrite resolve_not_missing by assumption.
      destruct (truthyValidation validation) as [rule|].
      + destruct (EnvKeeper.validate env _).
        * now intros [= <-].
        * cbn zeta. destruct (EnvKeeper.validate _ _); [|discriminate].
          now intros [= <-].
      + now intros [= <-]. }
  split; [exact Hmiss|].
  intros Hown Hns.
  assert (Hset : isSetb env varName = false).
  { rewrite <- isSetb_true in Hns. now destruct (isSetb env varName). }
  split.
  - apply Hmiss. rewrite lookupMissing_own by assumption. now rewrite Hset.
  - unfold resolvedValue. now rewrite Hset.
Qed.

(** C3, as amended: an [EnvKeeperError] thrown by [require] or by
    [validate], also when [get] runs [validate], names at least one
    missing or invalid variable; the error [get] itself throws for a
    variable that is missing and has no default has both sequences empty.
    ([check] and [list] are total functions: they throw nothing.) *)
Theorem errors_name_a_variable_except_required `{Host}
    (env : gmap string string) :
  (forall vars, raisesPopulated (EnvKeeper.require env vars))
  /\ (forall schema, raisesPopulated (EnvKeeper.validate env schema))
  /\ (forall varName defaultValue validation e,
        fst (EnvKeeper.get env varName defaultValue validation) = Throw e ->
        populated e
        \/ (e = requiredError varName
            /\ EnvKeeper.lookupMissing env varName = true
            /\ (defaultValue = Omitted \/ defaultValue = Null)))
  /\ (forall varName defaultValue validation,
        EnvKeeper.lookupMissing env varName = true ->
        defaultValue = Omitted \/ defaultValue = Null ->
        fst (EnvKeeper.get env varName defaultValue validation)
        = Throw (EnvKeeperError
                   ("Environment variable " ++ varName ++ " is required")
                   [] [])).
Proof.
  assert (Hv : forall env' schema, raisesPopulated (EnvKeeper.validate env' schema)).
  { intros env' [|entries]; [exact I|]. rewrite validate_outcome.
    destruct (invalidOf env' entries) as [invalid|e] eqn:Hi.
    - destruct (missingOf env' entries), invalid; cbn; auto;
        try (left; discriminate); right; discriminate.
    - apply invalidOf_throws in Hi as (n & rule & _ & Hcase).
      destruct Hcase as [(v & p & _ & _ & _ & _ & ->)
                        |(o & _ & _ & [(m & ->)|(p & _ & _ & ->)])];
        exact I. }
  split.
  { intros [|vars]; [exact I|]. rewrite require_outcome. cbn zeta.
    destruct (List.filter _ vars); cbn; [exact I|]. left. discriminate. }
  split; [apply Hv|].
  split.
  { intros varName defaultValue validation e He.
    apply get_throws in He as [Hreq|(env' & rule & Hval)]; [now right|].
    left. pose proof (Hv env' (ObjectOf [(varName, rule)])) as Hp.
    now rewrite Hval in Hp. }
  intros varName defaultValue validation Hm Hd. unfold EnvKeeper.get.
  rewrite resolve_missing by assumption. now destruct Hd as [-> | ->].
Qed.


(** C9: an entry pushed by the [minLength], [maxLength] or [pattern]
    block records the first 10 characters of the value (all of it when it
    is shorter) followed by "..."; an entry pushed by the [enum] block or
    by a failed type check records the whole value.  Every entry
    [validate] pushes for a variable comes from one of these five
    places; an entry for a name that is not bound records what the
    prototype of [process.env] holds under it. *)
Theorem violation_values_truncated_or_full `{Host}
    (varName v : string) (rules : ValidationRule) :
  (forall item, In item (EnvKeeper.minLengthCheck varName v rules) ->
                value item = JSString.prefix 10 v ++ "...")
  /\ (forall item, In item (EnvKeeper.maxLengthCheck varName v rules) ->
                   value item = JSString.prefix 10 v ++ "...")
  /\ (forall found item,
        EnvKeeper.patternCheck varName v rules = Return found ->
        In item found -> value item = JSString.prefix 10 v ++ "...")
  /\ (forall item, In item (EnvKeeper.enumCheck varName v rules) ->
                   value item = v)
  /\ (forall t, EnvKeeper.typeFails v rules = Some t ->
                EnvKeeper.checkValue varName v rules
                = Return [EnvKeeper.typeEntry varName v t]
                /\ value (EnvKeeper.typeEntry varName v t) = v)
  /\ (forall pushed,
        EnvKeeper.checkValue varName v rules = Return pushed ->
        (exists t, EnvKeeper.typeFails v rules = Some t
                   /\ pushed = [EnvKeeper.typeEntry varName v t])
        \/ (exists found,
              EnvKeeper.patternCheck varName v rules = Return found
              /\ pushed
                 = (EnvKeeper.minLengthCheck varName v rules
                    ++ EnvKeeper.maxLengthCheck varName v rules
                    ++ found ++ EnvKeeper.enumCheck varName v rules)%list))
  /\ (forall env entries invalid item,
        invalidOf env entries = Return invalid -> In item invalid ->
        (exists bound : string,
           env !! JSString.cstr (name item) = Some bound
           /\ (value item = bound
               \/ value item = JSString.prefix 10 bound ++ "..."))
        \/ (exists o,
              env !! JSString.cstr (name item) = None
              /\ inherited (name item) = Some o
              /\ value item = Inherited o))
  /\ (exists rest, v = JSString.prefix 10 v ++ rest)
  /\ String.length (JSString.prefix 10 v) = Nat.min 10 (String.length v).
Proof.
  assert (Hmin : forall n x r item,
            In item (EnvKeeper.minLengthCheck n x r) ->
            name item = n /\ value item = JSString.prefix 10 x ++ "...").
  { intros n x r item. unfold EnvKeeper.minLengthCheck.
    destruct (truthyNumber (minLength r)) as [k|]; [|intros []].
    destruct (JSString.len x <? k); [|intros []].
    intros [<-|[]]. now split. }
  assert (Hmax : forall n x r item,
            In item (EnvKeeper.maxLengthCheck n x r) ->
            name item = n /\ value item = JSString.prefix 10 x ++ "...").
  { intros n x r item. unfold EnvKeeper.maxLengthCheck.
    destruct (truthyNumber (maxLength r)) as [k|]; [|intros []].
    destruct (k <? JSString.len x); [|intros []].
    intros [<-|[]]. now split. }
  assert (Hpat : forall n x r found item,
            EnvKeeper.patternCheck n x r = Return found -> In item found ->
            name item = n /\ value item = JSString.prefix 10 x ++ "...").
  { intros n x r found item. unfold EnvKeeper.patternCheck.
    destruct (truthyString (pattern r)) as [p|].
    - destruct (RegExp_test p x) as [[|]|]; try discriminate;
        intros [= <-]; [intros []|]. intros [<-|[]]. now split.
    - intros [= <-] []. }
  assert (Henum : forall n x r item,
            In item (EnvKeeper.enumCheck n x r) ->
            name item = n /\ value item = x).
  { intros n x r item. unfold EnvKeeper.enumCheck.
    destruct (enum r) as [l|]; [|intros []].
    destruct (JSString.includes l x); [intros []|].
    intros [<-|[]]. now split. }
  assert (Hfrom : forall n x r pushed,
            EnvKeeper.checkValue n x r = Return pushed ->
            (exists t, EnvKeeper.typeFails x r = Some t
                       /\ pushed = [EnvKeeper.typeEntry n x t])
            \/ (exists found,
                  EnvKeeper.patternCheck n x r = Return found
                  /\ pushed
                     = (EnvKeeper.minLengthCheck n x r
                        ++ EnvKeeper.maxLengthCheck n x r
                        ++ found ++ EnvKeeper.enumCheck n x r)%list)).
  { intros n x r pushed. unfold EnvKeeper.checkValue, EnvKeeper.additionalRules.
    destruct (EnvKeeper.typeFails x r) as [t|].
    - intros [= <-]. left. now exists t.
    - destruct (EnvKeeper.patternCheck n x r) as [found|e];
        cbn; [|discriminate].
      intros [= <-]. right. exists found. now rewrite <- app_assoc. }
  split; [intros item Hi; now apply (Hmin varName v rules)|].
  split; [intros item Hi; now apply (Hmax varName v rules)|].
  split; [intros found item Hf Hi; now apply (Hpat varName v rules found)|].
  split; [intros item Hi; now apply (Henum varName v rules)|].
  split.
  { intros t Ht. unfold EnvKeeper.checkValue. now rewrite Ht. }
  split; [apply Hfrom|].
  split.
  { intros env entries invalid item Hi Hitem.
    destruct (invalidOf_sound env entries invalid Hi item Hitem)
      as (n & rule & _ & [(x & pushed & Hx & _ & Hc & Hp)
                         |(o & pushed & Hn & Ho & Hc & Hp)]).
    - left.
      destruct (Hfrom _ _ _ _ Hc) as [(t & _ & ->)|(found & Hf & ->)].
      + destruct Hp as [<-|[]]. exists x. split; [exact Hx|]. now left.
      + repeat (apply in_app_or in Hp as [Hp|Hp]).
        * apply Hmin in Hp as [-> ->]. exists x. split; [exact Hx|]. now right.
        * apply Hmax in Hp as [-> ->]. exists x. split; [exact Hx|]. now right.
        * apply (Hpat _ _ _ _ _ Hf) in Hp as [-> ->].
          exists x. split; [exact Hx|]. now right.
        * apply Henum in Hp as [-> ->]. exists x. split; [exact Hx|]. now left.
    - right. apply checkObject_entries in Hc as [Hc _].
      apply (proj1 (List.Forall_forall _ _) Hc) in Hp as [-> ->].
      now exists o. }
  apply truncated_prefix.
Qed.


(** ** The type table *)

Section TypeFacts.
Import JSNumber.

Lemma lowerChar_idempotent (c : ascii) :
  JSString.lowerChar (JSString.lowerChar c) = JSString.lowerChar c.
Proof.
  destruct c as [[] [] [] [] [] [] [] []]; vm_compute; reflexivity.
Qed.

Lemma toLowerCase_idempotent (s : string) :
  JSString.toLowerCase (JSString.toLowerCase s) = JSString.toLowerCase s.
Proof.
  induction s as [|c s IH]; cbn; [reflexivity|].
  now rewrite lowerChar_idempotent, IH.
Qed.

Lemma signed_divide (neg : bool) (m p : Z) :
  (p | m) <-> (p | signed neg m).
Proof.
  destruct neg; cbn; [|reflexivity]. symmetry. apply Z.divide_opp_r.
Qed.

Lemma gtZ_finite (neg : bool) (m e k : Z) :
  gtZ (Finite neg m e) k = true
  <-> if 0 <=? e then k < signed neg m * 2 ^ e
      else k * 2 ^ (- e) < signed neg m.
Proof.
  unfold gtZ, compareZ. destruct (0 <=? e).
  - rewrite <- Z.compare_gt_iff.
    destruct (signed neg m * 2 ^ e ?= k); split; congruence.
  - rewrite <- Z.compare_gt_iff.
    destruct (signed neg m ?= k * 2 ^ (- e)); split; congruence.
Qed.

Lemma leZ_finite (neg : bool) (m e k : Z) :
  leZ (Finite neg m e) k = true
  <-> if 0 <=? e then signed neg m * 2 ^ e <= k
      else signed neg m <= k * 2 ^ (- e).
Proof.
  unfold leZ, compareZ. destruct (0 <=? e).
  - rewrite <- Z.compare_le_iff.
    destruct (signed neg m * 2 ^ e ?= k); split; congruence.
  - rewrite <- Z.compare_le_iff.
    destruct (signed neg m ?= k * 2 ^ (- e)); split; congruence.
Qed.

(** [Number.isInteger(x) && x > 0 && x <= 65535] holds exactly of the
    integers from 1 to 65535. *)
Lemma port_range (x : JSNumber.t) :
  isInteger x && gtZ x 0 && leZ x 65535 = true
  <-> exists k, 1 <= k <= 65535 /\ denotes x k.
Proof.
  destruct x as [|neg|neg m e].
  - split; [discriminate|]. intros (k & _ & []).
  - split; [discriminate|]. intros (k & _ & []).
  - rewrite !andb_true_iff, gtZ_finite, leZ_finite.
    cbn [isInteger denotes].
    destruct (0 <=? e) eqn:He.
    + split.
      * intros [[_ Hgt] Hle]. exists (signed neg m * 2 ^ e). lia.
      * intros (k & Hk & <-). repeat split; lia.
    + apply Z.leb_gt in He.
      assert (Hp : 0 < 2 ^ (- e)) by (apply Z.pow_pos_nonneg; lia).
      set (p := 2 ^ (- e)) in *. rewrite Z.mul_0_l.
      split.
      * intros [[Hint Hgt] Hle].
        apply Z.eqb_eq in Hint. apply Z.mod_divide in Hint; [|lia].
        apply (signed_divide neg) in Hint. destruct Hint as [k Hk].
        exists k. split; [nia|exact Hk].
      * intros (k & Hk & Hs).
        assert (Hd : (p | m)).
        { apply (signed_divide neg). now exists k. }
        apply Z.mod_divide in Hd; [|lia]. rewrite Hd.
        repeat split; nia.
Qed.

Lemma finite_number (x : JSNumber.t) :
  negb (isNaN x) && isFinite x = true
  <-> exists neg m e, x = Finite neg m e.
Proof.
  destruct x as [|neg|neg m e]; cbn; split; try discriminate.
  - intros (? & ? & ? & ?). discriminate.
  - intros (? & ? & ? & ?). discriminate.
  - intros _. now exists neg, m, e.
  - reflexivity.
Qed.


Lemma roundHalfEven_integer (n : Z) : roundHalfEven n 1 = n.
Proof.
  unfold roundHalfEven. rewrite Z.div_1_r, Z.mod_1_r. reflexivity.
Qed.

(** An integer below 2^53 is a binary64 value: it is not rounded. *)
Lemma binary64_exact (neg : bool) (n : Z) :
  0 < n < 2 ^ 53 -> denotes (binary64 neg n 1) (signed neg n).
Proof.
  intros Hn. unfold binary64.
  change (Z.log2 1) with 0.
  destruct (Z.log2_spec n) as [Hlo Hhi]; [lia|].
  pose proof (Z.log2_nonneg n) as Hl0.
  assert (Hl : Z.log2 n < 53).
  { apply (Z.pow_lt_mono_r_iff 2); lia. }
  set (l := Z.log2 n) in *.
  replace (l - 0 - 52) with (l - 52) by lia.
  assert (Hscaled : 2 ^ 52 <= n * 2 ^ (52 - l)).
  { replace (2 ^ 52) with (2 ^ l * 2 ^ (52 - l)).
    - apply Z.mul_le_mono_nonneg_r; [apply Z.pow_nonneg|]; lia.
    - rewrite <- Z.pow_add_r by lia. f_equal. lia. }
  unfold scale.
  destruct (0 <=? l - 52) eqn:He.
  - apply Z.leb_le in He. assert (l = 52) as Hl52 by lia.
    rewrite Hl52 in *. change (52 - 52) with 0 in *. change (2 ^ 0) with 1 in *.
    rewrite Z.mul_1_r in *.
    replace (2 ^ 52 <=? n) with true by (symmetry; apply Z.leb_le; lia).
    change (Z.max 0 (-1074)) with 0. cbn [Z.leb Z.compare].
    change (2 ^ 0) with 1. rewrite Z.mul_1_r, roundHalfEven_integer.
    cbn [orb andb Z.leb]. cbn. lia.
  - apply Z.leb_gt in He.
    replace (- (l - 52)) with (52 - l) by lia.
    rewrite Z.mul_1_r.
    replace (2 ^ 52 <=? n * 2 ^ (52 - l)) with true
      by (symmetry; apply Z.leb_le; lia).
    rewrite Z.max_l by lia.
    replace (0 <=? l - 52) with false by (symmetry; apply Z.leb_gt; lia).
    replace (- (l - 52)) with (52 - l) by lia.
    rewrite roundHalfEven_integer.
    replace (972 <=? l - 52) with false by (symmetry; apply Z.leb_gt; lia).
    replace (971 <=? l - 52) with false by (symmetry; apply Z.leb_gt; lia).
    cbn [orb andb denotes].
    replace (0 <=? l - 52) with false by (symmetry; apply Z.leb_gt; lia).
    replace (- (l - 52)) with (52 - l) by lia.
    destruct neg; cbn [signed]; lia.
Qed.

End TypeFacts.

(** C5: the type check of [validate] reads the tag without regard to
    case and follows the table.  [string] passes always; [number] passes
    exactly when [Number(value)] is a finite number (neither NaN nor an
    infinity); [boolean] exactly when the value in lower case is one of
    [true], [false], [1], [0]; [port] exactly when [Number(value)] is an
    integer from 1 to 65535 (so "1" and "65535" pass, "0", "65536", "-5"
    and "abc" fail); a tag outside the table passes. *)
Theorem type_check_follows_table `{Host} (v t : string) :
  let tag := JSString.toLowerCase t in
  (forall t', JSString.toLowerCase t' = tag ->
              EnvKeeper._validateType v t' = EnvKeeper._validateType v t)
  /\ EnvKeeper._validateType v tag = EnvKeeper._validateType v t
  /\ (tag = "string" -> EnvKeeper._validateType v t = true)
  /\ (tag = "number" ->
      (EnvKeeper._validateType v t = true
       <-> exists neg m e, JSNumber.Number v = JSNumber.Finite neg m e)
      /\ (JSNumber.Number v = JSNumber.NaN ->
          EnvKeeper._validateType v t = false)
      /\ (forall neg, JSNumber.Number v = JSNumber.Infinity neg ->
                      EnvKeeper._validateType v t = false))
  /\ (tag = "boolean" ->
      (EnvKeeper._validateType v t = true
       <-> In (JSString.toLowerCase v) ["true"; "false"; "1"; "0"]))
  /\ (tag = "port" ->
      (EnvKeeper._validateType v t = true
       <-> exists k, 1 <= k <= 65535 /\ JSNumber.denotes (JSNumber.Number v) k)
      /\ (In v ["1"; "65535"] -> EnvKeeper._validateType v t = true)
      /\ (In v ["0"; "65536"; "-5"; "abc"] ->
          EnvKeeper._validateType v t = false))
  /\ (~ In tag ["string"; "number"; "boolean"; "url"; "email"; "json"; "port"] ->
      EnvKeeper._validateType v t = true).
Proof.
  intros tag.
  assert (Hcase : forall t', JSString.toLowerCase t' = tag ->
            EnvKeeper._validateType v t' = EnvKeeper._validateType v t).
  { intros t' Ht'. unfold EnvKeeper._validateType. fold tag. now rewrite Ht'. }
  split; [exact Hcase|].
  split; [apply Hcase, toLowerCase_idempotent|].
  unfold EnvKeeper._validateType. fold tag.
  split; [now intros ->|].
  split.
  { intros ->. cbn [String.eqb Ascii.eqb Bool.eqb].
    split; [apply finite_number|]. split.
    - now intros ->.
    - now intros neg ->. }
  split.
  { intros ->. cbn [String.eqb Ascii.eqb Bool.eqb]. apply includes_In. }
  split.
  { intros ->. cbn [String.eqb Ascii.eqb Bool.eqb].
    split; [apply port_range|]. split.
    - intros [<-|[<-|[]]]; vm_compute; reflexivity.
    - intros [<-|[<-|[<-|[<-|[]]]]]; vm_compute; reflexivity. }
  intros Hun.
  repeat match goal with
         | |- (if String.eqb tag ?s then _ else _) = true =>
             destruct (String.eqb_spec tag s) as [Heq|_];
             [exfalso; apply Hun; rewrite Heq; cbn; tauto|]
         end.
  reflexivity.
Qed.

(** ** The properties on sample inputs *)



(** [get('PORT', 'abc', 'port')] with [PORT] unbound throws, as the
    validation of "abc" does; with the default 3000 it returns "3000". *)
Lemma get_validates_default_on_sample :
  (exists e,
     fst (EnvKeeper.get (H := sampleHost) ∅ "PORT" (Given "abc")
            (Some (Tag "port"))) = Throw e)
  /\ fst (EnvKeeper.get (H := sampleHost) ∅ "PORT" (Given "3000")
            (Some (Tag "port")))
     = Return (Str "3000").
Proof.
  split.
  - destruct (get_resolves_then_validates (H := sampleHost)
                ∅ "PORT" (Given "abc") (Some (Tag "port")))
      as (_ & _ & _ & Hrule & _); [right; reflexivity|].
    pose proof (Hrule "abc" (Tag "port") eq_refl eq_refl
                  ltac:(discriminate) eq_refl eq_refl) as (_ & Hthrows & _).
    apply Hthrows. eexists. vm_compute. reflexivity.
  - destruct (get_resolves_then_validates (H := sampleHost)
                ∅ "PORT" (Given "3000") (Some (Tag "port")))
      as (_ & _ & _ & Hrule & _); [right; reflexivity|].
    pose proof (Hrule "3000" (Tag "port") eq_refl eq_refl
                  ltac:(discriminate) eq_refl eq_refl) as (_ & _ & Hreturns).
    apply Hreturns. vm_compute. reflexivity.
Defined.

(** C2, as stated, fails.  With the empty string for a rule, [get]
    returns the empty default, which the single-variable validation
    rejects.  With a name the platform does not store, [get] throws
    although the default meets the rule. *)
Lemma get_skips_the_empty_rule :
  (fst (EnvKeeper.get (H := sampleHost) ∅ "X" (Given "") (Some (Tag "")))
   = Return (Str "")
   /\ EnvKeeper.validate (H := sampleHost) (<["X" := ""]> ∅)
        (ObjectOf [("X", Tag "")])
      = Throw (EnvKeeperError "Missing environment variables: X" ["X"] []))
  /\ (EnvKeeper.get (H := sampleHost) ∅ "A=B" (Given "x") (Some (Tag "string"))
      = (Throw (EnvKeeperError "Missing environment variables: A=B"
                  ["A=B"] []), ∅)
      /\ EnvKeeper.checkValue (H := sampleHost) "A=B" "x"
           (EnvKeeper.normalize (Tag "string")) = Return []).
Proof. repeat split; vm_compute; reflexivity. Defined.

(** C3, as stated, fails: the error of [get('X')] with [X] unbound has no
    missing name and no invalid entry. *)
Lemma get_required_error_names_nothing :
  fst (EnvKeeper.get (H := sampleHost) ∅ "X" Omitted None)
  = Throw (EnvKeeperError "Environment variable X is required" [] [])
  /\ ~ raisesPopulated
         (fst (EnvKeeper.get (H := sampleHost) ∅ "X" Omitted None)).
Proof.
  split; [vm_compute; reflexivity|].
  vm_compute. intros [Hm|Hi]; congruence.
Defined.

Lemma errors_name_a_variable_on_sample :
  fst (EnvKeeper.get (H := sampleHost) Sample.envAB "A" Null (Some (Tag "port")))
  = Throw (EnvKeeperError "Environment variable A is required" [] []).
Proof.
  destruct (errors_name_a_variable_except_required (H := sampleHost) Sample.envAB)
    as (_ & _ & _ & Hreq).
  apply (Hreq "A" Null (Some (Tag "port"))).
  - vm_compute. reflexivity.
  - right. reflexivity.
Defined.



Lemma type_check_on_sample :
  EnvKeeper._validateType (H := sampleHost) "65535" "PORT" = true
  /\ EnvKeeper._validateType (H := sampleHost) "65536" "Port" = false
  /\ EnvKeeper._validateType (H := sampleHost) "anything" "uuid" = true.
Proof.
  split; [|split].
  - destruct (type_check_follows_table (H := sampleHost) "65535" "PORT")
      as (_ & _ & _ & _ & _ & Hport & _).
    destruct Hport as (_ & Hpass & _); [reflexivity|].
    apply Hpass. right. left. reflexivity.
  - destruct (type_check_follows_table (H := sampleHost) "65536" "Port")
      as (_ & _ & _ & _ & _ & Hport & _).
    destruct Hport as (_ & _ & Hfail); [reflexivity|].
    apply Hfail. right. left. reflexivity.
  - destruct (type_check_follows_table (H := sampleHost) "anything" "uuid")
      as (_ & _ & _ & _ & _ & _ & Hother).
    apply Hother. vm_compute. intuition discriminate.
Defined.

Lemma violation_values_on_sample :
  value (EnvKeeper.minLengthEntry "API_KEY" "0123456789abcdef" 20)
  = "0123456789..."
  /\ value (EnvKeeper.enumEntry "API_KEY" "0123456789abcdef" ["a"])
     = "0123456789abcdef".
Proof.
  destruct (violation_values_truncated_or_full (H := sampleHost)
              "API_KEY" "0123456789abcdef"
              (mkRule None (Some 20) None None (Some ["a"])))
    as (Hmin & _ & _ & Henum & _).
  split.
  - rewrite (Hmin (EnvKeeper.minLengthEntry "API_KEY" "0123456789abcdef" 20)).
    + vm_compute. reflexivity.
    + vm_compute. left. reflexivity.
  - apply Henum. vm_compute. left. reflexivity.
Defined.

(** [require(['A', 'B'])] with [A] unbound and [B] bound. *)
Lemma require_on_sample :
  EnvKeeper.require (H := sampleHost) Sample.envAB (ArrayOf ["A"; "B"])
  = Throw (EnvKeeperError "Missing required environment variables: A"
             ["A"] []).
Proof.
  destruct (require_lists_every_missing_name (H := sampleHost)
              Sample.envAB ["A"; "B"]) as (_ & Hown & _).
  destruct Hown as (Heq & _).
  - repeat constructor; right; reflexivity.
  - rewrite Heq. vm_compute. reflexivity.
Defined.

(** No name that designates the variable [X] is a property of the
    prototype: the names of the prototype start with other letters. *)
Lemma empty_is_absence_on_sample :
  EnvKeeper.require (H := sampleHost) (<["X" := ""]> Sample.envAB)
    (ArrayOf ["X"; "B"])
  = Throw (EnvKeeperError "Missing required environment variables: X"
             ["X"] []).
Proof.
  destruct (empty_string_is_absence (H := sampleHost) Sample.envAB "X")
    as (_ & Hown).
  destruct Hown as (Hreq & _).
  - intros [|c r]; [discriminate|]. cbn [JSString.cstr].
    destruct (Ascii.eqb c JSString.NUL); [discriminate|].
    intros [= -> _]. reflexivity.
  - rewrite <- (Hreq (ArrayOf ["X"; "B"])). vm_compute. reflexivity.
Defined.

(** [check(['A', 'B'])] with [A] unbound and [B] bound. *)
Lemma check_on_sample :
  EnvKeeper.check (H := sampleHost) Sample.envAB ["A"; "B"]
  = mkCheck false ["A"] ["B"].
Proof.
  destruct (check_partitions_names (H := sampleHost) Sample.envAB ["A"; "B"])
    as (_ & _ & _ & _ & _ & _ & _ & _ & _ & _ & _ & Hown).
  destruct Hown as (Hm & Hs & _).
  - repeat constructor; right; reflexivity.
  - destruct (EnvKeeper.check Sample.envAB ["A"; "B"]) as [ok m s] eqn:Hc.
    cbn [missing set] in Hm, Hs. subst m s.
    vm_compute in Hc. injection Hc as <-. reflexivity.
Defined.

Lemma null_default_on_sample :
  EnvKeeper.get (H := sampleHost) Sample.envAB "A" Null (Some (Tag "string"))
  = (Throw (EnvKeeperError "Environment variable A is required" [] []),
     Sample.envAB).
Proof.
  destruct (null_default_is_no_default (H := sampleHost)
              Sample.envAB "A" (Some (Tag "string"))) as (_ & _ & _ & _ & Hnull).
  destruct Hnull as (Heq & _).
  - right. reflexivity.
  - intros (v & Hv & _). discriminate.
  - exact Heq.
Defined.

(** The scenarios of the specification and of the test suite. *)

Example number_scenarios :
  List.map (fun v => EnvKeeper._validateType (H := sampleHost) v "number")
    ["42"; "3.14"; "-1"; "abc"; "Infinity"; "1e999"; " 7 "; "0x1F"]
  = [true; true; true; false; false; false; true; true].
Proof. vm_compute. reflexivity. Qed.

Example port_scenarios :
  List.map (fun v => EnvKeeper._validateType (H := sampleHost) v "port")
    ["1"; "65535"; "0"; "65536"; "-5"; "abc"; "80.5"; "8e1"]
  = [true; true; false; false; false; false; false; true].
Proof. vm_compute. reflexivity. Qed.

Example boolean_scenarios :
  List.map (fun v => EnvKeeper._validateType (H := sampleHost) v "Boolean")
    ["TRUE"; "false"; "1"; "0"; "yes"; " true"]
  = [true; true; true; true; false; false].
Proof. vm_compute. reflexivity. Qed.

Example email_scenarios :
  List.map (fun v => EnvKeeper._validateType (H := sampleHost) v "email")
    ["test@example.com"; "a@b"; "a@b.c.d"; "a b@c.d"; "@b.c"; "a@.c"; "a@b."]
  = [true; false; true; false; false; false; false].
Proof. vm_compute. reflexivity. Qed.

Example minLength_scenario :
  EnvKeeper.validate (H := sampleHost) Sample.envApiKey
    (ObjectOf [("API_KEY", Rules Sample.minLength10)])
  = Throw (EnvKeeperError
             ("Invalid environment variables:" ++ LF
              ++ "  - API_KEY: Length 3 is less than required 10")
             []
             [mkInvalid "API_KEY" "123..." "minimum length 10"
                        "Length 3 is less than required 10"]).
Proof. vm_compute. reflexivity. Qed.

Example enum_scenario :
  EnvKeeper.validate (H := sampleHost) Sample.envNodeEnv
    (ObjectOf [("NODE_ENV", Rules Sample.nodeEnvs)])
  = Return true.
Proof. vm_compute. reflexivity. Qed.

Example require_scenario :
  EnvKeeper.require (H := sampleHost) ∅ (ArrayOf ["VAR1"; "VAR2"])
  = Throw (EnvKeeperError "Missing required environment variables: VAR1, VAR2"
             ["VAR1"; "VAR2"] []).
Proof. vm_compute. reflexivity. Qed.

Example get_fallback_scenario :
  fst (EnvKeeper.get (H := sampleHost) ∅ "X" (Given "fallback") None)
  = Return (Str "fallback").
Proof. vm_compute. reflexivity. Qed.

Example check_scenario :
  EnvKeeper.check (H := sampleHost) (<["SET_VAR" := "value"]> ∅)
    ["SET_VAR"; "MISSING_VAR"]
  = mkCheck false ["MISSING_VAR"] ["SET_VAR"].
Proof. vm_compute. reflexivity. Qed.

Example list_scenarios :
  EnvKeeper.list Sample.envSecret true !! "TEST_VAR" = Some "[HIDDEN]"
  /\ EnvKeeper.list Sample.envSecret false !! "TEST_VAR" = Some "secret".
Proof. split; vm_compute; reflexivity. Qed.

(** A pattern that does not compile ends [validate] with the
    [SyntaxError], also for the entries checked before it. *)
Example pattern_syntax_error :
  EnvKeeper.validate (H := sampleHost) Sample.envAB
    (ObjectOf [("A", Tag "string"); ("B", Rules Sample.badPattern)])
  = Throw (SyntaxError "(").
Proof. vm_compute. reflexivity. Qed.

(** Names that the prototype of [process.env] answers, on the empty
    environment: [toString] counts as set; as a string it is invalid, of
    an unknown type it passes, and a length bound ends in the
    [TypeError] of [substring]. *)
Example prototype_scenarios :
  EnvKeeper.check (H := sampleHost) ∅ ["constructor"; "X"]
  = mkCheck false ["X"] ["constructor"]
  /\ EnvKeeper.validate (H := sampleHost) ∅ (ObjectOf [("toString", Tag "uuid")])
     = Return true
  /\ EnvKeeper.validate (H := sampleHost) ∅
       (ObjectOf [("toString", Rules (mkRule None (Some 5) None None None))])
     = Throw (TypeError "value.substring is not a function")
  /\ (exists message invalid,
        EnvKeeper.validate (H := sampleHost) ∅
          (ObjectOf [("toString", Tag "string")])
        = Throw (EnvKeeperError message [] invalid)
        /\ List.map name invalid = ["toString"]).
Proof.
  repeat split; try (vm_compute; reflexivity).
  eexists _, _. split; vm_compute; reflexivity.
Qed.

(** What the platform stores: nothing under a name that holds [=], and a
    value up to its first NUL. *)
Example write_scenarios :
  snd (EnvKeeper.get (H := sampleHost) ∅ "A=B" (Given "x") (Some (Tag "string")))
  = ∅
  /\ EnvKeeper.get (H := sampleHost) ∅ "V"
       (Given (String "a" (String JSString.NUL "bcd"))) (Some (Tag "string"))
     = (Return (Str (String "a" (String JSString.NUL "bcd"))),
        <["V" := "a"]> ∅).
Proof. split; vm_compute; reflexivity. Qed.

(** ** [list] *)

(** X1: [list] returns a map with the keys of the environment other
    than [__proto__], which an assignment to a plain object does not
    create; with [hideValues] every value is the marker "[HIDDEN]", so
    that no value of the environment shows; without it the map is the
    environment without that key. *)
Theorem list_keeps_keys_hides_values (env : gmap string string) :
  (forall hideValues key,
     key <> "__proto__" ->
     is_Some (EnvKeeper.list env hideValues !! key) <-> is_Some (env !! key))
  /\ (forall hideValues, EnvKeeper.list env hideValues !! "__proto__" = None)
  /\ (forall key,
        key <> "__proto__" ->
        EnvKeeper.list env true !! key
        = if decide (is_Some (env !! key)) then Some "[HIDDEN]" else None)
  /\ (forall key shown,
        EnvKeeper.list env true !! key = Some shown -> shown = "[HIDDEN]")
  /\ (forall env',
        EnvKeeper.list env true = EnvKeeper.list env' true
        <-> forall key, key <> "__proto__" ->
                        (is_Some (env !! key) <-> is_Some (env' !! key)))
  /\ EnvKeeper.list env false = delete "__proto__" env
  /\ (env !! "__proto__" = None -> EnvKeeper.list env false = env).
Proof.
  assert (Hlook : forall (e : gmap string string) key,
            key <> "__proto__" ->
            EnvKeeper.list e true !! key
            = if decide (is_Some (e !! key)) then Some "[HIDDEN]" else None).
  { intros e key Hne. unfold EnvKeeper.list.
    rewrite lookup_delete_ne, lookup_fmap by congruence.
    destruct (e !! key) as [v|]; cbn.
    - destruct (decide (is_Some (Some v))) as [_|Hn]; [reflexivity|].
      exfalso. apply Hn. now exists v.
    - destruct (decide (is_Some (@None string))) as [[x Hx]|_];
        [discriminate|reflexivity]. }
  assert (Hfalse : EnvKeeper.list env false = delete "__proto__" env).
  { unfold EnvKeeper.list. now rewrite map_fmap_id. }
  split.
  { intros hideValues key Hne. unfold EnvKeeper.list.
    rewrite lookup_delete_ne, lookup_fmap by congruence.
    destruct (env !! key) as [v|]; cbn; split; intros [x Hx];
      try discriminate; eauto. }
  split.
  { intros hideValues. unfold EnvKeeper.list. apply lookup_delete_eq. }
  split; [exact (Hlook env)|].
  split.
  { intros key shown. destruct (decide (key = "__proto__")) as [->|Hne].
    - unfold EnvKeeper.list. rewrite lookup_delete_eq. discriminate.
    - rewrite Hlook by assumption. destruct (decide _); congruence. }
  split.
  { intros env'. split.
    - intros Heq key Hne.
      pose proof (Hlook env key Hne) as H1.
      pose proof (Hlook env' key Hne) as H2. rewrite Heq in H1.
      rewrite H1 in H2.
      destruct (decide (is_Some (env !! key))),
               (decide (is_Some (env' !! key))); try discriminate; tauto.
    - intros Hdom. apply map_eq. intros key.
      destruct (decide (key = "__proto__")) as [->|Hne].
      + unfold EnvKeeper.list. now rewrite !lookup_delete_eq.
      + rewrite !Hlook by assumption. specialize (Hdom key Hne).
        destruct (decide (is_Some (env !! key))),
                 (decide (is_Some (env' !! key))); try reflexivity; tauto. }
  split; [exact Hfalse|].
  intros Hnone. rewrite Hfalse. now apply delete_id.
Qed.

(** ** What [get] writes *)

Section GetWrites.
Context `{Host}.

Implicit Types (env : gmap string string).

(** The environment [get] leaves is the one it found, or that one after
    the assignment of the resolved value to the name. *)
Lemma get_environment env (varName : string) (defaultValue : DefaultArg)
    (validation : option Validation) :
  snd (EnvKeeper.get env varName defaultValue validation) = env
  \/ exists value rule,
       EnvKeeper.resolve env varName defaultValue = Return value
       /\ truthyValidation validation = Some rule
       /\ (exists e, EnvKeeper.validate env (ObjectOf [(varName, rule)]) = Throw e)
       /\ snd (EnvKeeper.get env varName defaultValue validation)
          = EnvKeeper.write env varName value.
Proof.
  unfold EnvKeeper.get.
  destruct (EnvKeeper.resolve env varName defaultValue) as [value|e];
    [|now left].
  destruct (truthyValidation validation) as [rule|]; [|now left].
  destruct (EnvKeeper.validate env (ObjectOf [(varName, rule)])) as [b|e] eqn:Hv;
    [now left|].
  right. exists value, rule. repeat split; [now exists e|].
  cbn zeta. now destruct (EnvKeeper.validate (EnvKeeper.write env varName value) _).
Qed.

Lemma write_other env (varName : string) (value : EnvValue) (key : string) :
  key <> JSString.cstr varName ->
  EnvKeeper.write env varName value !! key = env !! key.
Proof.
  intros Hne. unfold EnvKeeper.write.
  destruct (EnvKeeper.storable varName); [|reflexivity].
  now rewrite lookup_insert_ne.
Qed.

(** Writing to a variable the value it has changes nothing. *)
Lemma write_same env (varName v : string) :
  env !! JSString.cstr varName = Some v -> JSString.cstr v = v ->
  EnvKeeper.write env varName (Str v) = env.
Proof.
  intros Hv Hnul. unfold EnvKeeper.write. cbn [toText]. rewrite Hnul.
  destruct (EnvKeeper.storable varName); [|reflexivity].
  now apply insert_id.
Qed.

Lemma cstr_empty (v : string) : JSString.cstr v <> "" -> v <> "".
Proof. intros Hne ->. now apply Hne. Qed.

End GetWrites.



(** X3: when [get] returns with a rule given, other than the empty
    string, for a name that is bound or that the prototype does not
    answer, the value returned is a non-empty string and the environment
    it leaves has the variable set; the rule holds of it and [require]
    of the name passes.  When the value holds no NUL, the variable is
    bound to the value returned, and a second [get], without default,
    returns the same value and writes nothing. *)
Theorem get_success_leaves_the_variable_set `{Host}
    (env env' : gmap string string) (varName : string) (value : EnvValue)
    (defaultValue : DefaultArg) (validation : option Validation)
    (rule : Validation) :
  validation = Some rule -> rule <> Tag "" ->
  ownName env varName ->
  EnvKeeper.get env varName defaultValue validation = (Return value, env') ->
  exists v : string,
    value = Str v
    /\ v <> ""
    /\ isSet env' varName
    /\ EnvKeeper.validate env' (ObjectOf [(varName, rule)]) = Return true
    /\ EnvKeeper.require env' (ArrayOf [varName]) = Return true
    /\ (JSString.cstr v = v ->
        env' !! JSString.cstr varName = Some v
        /\ EnvKeeper.get env' varName Omitted validation
           = (Return value, env')).
Proof.
  intros Hsome Hrule Hown Hget.
  assert (Ht : truthyValidation validation = Some rule)
    by now apply truthyValidation_some.
  unfold EnvKeeper.get in Hget. rewrite resolve_own in Hget by assumption.
  destruct (resolvedValue env varName defaultValue) as [v|] eqn:Hr;
    [|discriminate].
  rewrite Ht in Hget. exists v.
  (* what holds of the environment left, whichever branch left it *)
  assert (Hleft : forall stored,
            env' !! JSString.cstr varName = Some stored ->
            EnvKeeper.validate env' (ObjectOf [(varName, rule)]) = Return true ->
            stored <> ""
            /\ isSet env' varName
            /\ EnvKeeper.require env' (ArrayOf [varName]) = Return true
            /\ EnvKeeper.get env' varName Omitted validation
               = (Return (Str stored), env')).
  { intros stored Hs Hval.
    assert (Hne : stored <> "").
    { intros ->. destruct (validate_missing env' varName rule) as (m & Hm).
      - unfold EnvKeeper.lookupMissing. now rewrite (read_bound _ _ _ Hs).
      - congruence. }
    assert (Hset : isSet env' varName) by now exists stored.
    split; [exact Hne|]. split; [exact Hset|]. split.
    - rewrite require_outcome. cbn [List.filter].
      now rewrite lookupMissing_set.
    - unfold EnvKeeper.get. rewrite (resolve_set env' varName stored)
        by assumption.
      now rewrite Ht, Hval. }
  destruct (EnvKeeper.validate env (ObjectOf [(varName, rule)])) as [b|e] eqn:H1.
  - injection Hget as <- <-.
    rewrite (validate_returns_true _ _ _ H1) in H1.
    assert (Hs : env !! JSString.cstr varName = Some v).
    { unfold resolvedValue in Hr.
      destruct (isSetb env varName) eqn:Hset; [exact Hr|].
      destruct (validate_missing env varName rule) as (m & Hm); [|congruence].
      rewrite lookupMissing_own by assumption. now rewrite Hset. }
    destruct (Hleft v Hs H1) as (Hne & Hset & Hreq & Hagain).
    repeat split; assumption.
  - cbn zeta in Hget.
    destruct (EnvKeeper.validate (EnvKeeper.write env varName (Str v)) _)
      as [b|e'] eqn:H2; [|discriminate].
    injection Hget as <- <-.
    rewrite (validate_returns_true _ _ _ H2) in H2.
    assert (Hs : EnvKeeper.write env varName (Str v) !! JSString.cstr varName
                 = Some (JSString.cstr v)).
    { unfold EnvKeeper.write in *.
      destruct (EnvKeeper.storable varName); [|congruence].
      cbn [toText]. apply lookup_insert_eq. }
    destruct (Hleft (JSString.cstr v) Hs H2) as (Hne & Hset & Hreq & Hagain).
    split; [reflexivity|]. split; [now apply cstr_empty|].
    split; [exact Hset|]. split; [exact H2|]. split; [exact Hreq|].
    intros Hnul. rewrite Hnul in Hs, Hagain. now split.
Qed.

(** [get('PORT', 3000, 'port')] on the empty environment leaves [PORT]
    bound to "3000", and a second call finds it there. *)
Lemma get_success_on_sample :
  (<["PORT" := "3000"]> ∅ : gmap string string) !! "PORT" = Some "3000"
  /\ EnvKeeper.validate (H := sampleHost) (<["PORT" := "3000"]> ∅)
       (ObjectOf [("PORT", Tag "port")]) = Return true
  /\ EnvKeeper.get (H := sampleHost) (<["PORT" := "3000"]> ∅) "PORT" Omitted
       (Some (Tag "port"))
     = (Return (Str "3000"), <["PORT" := "3000"]> ∅).
Proof.
  destruct (get_success_leaves_the_variable_set (H := sampleHost)
              ∅ (<["PORT" := "3000"]> ∅) "PORT" (Str "3000") (Given "3000")
              (Some (Tag "port")) (Tag "port") eq_refl
              ltac:(discriminate) (or_intror eq_refl) eq_refl)
    as (v & Hv & _ & _ & Hval & _ & Hbound).
  injection Hv as <-.
  destruct (Hbound eq_refl) as (Hs & Hagain).
  split; [exact Hs|]. split; [exact Hval|exact Hagain].
Defined.

(** ** When [validate] passes *)

Section Passing.
Context `{Host}.

Implicit Types (env : gmap string string).

Lemma invalidOf_nil env (entries : list (string * Validation)) :
  Forall (ownName env) (List.map fst entries) ->
  invalidOf env entries = Return [] /\ missingOf env entries = []
  <-> forall varName rule,
        In (varName, rule) entries ->
        exists v, env !! JSString.cstr varName = Some v /\ v <> ""
                  /\ ruleHolds v (EnvKeeper.normalize rule).
Proof.
  induction entries as [|[n rule] rest IH]; intros Hown.
  - split; [intros _ ? ? []|]. intros _. split; reflexivity.
  - cbn [List.map fst] in Hown. inversion Hown as [|? ? Hn Hrest]; subst.
    specialize (IH Hrest). unfold missingOf in *.
    cbn [List.map fst List.filter].
    destruct (own_cases env n Hn) as [[Hns Hm]|(vn & Hv & Hne & Hm)];
      rewrite Hm.
    + split; [intros [_ ?]; discriminate|].
      intros Hall. destruct (Hall n rule) as (v & Hv & Hne & _); [now left|].
      exfalso. apply Hns. now exists v.
    + rewrite (invalidOf_cons_set _ _ _ _ _ Hv Hne). split.
      * intros [Hi Hmiss] varName r [[= <- <-]|Hin].
        -- exists vn. split; [exact Hv|]. split; [exact Hne|].
           apply (checkValue_nil n).
           destruct (EnvKeeper.checkValue n vn _) as [pushed|e];
             cbn in Hi; [|discriminate].
           destruct (invalidOf env rest) as [more|e]; cbn in Hi;
             [|discriminate].
           injection Hi as Happ. apply app_eq_nil in Happ as [-> _].
           reflexivity.
        -- apply IH; [|assumption]. split; [|assumption].
           destruct (EnvKeeper.checkValue n vn _) as [pushed|e];
             cbn in Hi; [|discriminate].
           destruct (invalidOf env rest) as [more|e]; cbn in Hi;
             [|discriminate].
           injection Hi as Happ. apply app_eq_nil in Happ as [_ ->].
           reflexivity.
      * intros Hall.
        destruct (Hall n rule) as (v & Hv' & _ & Hr); [now left|].
        rewrite Hv in Hv'. injection Hv' as <-.
        apply (checkValue_nil n) in Hr. rewrite Hr. cbn.
        destruct IH as [_ IH]. destruct IH as [-> ->].
        { intros varName r Hin. apply Hall. now right. }
        split; reflexivity.
Qed.

(** Variables that are all set and meet their rules pass, whatever the
    prototype holds. *)
Lemma invalidOf_nil_set env (entries : list (string * Validation)) :
  (forall varName rule,
     In (varName, rule) entries ->
     exists v, env !! JSString.cstr varName = Some v /\ v <> ""
               /\ ruleHolds v (EnvKeeper.normalize rule)) ->
  invalidOf env entries = Return [] /\ missingOf env entries = [].
Proof.
  intros Hall. apply invalidOf_nil; [|exact Hall].
  apply List.Forall_forall. intros n [[n' rule] [<- Hin]]%in_map_iff.
  destruct (Hall n' rule Hin) as (v & Hv & _). left. cbn. congruence.
Qed.

Lemma invalidOf_bareStrings env (vars : list string) :
  Forall (ownName env) vars ->
  invalidOf env (bareStrings vars) = Return []
  /\ missingOf env (bareStrings vars)
     = List.filter (EnvKeeper.lookupMissing env) vars.
Proof.
  intros Hown. split.
  - induction Hown as [|n vars Hn Hrest IH]; [reflexivity|].
    cbn [bareStrings List.map]. fold (bareStrings vars).
    rewrite invalidOf_cons, read_own by assumption.
    destruct (env !! JSString.cstr n) as [v|]; [|exact IH].
    destruct (JSString.isEmpty v); [exact IH|].
    replace (EnvKeeper.checkValue n v (EnvKeeper.normalize (Tag "string")))
      with (@Return (list InvalidVariable) []) by reflexivity.
    cbn. now rewrite IH.
  - unfold missingOf, bareStrings. rewrite List.map_map. cbn [fst].
    now rewrite List.map_id.
Qed.

Lemma invalidOf_length env (entries : list (string * Validation))
    (invalid : list InvalidVariable) :
  invalidOf env entries = Return invalid ->
  (List.length invalid + 4 * List.length (missingOf env entries)
   <= 4 * List.length entries)%nat.
Proof.
  revert invalid.
  induction entries as [|[n rule] rest IH]; intros invalid.
  - intros [= <-]. cbn. lia.
  - unfold missingOf in *. rewrite invalidOf_cons.
    cbn [List.map fst List.filter List.length].
    replace (EnvKeeper.lookupMissing env n)
      with (isMissing (EnvKeeper.read env n)) by reflexivity.
    destruct (EnvKeeper.read env n) as [|vn|o]; cbn [isMissing].
    + intros Hi. specialize (IH _ Hi). cbn [List.length]. lia.
    + destruct (JSString.isEmpty vn).
      * intros Hi. specialize (IH _ Hi). cbn [List.length]. lia.
      * destruct (EnvKeeper.checkValue n vn _) as [pushed|e] eqn:Hc; cbn;
          [|discriminate].
        destruct (invalidOf env rest) as [more|e]; cbn; [|discriminate].
        intros [= <-]. specialize (IH _ eq_refl).
        apply checkValue_length in Hc. rewrite length_app. lia.
    + destruct (EnvKeeper.checkObject n o _) as [pushed|e] eqn:Hc; cbn;
        [|discriminate].
      destruct (invalidOf env rest) as [more|e]; cbn; [|discriminate].
      intros [= <-]. specialize (IH _ eq_refl).
      apply checkObject_entries in Hc as [_ Hc]. rewrite length_app. lia.
Qed.

End Passing.

(** X4: a schema whose variables are all set and meet their rules
    passes; and when the prototype of [process.env] answers for no name
    of the schema that is not bound, [validate] returns [true] exactly
    when every variable of the schema is set and meets its rule: its
    type check passes, its length is within the bounds (a [maxLength] of
    0 asks nothing), it matches the pattern and it is one of the [enum]
    values. *)
Theorem validate_passes_iff_rules_hold `{Host}
    (env : gmap string string) (entries : list (string * Validation)) :
  (schemaHolds env entries ->
   EnvKeeper.validate env (ObjectOf entries) = Return true)
  /\ (Forall (ownName env) (List.map fst entries) ->
      EnvKeeper.validate env (ObjectOf entries) = Return true
      <-> schemaHolds env entries).
Proof.
  unfold schemaHolds. split.
  - intros Hall. apply invalidOf_nil_set in Hall as [Hi Hm].
    now rewrite validate_outcome, Hi, Hm.
  - intros Hown.
    rewrite <- invalidOf_nil by assumption. rewrite validate_outcome.
    destruct (invalidOf env entries) as [invalid|e].
    + destruct (missingOf env entries), invalid; split;
        try discriminate; try tauto; intros [? ?]; congruence.
    + split; [discriminate|]. intros [? _]. discriminate.
Qed.

(** The port 8080 meets a rule on its type, its length and its
    digits. *)
Lemma validate_passes_on_sample :
  EnvKeeper.validate (H := sampleHost) SampleMore.envPort
    (ObjectOf [("PORT", Rules SampleMore.portRule)]) = Return true.
Proof.
  destruct (validate_passes_iff_rules_hold (H := sampleHost) SampleMore.envPort
              [("PORT", Rules SampleMore.portRule)]) as (Hpass & _).
  apply Hpass. intros varName rule [[= <- <-]|[]].
  exists "8080". split; [reflexivity|]. split; [discriminate|].
  unfold ruleHolds. cbn [EnvKeeper.normalize SampleMore.portRule type minLength
                           maxLength pattern enum].
  split; [intros t [= <-]; vm_compute; reflexivity|].
  split; [intros k [= <-]; vm_compute; discriminate|].
  split; [intros k [= <-] _; vm_compute; discriminate|].
  split; [intros p [= <-]; vm_compute; reflexivity|].
  intros l [=].
Defined.

(** X5: a schema that [validate] accepts names only variables that
    [require] accepts; and on a schema of bare [string] tags, for names
    that are bound or that the prototype does not answer, [validate]
    does what [require] does on the names: it returns [true] on the same
    environments and otherwise reports the same missing names and no
    invalid entry. *)
Theorem validate_subsumes_require `{Host}
    (env : gmap string string) :
  (forall entries,
     EnvKeeper.validate env (ObjectOf entries) = Return true ->
     EnvKeeper.require env (ArrayOf (List.map fst entries)) = Return true)
  /\ (forall vars,
        Forall (ownName env) vars ->
        (EnvKeeper.validate env (ObjectOf (bareStrings vars)) = Return true
         <-> EnvKeeper.require env (ArrayOf vars) = Return true)
        /\ (forall message missing invalid,
              EnvKeeper.validate env (ObjectOf (bareStrings vars))
              = Throw (EnvKeeperError message missing invalid) ->
              invalid = []
              /\ EnvKeeper.require env (ArrayOf vars)
                 = Throw (EnvKeeperError
                            ("Missing required environment variables: "
                             ++ JSString.join ", " missing)
                            missing [])))
  /\ (exists message invalid,
        EnvKeeper.validate ∅ (ObjectOf (bareStrings ["toString"]))
        = Throw (EnvKeeperError message [] invalid)
        /\ invalid <> []
        /\ EnvKeeper.require ∅ (ArrayOf ["toString"]) = Return true).
Proof.
  split.
  { intros entries. rewrite validate_outcome, require_outcome. cbn zeta.
    fold (missingOf env entries).
    destruct (invalidOf env entries) as [invalid|e]; [|discriminate].
    destruct (missingOf env entries), invalid; try discriminate. reflexivity. }
  split.
  { intros vars Hown.
    destruct (invalidOf_bareStrings env vars Hown) as [Hi Hm]. split.
    - rewrite validate_outcome, require_outcome. cbn zeta. rewrite Hi, Hm.
      destruct (List.filter _ vars); split; try discriminate; reflexivity.
    - intros message missing invalid.
      rewrite validate_outcome, require_outcome. cbn zeta. rewrite Hi, Hm.
      destruct (List.filter _ vars) as [|n m]; [discriminate|].
      intros [= <- <- <-]. split; reflexivity. }
  pose proof inherited_toString as Hi.
  destruct (inherited "toString") as [o|] eqn:Ho; [|congruence].
  eexists _, [EnvKeeper.typeEntry "toString" (Inherited o) "string"].
  split; [|split; [discriminate|]].
  - rewrite validate_outcome. unfold missingOf.
    cbn [bareStrings List.map fst List.filter].
    rewrite toString_not_missing, invalidOf_cons.
    rewrite (read_inherited ∅ "toString" o) by (reflexivity || assumption).
    reflexivity.
  - rewrite require_outcome. cbn [List.filter].
    now rewrite toString_not_missing.
Qed.

(** [validate({A: 'string', B: 'string'})] and [require(['A', 'B'])]
    with [A] unbound. *)
Lemma validate_subsumes_on_sample :
  EnvKeeper.require (H := sampleHost) Sample.envAB (ArrayOf ["A"; "B"])
  = Throw (EnvKeeperError "Missing required environment variables: A"
             ["A"] []).
Proof.
  destruct (validate_subsumes_require (H := sampleHost) Sample.envAB)
    as (_ & Hbare & _).
  destruct (Hbare ["A"; "B"]) as (_ & Hthrow).
  - repeat constructor; right; reflexivity.
  - destruct (Hthrow "Missing environment variables: A" ["A"] [])
      as (_ & Hreq); [vm_compute; reflexivity|exact Hreq].
Defined.

(** ** What the operations throw *)

Section Thrown.
Context `{Host}.

Implicit Types (env : gmap string string).

(** What interrupts the loop is no [EnvKeeperError]. *)
Lemma invalidOf_throws_other env (entries : list (string * Validation))
    (message : string) (missing : list string)
    (invalid : list InvalidVariable) :
  invalidOf env entries <> Throw (EnvKeeperError message missing invalid).
Proof.
  intros Hi. apply invalidOf_throws in Hi as (n & rule & _ & Hcase).
  destruct Hcase as [(v & p & _ & _ & _ & _ & Hp)
                    |(o & _ & _ & [(m & Hp)|(p & _ & _ & Hp)])];
    discriminate.
Qed.

(** What [validate] throws on a schema. *)
Lemma validate_throws env (entries : list (string * Validation))
    (e : Exception) :
  EnvKeeper.validate env (ObjectOf entries) = Throw e ->
  (exists message missing invalid,
     e = EnvKeeperError message missing invalid)
  \/ (exists varName rule v p,
        In (varName, rule) entries
        /\ env !! JSString.cstr varName = Some v /\ v <> ""
        /\ pattern (EnvKeeper.normalize rule) = Some p
        /\ RegExp_test p v = None
        /\ e = SyntaxError p)
  \/ (exists varName rule o,
        In (varName, rule) entries
        /\ env !! JSString.cstr varName = None
        /\ inherited varName = Some o
        /\ ((exists message, e = TypeError message)
            \/ exists p,
                 pattern (EnvKeeper.normalize rule) = Some p
                 /\ RegExp_test p (foreignText o) = None
                 /\ e = SyntaxError p)).
Proof.
  rewrite validate_outcome.
  destruct (invalidOf env entries) as [invalid|e'] eqn:Hi.
  - destruct (missingOf env entries), invalid; try discriminate;
      intros [= <-]; left; eauto.
  - intros [= <-]. right.
    apply invalidOf_throws in Hi as (n & rule & Hin & Hcase).
    destruct Hcase as [(v & p & Hmore)|(o & Hmore)].
    + left. now exists n, rule, v, p.
    + right. now exists n, rule, o.
Qed.

End Thrown.

(** X6: what the operations throw.  [require] throws a plain [Error]
    only on an argument that is no array, and otherwise only an
    [EnvKeeperError] with missing names and no invalid entry.
    [validate] throws a plain [Error] only on an argument that is no
    object; on a schema it throws an [EnvKeeperError], or the
    [SyntaxError] of a pattern of the schema that does not compile, met
    on a variable that is set, or, for a name of the schema that is not
    bound and that the prototype of [process.env] answers, a [TypeError]
    or such a [SyntaxError].  A schema without patterns never ends in a
    [SyntaxError], and a schema whose names are bound or unknown to the
    prototype never ends in a [TypeError]; the type [boolean] asked of
    [toString] on the empty environment does.  [get] never throws a
    plain [Error]. *)
Theorem thrown_exceptions_classified `{Host} (env : gmap string string) :
  (forall vars e,
     EnvKeeper.require env vars = Throw e ->
     (vars = NotAnArray /\ e = Error "Variables must be provided as an array")
     \/ (exists names message missing,
           vars = ArrayOf names /\ missing <> []
           /\ e = EnvKeeperError message missing []))
  /\ (forall schema e,
        EnvKeeper.validate env schema = Throw e ->
        (schema = NotAnObject /\ e = Error "Schema must be an object")
        \/ (exists entries,
              schema = ObjectOf entries
              /\ ((exists message missing invalid,
                     e = EnvKeeperError message missing invalid)
                  \/ (exists varName rule v p,
                        In (varName, rule) entries
                        /\ env !! JSString.cstr varName = Some v /\ v <> ""
                        /\ pattern (EnvKeeper.normalize rule) = Some p
                        /\ RegExp_test p v = None
                        /\ e = SyntaxError p)
                  \/ (exists varName rule o,
                        In (varName, rule) entries
                        /\ env !! JSString.cstr varName = None
                        /\ inherited varName = Some o
                        /\ ((exists message, e = TypeError message)
                            \/ exists p,
                                 pattern (EnvKeeper.normalize rule) = Some p
                                 /\ RegExp_test p (foreignText o) = None
                                 /\ e = SyntaxError p)))))
  /\ (forall entries p,
        (forall varName rule,
           In (varName, rule) entries ->
           pattern (EnvKeeper.normalize rule) = None) ->
        EnvKeeper.validate env (ObjectOf entries) <> Throw (SyntaxError p))
  /\ (forall entries message,
        Forall (ownName env) (List.map fst entries) ->
        EnvKeeper.validate env (ObjectOf entries) <> Throw (TypeError message))
  /\ EnvKeeper.validate ∅ (ObjectOf [("toString", Tag "boolean")])
     = Throw (TypeError "value.toLowerCase is not a function")
  /\ (forall varName defaultValue validation message,
        fst (EnvKeeper.get env varName defaultValue validation)
        <> Throw (Error message)).
Proof.
  split.
  { intros [|names] e.
    - intros [= <-]. now left.
    - rewrite require_outcome. cbn zeta.
      destruct (List.filter _ names) as [|n m] eqn:Hf; [discriminate|].
      intros [= <-]. right. eexists names, _, (n :: m).
      repeat split. discriminate. }
  split.
  { intros [|entries] e.
    - intros [= <-]. now left.
    - intros Ht. right. exists entries. split; [reflexivity|].
      now apply validate_throws. }
  split.
  { intros entries p Hnone Ht.
    destruct (validate_throws env entries _ Ht)
      as [(? & ? & ? & ?)
         |[(n & rule & v & q & Hin & _ & _ & Hp & _)
          |(n & rule & o & Hin & _ & _ & [(m & ?)|(q & Hp & _)])]];
      try discriminate; rewrite (Hnone n rule Hin) in Hp; discriminate. }
  split.
  { intros entries message Hown Ht.
    destruct (validate_throws env entries _ Ht)
      as [(? & ? & ? & ?)
         |[(n & rule & v & q & _ & _ & _ & _ & _ & ?)
          |(n & rule & o & Hin & Hn & Ho & _)]];
      try discriminate.
    assert (Hn' : ownName env n).
    { apply (proj1 (List.Forall_forall _ _) Hown), in_map_iff.
      now exists (n, rule). }
    destruct Hn' as [Hb|Hi]; congruence. }
  split.
  { pose proof inherited_toString as Hi.
    destruct (inherited "toString") as [o|] eqn:Ho; [|congruence].
    rewrite validate_outcome, invalidOf_cons.
    rewrite (read_inherited ∅ "toString" o) by (reflexivity || assumption).
    reflexivity. }
  intros varName defaultValue validation message Hget.
  apply get_throws in Hget as [(Hreq & _)|(env' & rule & Hval)];
    [discriminate|].
  destruct (validate_throws env' _ _ Hval)
    as [(? & ? & ? & ?)
       |[(? & ? & ? & ? & _ & _ & _ & _ & _ & ?)
        |(? & ? & ? & _ & _ & _ & [(? & ?)|(? & _ & _ & ?)])]];
    discriminate.
Qed.

(** X7: in the error of [validate] no variable is both missing and
    invalid: every invalid entry bears a name of the schema that is set,
    or one that is not bound and that the prototype of [process.env]
    answers; every missing name is one that is not set; a schema entry
    accounts for one missing name or for at most four invalid
    entries. *)
Theorem missing_and_invalid_are_apart `{Host}
    (env : gmap string string) (entries : list (string * Validation))
    (message : string) (missing : list string)
    (invalid : list InvalidVariable) :
  EnvKeeper.validate env (ObjectOf entries)
  = Throw (EnvKeeperError message missing invalid) ->
  (forall item,
     In item invalid ->
     In (name item) (List.map fst entries)
     /\ (isSet env (name item)
         \/ (env !! JSString.cstr (name item) = None
             /\ inherited (name item) <> None))
     /\ ~ In (name item) missing)
  /\ (forall varName,
        In varName missing ->
        In varName (List.map fst entries) /\ ~ isSet env varName)
  /\ (List.length invalid + 4 * List.length missing
      <= 4 * List.length entries)%nat.
Proof.
  rewrite validate_outcome.
  destruct (invalidOf env entries) as [found|e] eqn:Hi.
  2:{ intros [= ->]. now apply invalidOf_throws_other in Hi. }
  intros Ht.
  assert (Hm : missing = missingOf env entries /\ invalid = found).
  { destruct (missingOf env entries), found; try discriminate;
      injection Ht as <- <- <-; now split. }
  destruct Hm as [-> ->]. clear Ht.
  assert (Hmiss : forall varName,
            In varName (missingOf env entries) ->
            In varName (List.map fst entries)
            /\ EnvKeeper.lookupMissing env varName = true).
  { intros varName Hin. unfold missingOf in Hin. now apply filter_In in Hin. }
  split.
  { intros item Hitem.
    destruct (invalidOf_sound env entries found Hi item Hitem)
      as (n & rule & Hin & [(v & pushed & Hv & Hne & Hc & Hp)
                           |(o & pushed & Hn & Ho & Hc & Hp)]).
    - apply checkValue_names in Hc.
      rewrite (proj1 (List.Forall_forall _ _) Hc item Hp).
      assert (Hset : isSet env n) by now exists v.
      split; [apply in_map_iff; now exists (n, rule)|].
      split; [now left|].
      intros Hmn. apply Hmiss in Hmn as [_ Hmn].
      now rewrite lookupMissing_set in Hmn.
    - apply checkObject_entries in Hc as [Hc _].
      destruct (proj1 (List.Forall_forall _ _) Hc item Hp) as [-> _].
      split; [apply in_map_iff; now exists (n, rule)|].
      split; [right; split; congruence|].
      intros Hmn. apply Hmiss in Hmn as [_ Hmn].
      rewrite lookupMissing_inherited in Hmn; congruence. }
  split.
  { intros varName Hin. apply Hmiss in Hin as [Hin Hm].
    split; [assumption|]. now apply not_isSet, lookupMissing_absent. }
  now apply invalidOf_length.
Qed.

Lemma missing_and_invalid_on_sample :
  (forall item,
     In item [EnvKeeper.typeEntry "B" "abc" "number"] ->
     In (name item) ["A"; "B"]
     /\ (isSet Sample.envAB (name item)
         \/ (Sample.envAB !! JSString.cstr (name item) = None
             /\ inherited (Host := sampleHost) (name item) <> None))
     /\ ~ In (name item) ["A"])
  /\ (forall varName,
        In varName ["A"] ->
        In varName ["A"; "B"] /\ ~ isSet Sample.envAB varName)
  /\ (1 + 4 * 1 <= 4 * 2)%nat.
Proof.
  apply (missing_and_invalid_are_apart (H := sampleHost) Sample.envAB
           [("A", Tag "string"); ("B", Tag "number")]
           (JSString.trim
              (EnvKeeper.validateMessage ["A"]
                 [EnvKeeper.typeEntry "B" "abc" "number"]))
           ["A"] [EnvKeeper.typeEntry "B" "abc" "number"]).
  vm_compute. reflexivity.
Defined.

(** ** The message of [validate] *)

Lemma trimEnd_keeps_prefix (p s : string) (c : ascii) :
  JSString.isWhiteSpace c = false ->
  JSString.trimEnd (p ++ String c s) = p ++ String c (JSString.trimEnd s).
Proof.
  intros Hc. induction p as [|a p IH].
  - change ("" ++ String c s) with (String c s).
    change ("" ++ String c (JSString.trimEnd s))
      with (String c (JSString.trimEnd s)).
    cbn [JSString.trimEnd].
    destruct (JSString.trimEnd s); [rewrite Hc|]; reflexivity.
  - change (String a p ++ String c s) with (String a (p ++ String c s)).
    cbn [JSString.trimEnd]. rewrite IH.
    change (String a p ++ String c (JSString.trimEnd s))
      with (String a (p ++ String c (JSString.trimEnd s))).
    now destruct p.
Qed.

(** X8: the message of the error of [validate] opens with
    "Missing environment variables:" when a name is missing, and with
    "Invalid environment variables:" when none is; it is never empty. *)
Theorem validate_message_heading `{Host}
    (env : gmap string string) (entries : list (string * Validation))
    (message : string) (missing : list string)
    (invalid : list InvalidVariable) :
  EnvKeeper.validate env (ObjectOf entries)
  = Throw (EnvKeeperError message missing invalid) ->
  (missing <> [] ->
   exists rest, message = "Missing environment variables:" ++ rest)
  /\ (missing = [] ->
      exists rest, message = "Invalid environment variables:" ++ rest)
  /\ message <> "".
Proof.
  rewrite validate_outcome.
  destruct (invalidOf env entries) as [found|e] eqn:Hi.
  2:{ intros [= ->]. now apply invalidOf_throws_other in Hi. }
  intros Ht.
  assert (Hm : message = JSString.trim (EnvKeeper.validateMessage missing invalid)
               /\ (missing <> [] \/ invalid <> [])).
  { destruct (missingOf env entries), found; try discriminate;
      injection Ht as <- <- <-; split; try reflexivity;
      try (left; discriminate); right; discriminate. }
  destruct Hm as [-> Hne]. clear Ht Hi.
  assert (Hmiss : missing <> [] ->
            exists rest,
              JSString.trim (EnvKeeper.validateMessage missing invalid)
              = "Missing environment variables:" ++ rest).
  { intros Hm. unfold EnvKeeper.validateMessage. rewrite !positive_length.
    destruct missing as [|n m]; [congruence|].
    set (names := JSString.join ", " (n :: m)).
    destruct invalid as [|item more].
    - exists (JSString.trimEnd (String " " names)).
      apply (trimEnd_keeps_prefix "Missing environment variables" _ ":").
      reflexivity.
    - eexists.
      cbn [String.append JSString.isEmpty].
      apply (trimEnd_keeps_prefix "Missing environment variables" _ ":").
      reflexivity. }
  assert (Hinv : missing = [] ->
            exists rest,
              JSString.trim (EnvKeeper.validateMessage missing invalid)
              = "Invalid environment variables:" ++ rest).
  { intros ->. destruct Hne as [Hne|Hne]; [congruence|].
    unfold EnvKeeper.validateMessage. rewrite !positive_length.
    destruct invalid as [|item more]; [congruence|].
    eexists. cbn [String.append JSString.isEmpty].
    apply (trimEnd_keeps_prefix "Invalid environment variables" _ ":").
    reflexivity. }
  split; [exact Hmiss|]. split; [exact Hinv|].
  destruct missing as [|n m].
  - destruct Hinv as [rest ->]; [reflexivity|discriminate].
  - destruct Hmiss as [rest ->]; discriminate.
Qed.

Lemma validate_message_on_sample :
  exists rest,
    JSString.trim
      (EnvKeeper.validateMessage ["A"] [EnvKeeper.typeEntry "B" "abc" "number"])
    = "Missing environment variables:" ++ rest.
Proof.
  destruct (validate_message_heading (H := sampleHost) Sample.envAB
              [("A", Tag "string"); ("B", Tag "number")]
              (JSString.trim
                 (EnvKeeper.validateMessage ["A"]
                    [EnvKeeper.typeEntry "B" "abc" "number"]))
              ["A"] [EnvKeeper.typeEntry "B" "abc" "number"])
    as (Hmiss & _).
  - vm_compute. reflexivity.
  - apply Hmiss. discriminate.
Defined.

(** ** What the reports show of a value *)

(** X10: the entries of the [minLength], [maxLength] and [pattern]
    blocks show of the value its first ten characters and its length,
    nothing else: two values that agree on both get the same entries
    from the two length blocks, and the same entry from the pattern
    block when both fail the pattern. *)
Theorem truncated_reports_hide_the_rest `{Host}
    (varName v1 v2 : string) (rules : ValidationRule) :
  JSString.prefix 10 v1 = JSString.prefix 10 v2 ->
  String.length v1 = String.length v2 ->
  EnvKeeper.minLengthCheck varName v1 rules
  = EnvKeeper.minLengthCheck varName v2 rules
  /\ EnvKeeper.maxLengthCheck varName v1 rules
     = EnvKeeper.maxLengthCheck varName v2 rules
  /\ (forall p, EnvKeeper.patternEntry varName v1 p
                = EnvKeeper.patternEntry varName v2 p)
  /\ (forall found1 found2,
        EnvKeeper.patternCheck varName v1 rules = Return found1 ->
        EnvKeeper.patternCheck varName v2 rules = Return found2 ->
        found1 <> [] -> found2 <> [] -> found1 = found2)
  /\ (forall found item,
        EnvKeeper.patternCheck varName v1 rules = Return found ->
        In item found ->
        exists p, pattern rules = Some p
                  /\ item = EnvKeeper.patternEntry varName v2 p).
Proof.
  intros Hp Hl.
  assert (Hentry : forall p, EnvKeeper.patternEntry varName v1 p
                             = EnvKeeper.patternEntry varName v2 p).
  { intros p. unfold EnvKeeper.patternEntry, EnvKeeper.truncated.
    now rewrite Hp. }
  split; [|split; [|split; [exact Hentry|split]]].
  - unfold EnvKeeper.minLengthCheck, EnvKeeper.minLengthEntry,
      EnvKeeper.truncated, JSString.len. now rewrite Hp, Hl.
  - unfold EnvKeeper.maxLengthCheck, EnvKeeper.maxLengthEntry,
      EnvKeeper.truncated, JSString.len. now rewrite Hp, Hl.
  - intros found1 found2. unfold EnvKeeper.patternCheck.
    destruct (truthyString (pattern rules)) as [p|].
    + destruct (RegExp_test p v1) as [[|]|]; try discriminate;
        intros [= <-]; [congruence|].
      destruct (RegExp_test p v2) as [[|]|]; try discriminate;
        intros [= <-]; [congruence|].
      intros _ _. now rewrite Hentry.
    + intros [= <-]. congruence.
  - intros found item. unfold EnvKeeper.patternCheck.
    destruct (truthyString (pattern rules)) as [p|] eqn:Ht.
    + apply truthyString_some in Ht.
      destruct (RegExp_test p v1) as [[|]|]; try discriminate;
        intros [= <-]; [intros []|].
      intros [<-|[]]. exists p. split; [exact Ht|apply Hentry].
    + intros [= <-] [].
Qed.

(** Two secrets of 16 characters with the same first ten: the reports of
    a minimum length of 32 and of a pattern of digits are the same for
    both. *)
Lemma truncated_reports_on_sample :
  EnvKeeper.minLengthCheck (H := sampleHost) "KEY" SampleMore.secret1
    SampleMore.longDigits
  = EnvKeeper.minLengthCheck (H := sampleHost) "KEY" SampleMore.secret2
      SampleMore.longDigits
  /\ [EnvKeeper.patternEntry "KEY" SampleMore.secret1 "^[0-9]+$"]
     = [EnvKeeper.patternEntry "KEY" SampleMore.secret2 "^[0-9]+$"].
Proof.
  destruct (truncated_reports_hide_the_rest (H := sampleHost) "KEY"
              SampleMore.secret1 SampleMore.secret2 SampleMore.longDigits
              eq_refl eq_refl) as (Hmin & _ & _ & Hpat & _).
  split; [exact Hmin|].
  apply Hpat; [reflexivity|reflexivity|discriminate|discriminate].
Defined.

(** ** [require] and [check] on lists of names *)

Lemma filter_same_elements_nil {A : Type} (f : A -> bool) (l l' : list A) :
  (forall x, In x l' -> In x l) ->
  List.filter f l = [] -> List.filter f l' = [].
Proof.
  rewrite !filter_nil_Forall, !List.Forall_forall.
  intros Hsub Hall x Hx. apply Hall. now apply Hsub.
Qed.

(** X11: whether [require] passes depends on the set of the names
    only, not on their order or repetition; on a concatenation it passes
    exactly when it passes on both parts, and it reports the missing names
    of the first part followed by those of the second. *)
Theorem require_depends_on_the_set_of_names `{Host}
    (env : gmap string string) (vars vars' : list string) :
  ((forall varName, In varName vars <-> In varName vars') ->
   (EnvKeeper.require env (ArrayOf vars) = Return true
    <-> EnvKeeper.require env (ArrayOf vars') = Return true))
  /\ (EnvKeeper.require env (ArrayOf (vars ++ vars')) = Return true
      <-> EnvKeeper.require env (ArrayOf vars) = Return true
          /\ EnvKeeper.require env (ArrayOf vars') = Return true)
  /\ (forall message missing invalid,
        EnvKeeper.require env (ArrayOf (vars ++ vars'))
        = Throw (EnvKeeperError message missing invalid) ->
        missing = (List.filter (EnvKeeper.lookupMissing env) vars
                   ++ List.filter (EnvKeeper.lookupMissing env) vars')%list).
Proof.
  assert (Hpass : forall l,
            EnvKeeper.require env (ArrayOf l) = Return true
            <-> List.filter (EnvKeeper.lookupMissing env) l = []).
  { intros l. rewrite require_outcome. cbn zeta.
    destruct (List.filter _ l); split; congruence. }
  split.
  { intros Hsame. rewrite !Hpass. split.
    - apply filter_same_elements_nil. intros x. apply Hsame.
    - apply filter_same_elements_nil. intros x. apply Hsame. }
  split.
  { rewrite !Hpass, List.filter_app. split.
    - intros Happ. now apply app_eq_nil in Happ.
    - intros [-> ->]. reflexivity. }
  intros message missing invalid. rewrite require_outcome. cbn zeta.
  rewrite List.filter_app.
  destruct (_ ++ _)%list; [discriminate|]. now intros [= <- <- <-].
Qed.

Lemma require_set_on_sample :
  EnvKeeper.require (H := sampleHost) SampleMore.envPortHost
    (ArrayOf ["PORT"; "HOST"; "PORT"])
  = Return true
  <-> EnvKeeper.require (H := sampleHost) SampleMore.envPortHost
        (ArrayOf ["HOST"; "PORT"])
      = Return true.
Proof.
  destruct (require_depends_on_the_set_of_names (H := sampleHost)
              SampleMore.envPortHost
              ["PORT"; "HOST"; "PORT"] ["HOST"; "PORT"]) as (Hset & _).
  apply Hset. intros varName. cbn. tauto.
Defined.

Lemma filter_idempotent {A : Type} (f : A -> bool) (l : list A) :
  List.filter f (List.filter f l) = List.filter f l.
Proof.
  induction l as [|x l IH]; [reflexivity|]. cbn.
  destruct (f x) eqn:E; [|exact IH]. cbn. now rewrite E, IH.
Qed.

Lemma filter_complement_nil {A : Type} (f : A -> bool) (l : list A) :
  List.filter f (List.filter (fun x => negb (f x)) l) = [].
Proof.
  induction l as [|x l IH]; [reflexivity|]. cbn.
  destruct (f x) eqn:E; cbn; [exact IH|]. now rewrite E.
Qed.

Lemma complement_filter_nil {A : Type} (f : A -> bool) (l : list A) :
  List.filter (fun x => negb (f x)) (List.filter f l) = [].
Proof.
  induction l as [|x l IH]; [reflexivity|]. cbn.
  destruct (f x) eqn:E; cbn; [|exact IH]. now rewrite E.
Qed.

(** X12: checking again what [check] returned changes nothing: the
    names in [set] check as valid, all of them set; the names in
    [missing] check as all missing. *)
Theorem check_of_a_result `{Host}
    (env : gmap string string) (vars : list string) :
  let result := EnvKeeper.check env vars in
  EnvKeeper.check env (set result) = mkCheck true [] (set result)
  /\ EnvKeeper.check env (missing result)
     = mkCheck (valid result) (missing result) []
  /\ EnvKeeper.require env (ArrayOf (set result)) = Return true.
Proof.
  intros result. subst result.
  assert (Hset : set (EnvKeeper.check env vars)
                 = List.filter (fun n => negb (EnvKeeper.lookupMissing env n)) vars).
  { unfold EnvKeeper.check. cbn [set]. apply set_filter. }
  assert (Hmiss : missing (EnvKeeper.check env vars)
                  = List.filter (EnvKeeper.lookupMissing env) vars)
    by reflexivity.
  assert (Hvalid : valid (EnvKeeper.check env vars)
                   = (Z.of_nat (List.length
                        (List.filter (EnvKeeper.lookupMissing env) vars)) =? 0))
    by reflexivity.
  rewrite Hset, Hmiss, Hvalid. clear Hset Hmiss Hvalid.
  split; [|split].
  - unfold EnvKeeper.check. rewrite set_filter.
    rewrite filter_complement_nil. cbn [List.length Z.of_nat Z.eqb].
    f_equal. apply (filter_idempotent (fun n => negb (EnvKeeper.lookupMissing env n))).
  - unfold EnvKeeper.check. rewrite set_filter.
    rewrite filter_idempotent, complement_filter_nil. reflexivity.
  - rewrite require_outcome. cbn zeta. now rewrite filter_complement_nil.
Qed.

(** ** The variables an operation reads *)

Section Frame.
Context `{Host}.

Implicit Types (env : gmap string string).

Lemma agree_read env1 env2 (varName : string) :
  env1 !! JSString.cstr varName = env2 !! JSString.cstr varName ->
  EnvKeeper.read env1 varName = EnvKeeper.read env2 varName.
Proof. intros Hagree. unfold EnvKeeper.read. now rewrite Hagree. Qed.

Lemma agree_validateLoop env1 env2 (entries : list (string * Validation))
    (missing0 : list string) (invalid0 : list InvalidVariable) :
  (forall varName, In varName (List.map fst entries) ->
                   env1 !! JSString.cstr varName
                   = env2 !! JSString.cstr varName) ->
  EnvKeeper.validateLoop env1 entries missing0 invalid0
  = EnvKeeper.validateLoop env2 entries missing0 invalid0.
Proof.
  revert missing0 invalid0.
  induction entries as [|[n rule] rest IH]; intros missing0 invalid0 Hagree;
    [reflexivity|].
  cbn [EnvKeeper.validateLoop].
  rewrite (agree_read env1 env2 n) by (apply Hagree; now left).
  assert (Hrest : forall varName, In varName (List.map fst rest) ->
                                  env1 !! JSString.cstr varName
                                  = env2 !! JSString.cstr varName).
  { intros varName Hin. apply Hagree. now right. }
  destruct (EnvKeeper.read env2 n) as [|v|o]; [now apply IH| |].
  - destruct (JSString.isEmpty v); [now apply IH|].
    destruct (EnvKeeper.checkValue _ _ _); cbn; [now apply IH|reflexivity].
  - destruct (EnvKeeper.checkObject _ _ _); cbn; [now apply IH|reflexivity].
Qed.

Lemma agree_filter env1 env2 (vars : list string) :
  (forall varName, In varName vars ->
                   env1 !! JSString.cstr varName
                   = env2 !! JSString.cstr varName) ->
  List.filter (EnvKeeper.lookupMissing env1) vars
  = List.filter (EnvKeeper.lookupMissing env2) vars.
Proof.
  intros Hagree. apply filter_ext_in. intros x Hx.
  unfold EnvKeeper.lookupMissing. now rewrite (agree_read env1 env2 x (Hagree x Hx)).
Qed.

End Frame.

(** X13: an operation reads only the variables it is asked about:
    [require] and [check] give the same result on two environments that
    agree on the variables the names listed designate, [validate] on two
    that agree on those of the schema, [get] on two that agree on its
    own.  So binding, changing or removing any other variable changes no
    result. *)
Theorem operations_read_only_their_names `{Host}
    (env1 env2 : gmap string string) :
  (forall vars,
     (forall varName, In varName vars ->
                      env1 !! JSString.cstr varName
                      = env2 !! JSString.cstr varName) ->
     EnvKeeper.require env1 (ArrayOf vars) = EnvKeeper.require env2 (ArrayOf vars)
     /\ EnvKeeper.check env1 vars = EnvKeeper.check env2 vars)
  /\ (forall entries,
        (forall varName, In varName (List.map fst entries) ->
                         env1 !! JSString.cstr varName
                         = env2 !! JSString.cstr varName) ->
        EnvKeeper.validate env1 (ObjectOf entries)
        = EnvKeeper.validate env2 (ObjectOf entries))
  /\ (forall varName defaultValue validation,
        env1 !! JSString.cstr varName = env2 !! JSString.cstr varName ->
        fst (EnvKeeper.get env1 varName defaultValue validation)
        = fst (EnvKeeper.get env2 varName defaultValue validation)).
Proof.
  assert (Hval : forall e1 e2 entries,
            (forall varName, In varName (List.map fst entries) ->
                             e1 !! JSString.cstr varName
                             = e2 !! JSString.cstr varName) ->
            EnvKeeper.validate e1 (ObjectOf entries)
            = EnvKeeper.validate e2 (ObjectOf entries)).
  { intros e1 e2 entries Hagree. unfold EnvKeeper.validate.
    now rewrite (agree_validateLoop e1 e2). }
  split.
  { intros vars Hagree. unfold EnvKeeper.require, EnvKeeper.check.
    now rewrite (agree_filter env1 env2). }
  split; [apply Hval|].
  intros varName defaultValue validation Hagree. unfold EnvKeeper.get.
  assert (Hres : EnvKeeper.resolve env1 varName defaultValue
                 = EnvKeeper.resolve env2 varName defaultValue).
  { unfold EnvKeeper.resolve. cbn zeta.
    now rewrite (agree_read env1 env2 varName Hagree). }
  rewrite Hres.
  destruct (EnvKeeper.resolve env2 varName defaultValue) as [value|e];
    [|reflexivity].
  destruct (truthyValidation validation) as [rule|]; [|reflexivity].
  rewrite (Hval env1 env2 [(varName, rule)])
    by (intros other [<-|[]]; exact Hagree).
  destruct (EnvKeeper.validate env2 _); [reflexivity|]. cbn zeta.
  rewrite (Hval (EnvKeeper.write env1 varName value)
                (EnvKeeper.write env2 varName value)).
  - now destruct (EnvKeeper.validate (EnvKeeper.write env2 varName value) _).
  - intros other [<-|[]]. cbn [fst]. unfold EnvKeeper.write.
    destruct (EnvKeeper.storable varName); [|exact Hagree].
    now rewrite !lookup_insert_eq.
Qed.

Lemma operations_read_on_sample :
  EnvKeeper.validate (H := sampleHost) SampleMore.envPort
    (ObjectOf [("PORT", Rules SampleMore.portRule)])
  = EnvKeeper.validate (H := sampleHost) SampleMore.envPortHost
      (ObjectOf [("PORT", Rules SampleMore.portRule)]).
Proof.
  destruct (operations_read_only_their_names (H := sampleHost)
              SampleMore.envPort SampleMore.envPortHost) as (_ & Hval & _).
  apply Hval. intros varName [<-|[]]. vm_compute. reflexivity.
Defined.

(** ** Values of white space *)

Section Blank.
Import JSString.

Lemma trimStart_allWhiteSpace (s : string) :
  allWhiteSpace s = true -> trimStart s = "".
Proof.
  induction s as [|c s IH]; [reflexivity|]. cbn.
  destruct (isWhiteSpace c); [exact IH|discriminate].
Qed.

Lemma lowerChar_whiteSpace (c : ascii) :
  isWhiteSpace c = true -> lowerChar c = c.
Proof.
  destruct c as [[] [] [] [] [] [] [] []]; vm_compute; congruence.
Qed.

End Blank.

(** X15: a variable bound to white space only is set, not missing; its
    value converts to the number 0, so it passes the [number] check and
    fails the [port] and [boolean] checks. *)
Theorem blank_value_is_the_number_zero `{Host} (v : string) :
  allWhiteSpace v = true -> v <> "" ->
  isMissing (Str v) = false
  /\ (forall (env : gmap string string) varName,
        env !! JSString.cstr varName = Some v ->
        EnvKeeper.lookupMissing env varName = false)
  /\ JSNumber.Number v = JSNumber.Finite false 0 0
  /\ EnvKeeper._validateType v "number" = true
  /\ EnvKeeper._validateType v "port" = false
  /\ EnvKeeper._validateType v "boolean" = false.
Proof.
  intros Hws Hne.
  assert (Hnum : JSNumber.Number v = JSNumber.Finite false 0 0).
  { unfold JSNumber.Number, JSString.trim.
    now rewrite trimStart_allWhiteSpace. }
  split; [now apply isEmpty_false|].
  split.
  { intros env varName Hv. unfold EnvKeeper.lookupMissing.
    rewrite (read_bound _ _ _ Hv). now apply isEmpty_false. }
  split; [exact Hnum|].
  unfold EnvKeeper._validateType.
  cbn [JSString.toLowerCase JSString.lowerChar String.eqb Ascii.eqb Bool.eqb].
  split; [now rewrite Hnum|].
  split; [now rewrite Hnum|].
  destruct v as [|c v]; [congruence|].
  cbn [allWhiteSpace] in Hws. apply andb_prop in Hws as [Hc _].
  cbn [JSString.toLowerCase]. rewrite (lowerChar_whiteSpace c Hc).
  unfold JSString.includes. cbn [existsb String.eqb].
  destruct c as [[] [] [] [] [] [] [] []]; try discriminate; reflexivity.
Qed.

Lemma blank_value_on_sample :
  EnvKeeper._validateType (H := sampleHost) "   " "number" = true.
Proof.
  destruct (blank_value_is_the_number_zero (H := sampleHost) "   ")
    as (_ & _ & _ & Hnum & _).
  - reflexivity.
  - discriminate.
  - exact Hnum.
Defined.

(** ** The [email] type *)

Section Email.
Context `{Host}.

Lemma emailClass_spec (c : ascii) :
  EnvKeeper.emailClass c = true
  <-> JSString.isWhiteSpace c = false /\ c <> "@"%char.
Proof.
  unfold EnvKeeper.emailClass. rewrite negb_true_iff, orb_false_iff.
  now rewrite Ascii.eqb_neq.
Qed.

Lemma allEmailClass_spec (s : string) :
  EnvKeeper.allEmailClass s = true
  <-> Forall (fun c => JSString.isWhiteSpace c = false /\ c <> "@"%char)
             (list_ascii_of_string s).
Proof.
  induction s as [|c s IH]; cbn [EnvKeeper.allEmailClass list_ascii_of_string].
  - split; [constructor|reflexivity].
  - rewrite andb_true_iff, IH, emailClass_spec. split.
    + intros [Hc Hs]. now constructor.
    + intros HF. now inversion HF.
Qed.

Lemma allEmailClass_app (s1 s2 : string) :
  EnvKeeper.allEmailClass (s1 ++ s2)
  = EnvKeeper.allEmailClass s1 && EnvKeeper.allEmailClass s2.
Proof.
  induction s1 as [|c s1 IH]; [reflexivity|].
  change (String c s1 ++ s2) with (String c (s1 ++ s2)).
  cbn [EnvKeeper.allEmailClass]. now rewrite IH, andb_assoc.
Qed.

Lemma emailPart_spec (s : string) :
  emailPart s
  <-> JSString.isEmpty s = false /\ EnvKeeper.allEmailClass s = true.
Proof.
  unfold emailPart. now rewrite allEmailClass_spec, isEmpty_false.
Qed.

(** [splitAt] cuts at the first [@]. *)
Lemma splitAt_some (s a b : string) :
  EnvKeeper.splitAt s = Some (a, b) -> s = a ++ "@" ++ b.
Proof.
  revert a b. induction s as [|c s IH]; intros a b; cbn [EnvKeeper.splitAt];
    [discriminate|].
  destruct (Ascii.eqb_spec c "@") as [->|Hne].
  - now intros [= <- <-].
  - destruct (EnvKeeper.splitAt s) as [[a' b']|]; cbn; [|discriminate].
    intros [= <- <-].
    change (String c s = String c (a' ++ "@" ++ b')). f_equal. now apply IH.
Qed.

Lemma splitAt_app (a b : string) :
  EnvKeeper.allEmailClass a = true ->
  EnvKeeper.splitAt (a ++ "@" ++ b) = Some (a, b).
Proof.
  induction a as [|c a IH]; intros Ha.
  - reflexivity.
  - cbn [EnvKeeper.allEmailClass] in Ha. apply andb_prop in Ha as [Hc Ha].
    apply emailClass_spec in Hc as [_ Hc].
    change (String c a ++ "@" ++ b) with (String c (a ++ "@" ++ b)).
    cbn [EnvKeeper.splitAt].
    destruct (Ascii.eqb_spec c "@") as [->|_]; [congruence|].
    now rewrite IH.
Qed.

Lemma dotThenMore_spec (s : string) :
  EnvKeeper.dotThenMore s = true
  <-> exists b c, s = b ++ "." ++ c /\ c <> "".
Proof.
  induction s as [|x s IH]; cbn [EnvKeeper.dotThenMore].
  - split; [discriminate|]. intros (b & c & Hs & _). now destruct b.
  - rewrite orb_true_iff, andb_true_iff, IH, negb_true_iff, isEmpty_false.
    split.
    + intros [[Hx Hs]|(b & c & -> & Hc)].
      * apply Ascii.eqb_eq in Hx. subst x. now exists "", s.
      * now exists (String x b), c.
    + intros (b & c & Hs & Hc). destruct b as [|y b].
      * injection Hs as -> ->. left. split; [apply Ascii.eqb_refl|exact Hc].
      * injection Hs as -> ->. right. now exists b, c.
Qed.

End Email.

(** X9: the [email] check passes exactly the strings
    [local@domain.tld] in which [local], [domain] and [tld] are not empty
    and hold neither white space nor [@]. *)
Theorem email_check_accepts_local_at_domain_dot_tld `{Host} (v : string) :
  EnvKeeper._validateType v "email" = true <-> emailShape v.
Proof.
  change (EnvKeeper._validateType v "email") with (EnvKeeper.emailRegex_test v).
  unfold EnvKeeper.emailRegex_test, emailShape. split.
  - destruct (EnvKeeper.splitAt v) as [[local [|x rest]]|] eqn:Hs;
      try discriminate.
    rewrite !andb_true_iff, negb_true_iff.
    intros [[[Hl Hla] Hd] Hdot].
    apply dotThenMore_spec in Hdot as (b & c & -> & Hc).
    apply splitAt_some in Hs.
    change (String x (b ++ "." ++ c)) with (String x b ++ "." ++ c) in Hd.
    rewrite !allEmailClass_app in Hd.
    apply andb_prop in Hd as [Hb Hd]. apply andb_prop in Hd as [_ Hcc].
    exists local, (String x b), c. split; [exact Hs|].
    rewrite !emailPart_spec. repeat split; try assumption.
    now apply isEmpty_false.
  - intros (a & b & c & -> & Ha & Hb & Hc).
    apply emailPart_spec in Ha as [Hae Ha], Hb as [Hbe Hb], Hc as [Hce Hc].
    rewrite (splitAt_app a _ Ha).
    destruct b as [|x b]; [discriminate|].
    change (String x b ++ "." ++ c) with (String x (b ++ "." ++ c)).
    rewrite Hae, Ha. cbn [negb andb].
    change (String x (b ++ "." ++ c)) with (String x b ++ "." ++ c).
    rewrite !allEmailClass_app, Hb, Hc. cbn [andb].
    apply andb_true_intro. split; [reflexivity|].
    apply dotThenMore_spec. exists b, c. split; [reflexivity|].
    now apply isEmpty_false.
Qed.

(** ** Decimal literals *)

Section Decimal.
Import JSString JSNumber.

Lemma isDigit_digitValue (c : ascii) :
  isDigit c = true -> digitValue 10 c = Some (Z.of_N (code c) - 48).
Proof.
  destruct c as [[] [] [] [] [] [] [] []]; try discriminate; reflexivity.
Qed.

Lemma isDigit_plain (c : ascii) :
  isDigit c = true ->
  isWhiteSpace c = false
  /\ lowerChar c = c
  /\ 0 <= Z.of_N (code c) - 48 <= 9.
Proof.
  destruct c as [[] [] [] [] [] [] [] []]; try discriminate;
    vm_compute; repeat split; congruence.
Qed.

Lemma readDigits_all (s : string) (acc count : Z) :
  allDigitChars s = true ->
  readDigits 10 acc count s
  = (decimalValue acc s, count + Z.of_nat (String.length s), EmptyString).
Proof.
  revert acc count. induction s as [|c s IH]; intros acc count Hs.
  - cbn. now rewrite Z.add_0_r.
  - cbn [allDigitChars] in Hs. apply andb_prop in Hs as [Hc Hs].
    cbn [readDigits decimalValue String.length].
    rewrite (isDigit_digitValue c Hc), IH by assumption.
    change (Z.of_N 10) with 10. f_equal. f_equal. lia.
Qed.

Lemma decimalValue_bound (s : string) (acc : Z) :
  allDigitChars s = true -> 0 <= acc ->
  acc * 10 ^ Z.of_nat (String.length s) <= decimalValue acc s
  /\ decimalValue acc s < (acc + 1) * 10 ^ Z.of_nat (String.length s).
Proof.
  revert acc. induction s as [|c s IH]; intros acc Hs Hacc.
  - cbn. lia.
  - cbn [allDigitChars] in Hs. apply andb_prop in Hs as [Hc Hs].
    apply isDigit_plain in Hc as (_ & _ & Hd).
    cbn [decimalValue String.length]. rewrite Nat2Z.inj_succ, Z.pow_succ_r by lia.
    specialize (IH (acc * 10 + (Z.of_N (code c) - 48)) Hs ltac:(lia)).
    assert (0 < 10 ^ Z.of_nat (String.length s)) by (apply Z.pow_pos_nonneg; lia).
    nia.
Qed.

Lemma trimEnd_plain (s : string) :
  allDigitChars s = true -> trimEnd s = s.
Proof.
  induction s as [|c s IH]; intros Hs; [reflexivity|].
  cbn [allDigitChars] in Hs. apply andb_prop in Hs as [Hc Hs].
  apply isDigit_plain in Hc as (Hc & _). cbn [trimEnd].
  rewrite (IH Hs), Hc. now destruct s.
Qed.

Lemma trim_plain (s : string) :
  allDigitChars s = true -> trim s = s.
Proof.
  intros Hs. unfold trim.
  destruct s as [|c s]; [reflexivity|].
  assert (Hc : isWhiteSpace c = false).
  { cbn [allDigitChars] in Hs. apply andb_prop in Hs as [Hc _].
    now apply isDigit_plain in Hc. }
  cbn [trimStart]. rewrite Hc. now apply trimEnd_plain.
Qed.

Lemma parseNonDecimal_digits (s : string) :
  allDigitChars s = true -> parseNonDecimal s = None.
Proof.
  destruct s as [|c [|p r]].
  - reflexivity.
  - intros _. destruct c as [[] [] [] [] [] [] [] []]; reflexivity.
  - cbn [allDigitChars]. intros Hs.
    apply andb_prop in Hs as [_ Hs]. apply andb_prop in Hs as [Hp _].
    destruct c as [[] [] [] [] [] [] [] []]; try reflexivity.
    destruct p as [[] [] [] [] [] [] [] []]; try discriminate; reflexivity.
Qed.

(** The literal of a digit string is read as its value. *)
Lemma Number_digits (s : string) :
  allDigitChars s = true -> s <> "" ->
  Number s = ofDecimal false (decimalValue 0 s) 0.
Proof.
  intros Hs Hne. unfold Number. rewrite (trim_plain s Hs).
  apply isEmpty_false in Hne. rewrite Hne.
  rewrite (parseNonDecimal_digits s Hs).
  assert (Hparse : parseUnsignedDecimal s = Some (decimalValue 0 s, 0)).
  { unfold parseUnsignedDecimal. rewrite (readDigits_all s 0 0 Hs).
    cbn [parseExponent].
    destruct (0 + Z.of_nat (String.length s) =? 0) eqn:Hl; [|reflexivity].
    apply Z.eqb_eq in Hl. destruct s; [discriminate|].
    cbn [String.length] in Hl. lia. }
  destruct s as [|c s]; [discriminate|].
  assert (Hc : isDigit c = true).
  { cbn [allDigitChars] in Hs. now apply andb_prop in Hs as [Hc _]. }
  revert Hparse. generalize (decimalValue 0 (String c s)). intros value Hparse.
  destruct c as [[] [] [] [] [] [] [] []]; try discriminate;
    cbn [String.eqb Ascii.eqb Bool.eqb]; now rewrite Hparse.
Qed.

Lemma denotes_unique (x : JSNumber.t) (k k' : Z) :
  denotes x k -> denotes x k' -> k = k'.
Proof.
  destruct x as [|neg|neg m e]; cbn [denotes]; try tauto.
  destruct (0 <=? e) eqn:He; [congruence|].
  apply Z.leb_gt in He.
  assert (0 < 2 ^ (- e)) by (apply Z.pow_pos_nonneg; lia).
  intros -> Hk. nia.
Qed.

Lemma ofDecimal_exact (value : Z) :
  0 <= value < 2 ^ 53 -> denotes (ofDecimal false value 0) value.
Proof.
  intros Hv. unfold ofDecimal.
  destruct (value =? 0) eqn:H0.
  - apply Z.eqb_eq in H0. subst value. reflexivity.
  - apply Z.eqb_neq in H0. cbn [Z.leb Z.compare].
    change (10 ^ 0) with 1. rewrite Z.mul_1_r.
    apply (binary64_exact false). lia.
Qed.

End Decimal.

(** X14: a value of one to fifteen decimal digits converts to the
    integer it writes, leading zeros included; so it passes the [number]
    check, and it passes the [port] check exactly when that integer is
    between 1 and 65535. *)
Theorem digit_strings_are_read_exactly `{Host} (v : string) :
  allDigitChars v = true -> v <> "" -> (String.length v <= 15)%nat ->
  JSNumber.denotes (JSNumber.Number v) (decimalValue 0 v)
  /\ EnvKeeper._validateType v "number" = true
  /\ (EnvKeeper._validateType v "port" = true
      <-> 1 <= decimalValue 0 v <= 65535).
Proof.
  intros Hd Hne Hlen.
  assert (Hden : JSNumber.denotes (JSNumber.Number v) (decimalValue 0 v)).
  { rewrite (Number_digits v Hd Hne). apply ofDecimal_exact.
    destruct (decimalValue_bound v 0 Hd ltac:(lia)) as [Hlo Hhi].
    split; [lia|].
    assert (10 ^ Z.of_nat (String.length v) <= 10 ^ 15)
      by (apply Z.pow_le_mono_r; lia).
    assert (10 ^ 15 < 2 ^ 53) by reflexivity.
    lia. }
  split; [exact Hden|].
  split.
  { change (EnvKeeper._validateType v "number")
      with (negb (JSNumber.isNaN (JSNumber.Number v))
            && JSNumber.isFinite (JSNumber.Number v)).
    apply finite_number.
    destruct (JSNumber.Number v) as [|neg|neg m e]; try contradiction.
    now exists neg, m, e. }
  change (EnvKeeper._validateType v "port")
    with (JSNumber.isInteger (JSNumber.Number v)
          && JSNumber.gtZ (JSNumber.Number v) 0
          && JSNumber.leZ (JSNumber.Number v) 65535).
  rewrite port_range. split.
  - intros (k & Hk & Hdk).
    now rewrite (denotes_unique _ _ _ Hden Hdk).
  - intros Hk. now exists (decimalValue 0 v).
Qed.

Lemma digit_strings_on_sample :
  EnvKeeper._validateType (H := sampleHost) "0008080" "port" = true.
Proof.
  destruct (digit_strings_are_read_exactly (H := sampleHost) "0008080")
    as (_ & _ & Hport).
  - reflexivity.
  - discriminate.
  - cbn. lia.
  - apply Hport. vm_compute. split; discriminate.
Defined.

(** ** [get] without default and [validate] *)

(** X16: with a rule other than the empty string and no default, for a
    name that is bound (to a value free of NUL) or that the prototype
    does not answer, [get] returns exactly when the variable is bound
    and [validate] accepts the schema of that one variable, and it
    returns the value bound; when the variable is set, [get] throws
    what [validate] throws, and when it is not, the error for a
    required variable.  The environment is left as it was. *)
Theorem get_without_default_is_validate `{Host}
    (env : gmap string string) (varName : string)
    (validation : option Validation) (rule : Validation) :
  validation = Some rule -> rule <> Tag "" ->
  ownName env varName ->
  (forall v, env !! JSString.cstr varName = Some v -> JSString.cstr v = v) ->
  (forall value,
     fst (EnvKeeper.get env varName Omitted validation) = Return value
     <-> exists v : string,
           value = Str v
           /\ env !! JSString.cstr varName = Some v
           /\ EnvKeeper.validate env (ObjectOf [(varName, rule)])
              = Return true)
  /\ (isSet env varName ->
      forall e,
        fst (EnvKeeper.get env varName Omitted validation) = Throw e
        <-> EnvKeeper.validate env (ObjectOf [(varName, rule)]) = Throw e)
  /\ (~ isSet env varName ->
      fst (EnvKeeper.get env varName Omitted validation)
      = Throw (requiredError varName))
  /\ snd (EnvKeeper.get env varName Omitted validation) = env.
Proof.
  intros Hsome Hrule Hown Hnul.
  assert (Ht : truthyValidation validation = Some rule)
    by now apply truthyValidation_some.
  assert (Hset : forall v,
            env !! JSString.cstr varName = Some v -> v <> "" ->
            EnvKeeper.get env varName Omitted validation
            = (match EnvKeeper.validate env (ObjectOf [(varName, rule)]) with
               | Return _ => Return (Str v)
               | Throw e => Throw e
               end, env)).
  { intros v Hv Hne. unfold EnvKeeper.get.
    rewrite (resolve_set env varName v) by assumption. rewrite Ht.
    destruct (EnvKeeper.validate env _) as [b|e] eqn:Hval; [reflexivity|].
    cbn zeta. rewrite (write_same env varName v Hv (Hnul v Hv)), Hval.
    reflexivity. }
  assert (Hunset : ~ isSet env varName ->
            EnvKeeper.get env varName Omitted validation
            = (Throw (requiredError varName), env)).
  { intros Hns. unfold EnvKeeper.get. rewrite resolve_own by assumption.
    unfold resolvedValue. rewrite <- isSetb_true in Hns.
    now destruct (isSetb env varName). }
  assert (Hcases : isSet env varName \/ ~ isSet env varName).
  { rewrite <- isSetb_true. destruct (isSetb env varName); auto. }
  split; [|split; [|split]].
  - intros value. split.
    + destruct Hcases as [(v & Hv & Hne)|Hns].
      * rewrite (Hset v Hv Hne). cbn [fst].
        destruct (EnvKeeper.validate env _) as [b|e] eqn:Hval; [|discriminate].
        intros [= <-]. exists v. split; [reflexivity|]. split; [exact Hv|].
        now rewrite (validate_returns_true _ _ _ Hval).
      * rewrite (Hunset Hns). discriminate.
    + intros (v & -> & Hv & Hval).
      assert (Hne : v <> "").
      { intros ->. destruct (validate_missing env varName rule) as (m & Hm).
        - unfold EnvKeeper.lookupMissing. now rewrite (read_bound _ _ _ Hv).
        - congruence. }
      now rewrite (Hset v Hv Hne), Hval.
  - intros (v & Hv & Hne) e. rewrite (Hset v Hv Hne). cbn [fst].
    destruct (EnvKeeper.validate env _); split; congruence.
  - intros Hns. now rewrite (Hunset Hns).
  - destruct Hcases as [(v & Hv & Hne)|Hns].
    + now rewrite (Hset v Hv Hne).
    + now rewrite (Hunset Hns).
Qed.

(** [get('PORT', undefined, 'port')] with [PORT] bound to "8080" returns
    it; [get('B', undefined, 'number')] with [B] bound to "abc" throws
    the error of [validate]. *)
Lemma get_without_default_on_sample :
  fst (EnvKeeper.get (H := sampleHost) SampleMore.envPort "PORT" Omitted
         (Some (Tag "port")))
  = Return (Str "8080")
  /\ fst (EnvKeeper.get (H := sampleHost) Sample.envAB "B" Omitted
            (Some (Tag "number")))
     = Throw (EnvKeeperError
                (JSString.trim
                   (EnvKeeper.validateMessage []
                      [EnvKeeper.typeEntry "B" "abc" "number"]))
                [] [EnvKeeper.typeEntry "B" "abc" "number"]).
Proof.
  split.
  - destruct (get_without_default_is_validate (H := sampleHost)
                SampleMore.envPort "PORT" (Some (Tag "port")) (Tag "port")
                eq_refl ltac:(discriminate) (or_intror eq_refl))
      as (Hret & _).
    + intros v [= <-]. reflexivity.
    + apply Hret. exists "8080". split; [reflexivity|].
      split; vm_compute; reflexivity.
  - destruct (get_without_default_is_validate (H := sampleHost)
                Sample.envAB "B" (Some (Tag "number")) (Tag "number")
                eq_refl ltac:(discriminate) (or_intror eq_refl))
      as (_ & Hthrow & _).
    + intros v [= <-]. reflexivity.
    + apply Hthrow; [exists "abc"; split; [reflexivity|discriminate]|].
      vm_compute. reflexivity.
Defined.

(** ** Values with a minus sign *)

Section Negative.
Import JSString JSNumber.

Lemma readDigits_nonneg (radix : N) (s : string) (acc count : Z) :
  0 <= acc -> 0 <= fst (fst (readDigits radix acc count s)).
Proof.
  revert acc count. induction s as [|c s IH]; intros acc count Hacc;
    [exact Hacc|].
  cbn [readDigits]. destruct (digitValue radix c) as [k|] eqn:Hk;
    [|exact Hacc].
  apply IH.
  assert (0 <= k).
  { unfold digitValue in Hk.
    destruct (if ((48 <=? code c) && (code c <=? 57))%N then _ else _)
      as [d|]; [|discriminate].
    destruct (d <? radix)%N; [|discriminate].
    injection Hk as <-. lia. }
  assert (0 <= Z.of_N radix) by lia. nia.
Qed.

Lemma parseUnsignedDecimal_nonneg (s : string) (m e : Z) :
  parseUnsignedDecimal s = Some (m, e) -> 0 <= m.
Proof.
  assert (Hexp : forall mant e0 r, 0 <= mant ->
            parseExponent mant e0 r = Some (m, e) -> 0 <= m).
  { intros mant e0 r Hmant. unfold parseExponent.
    destruct r as [|c r]; [now intros [= <- _]|].
    destruct ((code c =? 101)%N || (code c =? 69)%N); [|discriminate].
    destruct (match r with
              | String "+" x => (1, x)
              | String "-" x => (-1, x)
              | _ => (1, r)
              end) as [sgn r'].
    destruct (readDigits 10 0 0 r') as [[v count] [|? ?]]; [|discriminate].
    destruct (count =? 0); [discriminate|]. now intros [= <- _]. }
  unfold parseUnsignedDecimal.
  pose proof (readDigits_nonneg 10 s 0 0 ltac:(lia)) as Hip.
  destruct (readDigits 10 0 0 s) as [[ip ni] r1]. cbn [fst] in Hip.
  assert (Hplain : (if ni =? 0 then None else parseExponent ip 0 r1)
                   = Some (m, e) -> 0 <= m).
  { destruct (ni =? 0); [discriminate|]. now apply Hexp. }
  destruct r1 as [|c r2]; [exact Hplain|].
  destruct c as [[] [] [] [] [] [] [] []]; try exact Hplain.
  pose proof (readDigits_nonneg 10 r2 ip 0 Hip) as Hfrac.
  destruct (readDigits 10 ip 0 r2) as [[mf nf] r3]. cbn [fst] in Hfrac.
  destruct ((ni =? 0) && (nf =? 0)); [discriminate|]. now apply Hexp.
Qed.

Lemma roundHalfEven_nonneg (n d : Z) :
  0 <= n -> 0 < d -> 0 <= roundHalfEven n d.
Proof.
  intros Hn Hd. unfold roundHalfEven.
  assert (0 <= n / d) by (apply Z.div_pos; lia).
  destruct (2 * (n mod d) <? d); [assumption|].
  destruct (d <? 2 * (n mod d)); [lia|].
  destruct (Z.even (n / d)); lia.
Qed.

Lemma scale_positive (n d e : Z) :
  0 <= n -> 0 < d -> 0 <= fst (scale n d e) /\ 0 < snd (scale n d e).
Proof.
  intros Hn Hd. unfold scale. destruct (0 <=? e) eqn:He; cbn [fst snd].
  - apply Z.leb_le in He.
    assert (0 < 2 ^ e) by (apply Z.pow_pos_nonneg; lia). nia.
  - apply Z.leb_gt in He.
    assert (0 < 2 ^ (- e)) by (apply Z.pow_pos_nonneg; lia). nia.
Qed.

(** A negative literal is never above 0. *)
Lemma binary64_negative (n d : Z) :
  0 <= n -> 0 < d -> gtZ (binary64 true n d) 0 = false.
Proof.
  intros Hn Hd. unfold binary64.
  destruct (scale n d (Z.log2 n - Z.log2 d - 52)) as [n1 d1].
  set (e := Z.max _ (-1074)).
  pose proof (scale_positive n d e Hn Hd) as [Hn' Hd'].
  destruct (scale n d e) as [n' d']. cbn [fst snd] in Hn', Hd'.
  pose proof (roundHalfEven_nonneg n' d' Hn' Hd') as Hm.
  destruct ((972 <=? e) || ((971 <=? e) && (2 ^ 53 <=? roundHalfEven n' d')));
    [reflexivity|].
  apply not_true_iff_false. rewrite gtZ_finite. cbn [signed].
  destruct (0 <=? e) eqn:He.
  - apply Z.leb_le in He.
    assert (0 < 2 ^ e) by (apply Z.pow_pos_nonneg; lia). nia.
  - lia.
Qed.

Lemma ofDecimal_negative (m e : Z) :
  0 <= m -> gtZ (ofDecimal true m e) 0 = false.
Proof.
  intros Hm. unfold ofDecimal. destruct (m =? 0); [reflexivity|].
  destruct (0 <=? e) eqn:He.
  - apply Z.leb_le in He. apply binary64_negative; [|lia].
    assert (0 < 10 ^ e) by (apply Z.pow_pos_nonneg; lia). nia.
  - apply Z.leb_gt in He. apply binary64_negative; [assumption|].
    apply Z.pow_pos_nonneg; lia.
Qed.

Lemma Number_minus (u : string) :
  gtZ (Number (String "-" u)) 0 = false.
Proof.
  unfold Number, trim.
  change (trimStart (String "-" u)) with ("" ++ String "-" u).
  rewrite (trimEnd_keeps_prefix "" u "-") by reflexivity.
  change ("" ++ String "-" (trimEnd u)) with (String "-" (trimEnd u)).
  cbn [isEmpty].
  replace (parseNonDecimal (String "-" (trimEnd u))) with (@None Z)
    by (now destruct (trimEnd u)).
  destruct (String.eqb (trimEnd u) "Infinity"); [reflexivity|].
  destruct (parseUnsignedDecimal (trimEnd u)) as [[m e]|] eqn:Hp;
    [|reflexivity].
  apply ofDecimal_negative. now apply parseUnsignedDecimal_nonneg in Hp.
Qed.

End Negative.

(** X17: a value that begins with a minus sign never passes the [port]
    check, whatever follows the sign. *)
Theorem minus_sign_fails_port `{Host} (u : string) :
  EnvKeeper._validateType (String "-" u) "port" = false.
Proof.
  change (EnvKeeper._validateType (String "-" u) "port")
    with (JSNumber.isInteger (JSNumber.Number (String "-" u))
          && JSNumber.gtZ (JSNumber.Number (String "-" u)) 0
          && JSNumber.leZ (JSNumber.Number (String "-" u)) 65535).
  rewrite Number_minus. now rewrite andb_false_r.
Qed.

(** ** Literals beyond the range of numbers *)

Section Overflow.
Import JSString JSNumber.

(** For an integer [n], the exponent chosen is [log2 n - 52]. *)
Lemma binary64_integer (neg : bool) (n : Z) :
  0 < n ->
  binary64 neg n 1
  = let e := Z.log2 n - 52 in
    let m := roundHalfEven (fst (scale n 1 e)) (snd (scale n 1 e)) in
    if (972 <=? e) || ((971 <=? e) && (2 ^ 53 <=? m)) then Infinity neg
    else Finite neg m e.
Proof.
  intros Hn. unfold binary64. change (Z.log2 1) with 0.
  destruct (Z.log2_spec n Hn) as [Hlo _].
  pose proof (Z.log2_nonneg n) as Hl0.
  set (l := Z.log2 n) in *.
  replace (l - 0 - 52) with (l - 52) by lia.
  assert (He2 : (let '(n1, d1) := scale n 1 (l - 52) in
                 if 2 ^ 52 * d1 <=? n1 then l - 52 else l - 52 - 1) = l - 52).
  { unfold scale. destruct (0 <=? l - 52) eqn:He.
    - apply Z.leb_le in He.
      replace (2 ^ 52 * (1 * 2 ^ (l - 52))) with (2 ^ l).
      + now replace (2 ^ l <=? n) with true by (symmetry; apply Z.leb_le; lia).
      + rewrite Z.mul_1_l, <- Z.pow_add_r by lia. f_equal. lia.
    - apply Z.leb_gt in He.
      replace (- (l - 52)) with (52 - l) by lia.
      assert (2 ^ 52 <= n * 2 ^ (52 - l)).
      { replace (2 ^ 52) with (2 ^ l * 2 ^ (52 - l)).
        - apply Z.mul_le_mono_nonneg_r; [apply Z.pow_nonneg|]; lia.
        - rewrite <- Z.pow_add_r by lia. f_equal. lia. }
      now replace (2 ^ 52 * 1 <=? n * 2 ^ (52 - l)) with true
        by (symmetry; apply Z.leb_le; lia). }
  destruct (scale n 1 (l - 52)) as [n1 d1] eqn:Hs. rewrite He2.
  rewrite Z.max_l by lia. cbn zeta. now rewrite Hs.
Qed.

(** An integer converts to a finite number exactly below
    2^1024 - 2^970, half way between the largest number and 2^1024. *)
Lemma binary64_integer_finite (neg : bool) (n : Z) :
  0 < n ->
  isFinite (binary64 neg n 1) = true <-> n < 2 ^ 1024 - 2 ^ 970.
Proof.
  intros Hn. rewrite (binary64_integer neg n Hn). cbn zeta.
  destruct (Z.log2_spec n Hn) as [Hlo Hhi].
  pose proof (Z.log2_nonneg n) as Hl0.
  set (l := Z.log2 n) in *.
  assert (H970 : 0 < 2 ^ 970) by (apply Z.pow_pos_nonneg; lia).
  assert (H1024 : 2 ^ 1024 = 2 ^ 54 * 2 ^ 970)
    by (rewrite <- Z.pow_add_r by lia; reflexivity).
  assert (H971 : 2 ^ 971 = 2 * 2 ^ 970)
    by (rewrite <- (Z.pow_succ_r 2 970) by lia; reflexivity).
  assert (H1023 : 2 ^ 1023 = 2 ^ 53 * 2 ^ 970)
    by (rewrite <- Z.pow_add_r by lia; reflexivity).
  assert (H54 : 2 ^ 54 = 18014398509481984) by reflexivity.
  assert (H53 : 2 ^ 53 = 9007199254740992) by reflexivity.
  destruct (Z_lt_le_dec l 1023) as [Hsmall|Hbig].
  - (* below 2^1023: the exponent stays under 971 *)
    replace (972 <=? l - 52) with false by (symmetry; apply Z.leb_gt; lia).
    replace (971 <=? l - 52) with false by (symmetry; apply Z.leb_gt; lia).
    cbn [orb andb isFinite]. split; [intros _|reflexivity].
    assert (2 ^ (l + 1) <= 2 ^ 1023) by (apply Z.pow_le_mono_r; lia).
    set (P := 2 ^ 970) in *. nia.
  - destruct (Z_lt_le_dec 1023 l) as [Hover|Hle].
    + (* from 2^1024 on: overflow *)
      replace (972 <=? l - 52) with true by (symmetry; apply Z.leb_le; lia).
      cbn [orb isFinite]. split; [discriminate|].
      assert (2 ^ 1024 <= 2 ^ l) by (apply Z.pow_le_mono_r; lia).
      set (P := 2 ^ 970) in *. nia.
    + (* between 2^1023 and 2^1024: the rounding decides *)
      assert (l = 1023) as Hl by lia. rewrite Hl in *.
      change (1023 - 52) with 971. change (1023 + 1) with 1024 in Hhi.
      change (972 <=? 971) with false. change (971 <=? 971) with true.
      cbn [orb andb]. unfold scale. change (0 <=? 971) with true.
      cbn [fst snd]. rewrite Z.mul_1_l. unfold roundHalfEven.
      rewrite H971. set (P := 2 ^ 970) in *.
      assert (Hq : n = (2 * P) * (n / (2 * P)) + n mod (2 * P))
        by (apply Z.div_mod; lia).
      assert (Hr : 0 <= n mod (2 * P) < 2 * P) by (apply Z.mod_pos_bound; lia).
      set (q := n / (2 * P)) in *. set (r := n mod (2 * P)) in *.
      assert (Hqlo : 2 ^ 52 <= q) by (change (2 ^ 52) with 4503599627370496; nia).
      assert (Hqhi : q < 2 ^ 53) by nia.
      rewrite H53 in *. change (2 ^ 52) with 4503599627370496 in Hqlo.
      destruct (2 * r <? 2 * P) eqn:C1.
      * apply Z.ltb_lt in C1.
        replace (9007199254740992 <=? q) with false
          by (symmetry; apply Z.leb_gt; lia).
        cbn [isFinite]. split; [intros _|reflexivity]. nia.
      * apply Z.ltb_ge in C1.
        assert (Hup : forall m, m = q + 1 ->
                  (isFinite (if 9007199254740992 <=? m then Infinity neg
                             else Finite neg m 971) = true
                   <-> n < 18014398509481984 * P - P)).
        { intros m ->.
          destruct (9007199254740992 <=? q + 1) eqn:C3.
          - apply Z.leb_le in C3. cbn [isFinite].
            split; [discriminate|]. nia.
          - apply Z.leb_gt in C3. cbn [isFinite].
            split; [intros _|reflexivity]. nia. }
        rewrite H1024, H54.
        destruct (2 * P <? 2 * r) eqn:C2; [now apply Hup|].
        apply Z.ltb_ge in C2.
        destruct (Z.even q) eqn:Hev; [|now apply Hup].
        replace (9007199254740992 <=? q) with false
          by (symmetry; apply Z.leb_gt; lia).
        cbn [isFinite]. split; [intros _|reflexivity].
        assert (q <> 9007199254740991).
        { intros ->. discriminate. }
        nia.
Qed.

End Overflow.

(** X18: a value of decimal digits passes the [number] check exactly
    when the integer it writes is below 2^1024 - 2^970, the least integer
    that converts to infinity; longer literals are set but are no
    numbers. *)
Theorem digit_strings_overflow_the_number_check `{Host} (v : string) :
  allDigitChars v = true -> v <> "" ->
  (EnvKeeper._validateType v "number" = true
   <-> decimalValue 0 v < 2 ^ 1024 - 2 ^ 970)
  /\ EnvKeeper._validateType v "port"
     = (1 <=? decimalValue 0 v) && (decimalValue 0 v <=? 65535).
Proof.
  intros Hd Hne.
  change (EnvKeeper._validateType v "number")
    with (negb (JSNumber.isNaN (JSNumber.Number v))
          && JSNumber.isFinite (JSNumber.Number v)).
  change (EnvKeeper._validateType v "port")
    with (JSNumber.isInteger (JSNumber.Number v)
          && JSNumber.gtZ (JSNumber.Number v) 0
          && JSNumber.leZ (JSNumber.Number v) 65535).
  rewrite (Number_digits v Hd Hne).
  destruct (decimalValue_bound v 0 Hd ltac:(lia)) as [Hlo _].
  rewrite Z.mul_0_l in Hlo.
  set (n := decimalValue 0 v) in *.
  assert (H970 : 0 < 2 ^ 970) by (apply Z.pow_pos_nonneg; lia).
  assert (H1024 : 2 ^ 1024 = 2 ^ 54 * 2 ^ 970)
    by (rewrite <- Z.pow_add_r by lia; reflexivity).
  assert (H54 : 2 ^ 54 = 18014398509481984) by reflexivity.
  unfold JSNumber.ofDecimal. destruct (n =? 0) eqn:H0.
  - apply Z.eqb_eq in H0. rewrite H0. split.
    + cbn [JSNumber.isNaN JSNumber.isFinite negb andb].
      split; [intros _|reflexivity]. set (P := 2 ^ 970) in *. nia.
    + reflexivity.
  - apply Z.eqb_neq in H0. cbn [Z.leb Z.compare].
    change (10 ^ 0) with 1. rewrite Z.mul_1_r.
    split.
    + rewrite <- (binary64_integer_finite false n) by lia.
      destruct (JSNumber.binary64 false n 1); cbn; split; congruence.
    + destruct (Z_lt_le_dec n (2 ^ 53)) as [Hsmall|Hbig].
      * pose proof (binary64_exact false n ltac:(lia)) as Hden.
        cbn [JSNumber.signed] in Hden.
        destruct ((1 <=? n) && (n <=? 65535)) eqn:Hr.
        -- apply port_range. exists n. split; [lia|exact Hden].
        -- apply not_true_iff_false. rewrite port_range.
           intros (k & Hk & Hdk).
           rewrite (denotes_unique _ _ _ Hden Hdk) in Hr. lia.
      * replace ((1 <=? n) && (n <=? 65535)) with false
          by (symmetry; apply andb_false_iff; right; apply Z.leb_gt;
              change (2 ^ 53) with 9007199254740992 in Hbig; lia).
        apply not_true_iff_false. rewrite port_range.
        intros (k & Hk & Hdk). revert Hdk.
        rewrite (binary64_integer false n) by lia. cbn zeta.
        destruct (Z.log2_spec n ltac:(lia)) as [Hl2 _].
        assert (Hl : 53 <= Z.log2 n).
        { apply Z.log2_le_pow2; [lia|exact Hbig]. }
        set (l := Z.log2 n) in *.
        destruct ((972 <=? l - 52) || _); [intros []|].
        cbn [JSNumber.denotes JSNumber.signed].
        replace (0 <=? l - 52) with true by (symmetry; apply Z.leb_le; lia).
        unfold JSNumber.scale.
        replace (0 <=? l - 52) with true by (symmetry; apply Z.leb_le; lia).
        cbn [fst snd]. rewrite Z.mul_1_l. intros Hk'.
        assert (Hp : 0 < 2 ^ (l - 52)) by (apply Z.pow_pos_nonneg; lia).
        assert (Hq : 2 ^ 52 <= n / 2 ^ (l - 52)).
        { apply Z.div_le_lower_bound; [lia|].
          rewrite Z.mul_comm, <- Z.pow_add_r by lia.
          now replace (52 + (l - 52)) with l by lia. }
        assert (Hm : n / 2 ^ (l - 52)
                     <= JSNumber.roundHalfEven n (2 ^ (l - 52))).
        { unfold JSNumber.roundHalfEven.
          destruct (_ <? _); [lia|]. destruct (_ <? _); [lia|].
          destruct (Z.even _); lia. }
        change (2 ^ 52) with 4503599627370496 in Hq.
        assert (1 <= 2 ^ (l - 52)) by lia. nia.
Qed.

Lemma digit_strings_overflow_on_sample :
  EnvKeeper._validateType (H := sampleHost) SampleMore.hugeLiteral "number"
  = false.
Proof.
  destruct (digit_strings_overflow_the_number_check (H := sampleHost)
              SampleMore.hugeLiteral) as (Hnum & _).
  - vm_compute. reflexivity.
  - discriminate.
  - apply not_true_iff_false. rewrite Hnum. vm_compute. discriminate.
Defined.
(** ** Names that the prototype answers *)

(** X19: a name that is not bound and that the prototype of
    [process.env] answers is never taken for missing: [require] passes
    it, [check] lists it as set, [validate] does not list it as missing,
    and [get] returns what the prototype holds, whatever the default,
    when no rule is given. *)
Theorem inherited_names_count_as_set `{Host}
    (env : gmap string string) (varName : string) (o : Foreign) :
  env !! JSString.cstr varName = None ->
  inherited varName = Some o ->
  ~ isSet env varName
  /\ EnvKeeper.require env (ArrayOf [varName]) = Return true
  /\ EnvKeeper.check env [varName] = mkCheck true [] [varName]
  /\ (forall rule message missing invalid,
        EnvKeeper.validate env (ObjectOf [(varName, rule)])
        = Throw (EnvKeeperError message missing invalid) ->
        missing = [] /\ Forall (fun item => value item = Inherited o) invalid)
  /\ (forall defaultValue,
        EnvKeeper.get env varName defaultValue None
        = (Return (Inherited o), env)).
Proof.
  intros Hn Ho.
  assert (Hread : EnvKeeper.read env varName = Inherited o)
    by now apply read_inherited.
  assert (Hm : EnvKeeper.lookupMissing env varName = false).
  { unfold EnvKeeper.lookupMissing. now rewrite Hread. }
  split.
  { intros (v & Hv & _). congruence. }
  split.
  { rewrite require_outcome. cbn [List.filter]. now rewrite Hm. }
  split.
  { unfold EnvKeeper.check. cbn [List.filter]. rewrite Hm.
    cbn [List.length JSString.includes existsb negb List.filter]. reflexivity. }
  split.
  { intros rule message missing invalid.
    rewrite validate_outcome, invalidOf_cons, Hread. unfold missingOf.
    cbn [List.map fst List.filter]. rewrite Hm.
    pose proof (checkObject_outcome varName o (EnvKeeper.normalize rule))
      as Hout.
    destruct (EnvKeeper.checkObject varName o (EnvKeeper.normalize rule))
      as [pushed|e] eqn:Hc; cbn.
    2:{ intros [= ->]. destruct Hout as [(m & Hm')|(p & Hp & _)]; discriminate. }
    rewrite app_nil_r. destruct pushed as [|item more]; [discriminate|].
    intros [= <- <- <-]. split; [reflexivity|].
    apply checkObject_entries in Hc as [Hc _].
    apply List.Forall_forall. intros x Hx.
    now apply (proj1 (List.Forall_forall _ _) Hc x Hx). }
  intros defaultValue. unfold EnvKeeper.get.
  rewrite resolve_not_missing, Hread by assumption. reflexivity.
Qed.

(** [toString] on the empty environment. *)
Lemma inherited_names_on_sample :
  EnvKeeper.get (H := sampleHost) ∅ "toString" (Given "fallback") None
  = (Return (Inherited (nativeFunction "toString" 0)), ∅).
Proof.
  destruct (inherited_names_count_as_set (H := sampleHost) ∅ "toString"
              (nativeFunction "toString" 0))
    as (_ & _ & _ & _ & Hget).
  - reflexivity.
  - reflexivity.
  - exact (Hget (Given "fallback")).
Defined.

(** ** Names that the platform does not store *)

(** X20: for a name that the platform does not store (empty, or with
    [=]), that is not set and that the prototype does not answer, a
    default cannot be validated: with a rule other than the empty
    string, [get] throws the error of [validate] for the missing name
    and leaves the environment as it was, whatever the default; without
    a rule it returns the default. *)
Theorem unstorable_names_lose_their_default `{Host}
    (env : gmap string string) (varName str : string) (rule : Validation) :
  EnvKeeper.storable varName = false ->
  ownName env varName -> ~ isSet env varName ->
  rule <> Tag "" ->
  EnvKeeper.get env varName (Given str) (Some rule)
  = (Throw (EnvKeeperError
              (JSString.trim (EnvKeeper.validateMessage [varName] []))
              [varName] []),
     env)
  /\ EnvKeeper.get env varName (Given str) None = (Return (Str str), env).
Proof.
  intros Hs Hown Hns Hrule.
  assert (Hm : EnvKeeper.lookupMissing env varName = true).
  { rewrite lookupMissing_own by assumption.
    rewrite <- isSetb_true in Hns. now destruct (isSetb env varName). }
  assert (Ht : truthyValidation (Some rule) = Some rule)
    by now apply truthyValidation_some.
  assert (Hval : EnvKeeper.validate env (ObjectOf [(varName, rule)])
                 = Throw (EnvKeeperError
                            (JSString.trim
                               (EnvKeeper.validateMessage [varName] []))
                            [varName] [])).
  { rewrite validate_outcome, invalidOf_cons. unfold missingOf.
    cbn [List.map fst List.filter]. rewrite Hm.
    unfold EnvKeeper.lookupMissing in Hm.
    destruct (EnvKeeper.read env varName) as [|v|o]; cbn [isMissing] in Hm;
      [|rewrite Hm|discriminate]; reflexivity. }
  split.
  - unfold EnvKeeper.get. rewrite resolve_missing by assumption.
    cbn [EnvKeeper.orDefault]. rewrite Ht, Hval. cbn zeta.
    unfold EnvKeeper.write. rewrite Hs, Hval. reflexivity.
  - unfold EnvKeeper.get. rewrite resolve_missing by assumption. reflexivity.
Qed.

(** [get('A=B', 'x', 'string')] on the empty environment. *)
Lemma unstorable_names_on_sample :
  EnvKeeper.get (H := sampleHost) ∅ "A=B" (Given "x") (Some (Tag "string"))
  = (Throw (EnvKeeperError "Missing environment variables: A=B" ["A=B"] []),
     ∅).
Proof.
  destruct (unstorable_names_lose_their_default (H := sampleHost)
              ∅ "A=B" "x" (Tag "string") eq_refl (or_intror eq_refl))
    as (Hthrow & _).
  - intros (v & Hv & _). discriminate.
  - discriminate.
  - exact Hthrow.
Defined.

(** X21: what [validate] does with a name that is not bound and that the
    prototype of [process.env] answers with a value of length [k] (a
    function of [k] parameters): a [minLength] above [k] or a
    [maxLength] below it ends in the [TypeError] of [substring]; an
    [enum] always reports the value, whatever the list; a type outside
    the table passes, and so does a rule without constraints. *)
Theorem inherited_names_under_validate `{Host}
    (env : gmap string string) (varName : string) (o : Foreign) (k : Z) :
  env !! JSString.cstr varName = None ->
  inherited varName = Some o ->
  foreignLength o = Some k ->
  (forall m,
     k < m -> m <> 0 ->
     EnvKeeper.validate env
       (ObjectOf [(varName, Rules (mkRule None (Some m) None None None))])
     = Throw (TypeError "value.substring is not a function"))
  /\ (forall m,
        m < k -> m <> 0 ->
        EnvKeeper.validate env
          (ObjectOf [(varName, Rules (mkRule None None (Some m) None None))])
        = Throw (TypeError "value.substring is not a function"))
  /\ (forall l,
        EnvKeeper.validate env
          (ObjectOf [(varName, Rules (mkRule None None None None (Some l)))])
        = Throw (EnvKeeperError
                   (JSString.trim
                      (EnvKeeper.validateMessage []
                         [EnvKeeper.enumEntry varName (Inherited o) l]))
                   [] [EnvKeeper.enumEntry varName (Inherited o) l]))
  /\ (forall t,
        ~ In (JSString.toLowerCase t)
             ["string"; "number"; "boolean"; "url"; "email"; "json"; "port"] ->
        EnvKeeper.validate env (ObjectOf [(varName, Tag t)]) = Return true)
  /\ EnvKeeper.validate env
       (ObjectOf [(varName, Rules (mkRule None None None None None))])
     = Return true.
Proof.
  intros Hn Ho Hk.
  assert (Hread : EnvKeeper.read env varName = Inherited o)
    by now apply read_inherited.
  assert (Hm : EnvKeeper.lookupMissing env varName = false).
  { unfold EnvKeeper.lookupMissing. now rewrite Hread. }
  assert (Hval : forall rule,
            EnvKeeper.validate env (ObjectOf [(varName, rule)])
            = match EnvKeeper.checkObject varName o (EnvKeeper.normalize rule) with
              | Return [] => Return true
              | Return invalid =>
                  Throw (EnvKeeperError
                           (JSString.trim (EnvKeeper.validateMessage [] invalid))
                           [] invalid)
              | Throw e => Throw e
              end).
  { intros rule. rewrite validate_outcome, invalidOf_cons, Hread.
    unfold missingOf. cbn [List.map fst List.filter]. rewrite Hm.
    destruct (EnvKeeper.checkObject varName o (EnvKeeper.normalize rule))
      as [pushed|e]; cbn; [|reflexivity].
    rewrite app_nil_r. now destruct pushed. }
  split.
  { intros m Hlt Hne. rewrite Hval.
    unfold EnvKeeper.checkObject, EnvKeeper.additionalRulesOfObject,
      EnvKeeper.lengthOfObject, truthyNumber.
    cbn [EnvKeeper.normalize type minLength truthyString].
    rewrite Hk. apply Z.eqb_neq in Hne. rewrite Hne.
    apply Z.ltb_lt in Hlt. now rewrite Hlt. }
  split.
  { intros m Hlt Hne. rewrite Hval.
    unfold EnvKeeper.checkObject, EnvKeeper.additionalRulesOfObject,
      EnvKeeper.lengthOfObject, truthyNumber.
    cbn [EnvKeeper.normalize type minLength maxLength truthyString].
    rewrite Hk. apply Z.eqb_neq in Hne. rewrite Hne.
    apply Z.ltb_lt in Hlt. now rewrite Hlt. }
  split.
  { intros l. rewrite Hval. reflexivity. }
  split.
  { intros t Hun. rewrite Hval.
    unfold EnvKeeper.checkObject.
    cbn [EnvKeeper.normalize type truthyString].
    destruct (JSString.isEmpty t); [reflexivity|].
    unfold EnvKeeper._validateTypeOfObject.
    repeat match goal with
           | |- context [String.eqb (JSString.toLowerCase t) ?s] =>
               destruct (String.eqb_spec (JSString.toLowerCase t) s) as [Heq|_];
               [exfalso; apply Hun; rewrite Heq; cbn; tauto|]
           end.
    reflexivity. }
  rewrite Hval. reflexivity.
Qed.

(** [validate({toString: {minLength: 5}})] on the empty environment. *)
Lemma inherited_names_under_validate_on_sample :
  EnvKeeper.validate (H := sampleHost) ∅
    (ObjectOf [("toString", Rules (mkRule None (Some 5) None None None))])
  = Throw (TypeError "value.substring is not a function").
Proof.
  destruct (inherited_names_under_validate (H := sampleHost) ∅ "toString"
              (nativeFunction "toString" 0) 0) as (Hmin & _).
  - reflexivity.
  - reflexivity.
  - reflexivity.
  - apply Hmin; [lia|discriminate].
Defined.

